(** * Thermo Tracker: the usage ledger engine of [usage_manager.py]

    A shallow embedding of [UsageGenerator] (the code that appends one block
    of rows per run to the usage workbook) together with the parts of its
    collaborators that the engine relies on: the cell grid of an openpyxl
    worksheet, the JSON configuration dictionary, and the validated console
    prompts of pyinputplus.

    Conventions.
    - Python integers are [Z]; Python floats are kept abstract in the class
      [PyRuntime] (the engine only multiplies and sums them).
    - The worksheet is a finite map from [(row, column)] to cells, as
      openpyxl keeps it in [Worksheet._cells]; asking for a cell that does
      not exist creates it, and [max_row] is computed from the keys.
    - The console is a script of validated answers that the run consumes in
      order; every prompt and its answer is appended to a transcript.  A run
      that asks for more than the script holds is [Blocked].
    - An uncaught Python exception ends the run ([Raise]); nothing is saved.
    - Printing and logging are not modelled. *)

From Stdlib Require Import ZArith Ascii String List Lia PrimFloat SpecFloat FloatOps.
From stdpp Require Import base option list gmap strings fin_maps numbers pretty.

Open Scope Z_scope.

(** ** Python values *)

(** [datetime.date]: a calendar date. *)
Record date := mkDate { year : Z; month : Z; day : Z }.

(** What the engine needs from the Python runtime and leaves to it:
    binary floating point, and the C library's [strftime].  [float_of_int]
    is the conversion done by mixed arithmetic (it fails with OverflowError
    on integers beyond the float range); [float_sum] is the builtin [sum]
    on a sequence that holds at least one float, whose rounding depends on
    the interpreter version. *)
Class PyRuntime := {
  float : Type;
  float_of_int : Z → option float;
  float_mul : float → float → float;
  float_sum : list (Z + float) → option float;
  strftime : date → string → string;
}.

(** A runtime to run the model on concrete ledgers: IEEE 754 binary64
    floats, summed from left to right, and zero padded dates. *)
Definition float_of_Z (z : Z) : option PrimFloat.float :=
  let f := SF2Prim (binary_normalize prec emax z 0 false) in
  if PrimFloat.is_infinity f then None else Some f.

Definition float_of_number (x : Z + PrimFloat.float) : option PrimFloat.float :=
  match x with inl z => float_of_Z z | inr f => Some f end.

Definition zero_pad (digits : nat) (z : Z) : string :=
  let s := pretty z in
  String.append (Nat.iter (digits - String.length s) (String "0"%char) EmptyString) s.

Fixpoint format_directives (d : date) (fmt : string) : string :=
  match fmt with
  | String "%"%char (String "d"%char rest) => String.append (zero_pad 2 (day d)) (format_directives d rest)
  | String "%"%char (String "m"%char rest) => String.append (zero_pad 2 (month d)) (format_directives d rest)
  | String "%"%char (String "Y"%char rest) => String.append (zero_pad 4 (year d)) (format_directives d rest)
  | String c rest => String c (format_directives d rest)
  | EmptyString => EmptyString
  end.

Definition binary64 : PyRuntime := {|
  float := PrimFloat.float;
  float_of_int := float_of_Z;
  float_mul := PrimFloat.mul;
  float_sum := λ l,
    foldl (λ acc x, a ← acc; f ← float_of_number x; Some (PrimFloat.add a f))
          (Some PrimFloat.zero) l;
  strftime := format_directives;
|}.

Inductive exn := KeyError | TypeError | ValueError | AttributeError | OverflowError.

Inductive result (A : Type) := Ok (a : A) | Err (e : exn).
Arguments Ok {A} a.
Arguments Err {A} e.

(** ** Constants of [constants.py] *)

(** Modelled from the spec: the enum [SharedNumbers] (alias [SNums]) is used
    by [usage_manager.py] but not declared in [constants.py]; each member is
    the number its name spells, which agrees with the column layout of the
    specification and with [UsageFileCols]. *)
Module SNums.
Definition ONE : Z := 1.
Definition TWO : Z := 2.
Definition THREE : Z := 3.
Definition FOUR : Z := 4.
Definition FIVE : Z := 5.
Definition SIX : Z := 6.
Definition SEVEN : Z := 7.
Definition EIGHT : Z := 8.
Definition NINE : Z := 9.
Definition TWELVE : Z := 12.
Definition THIRTY_ONE : Z := 31.
Definition ONE_HUNDRED_FIFTY : Z := 150.
Definition TWO_HUNDRED : Z := 200.
End SNums.

Module CKeys.
Definition REGISTRY_FILE : string := "registry_file".
Definition RADIATORS_OWNED : string := "radiators_owned".
Definition DATE_FORMAT : string := "date_format".
Definition DATE_INPUT_MODE : string := "date_input_mode".
Definition LAST_START_ROW : string := "last_start_row".
Definition START_ROW : string := "start_row".
End CKeys.

Module SCons.
Definition AGREE : string := "yes".
Definition DATE_AUTO : string := "Auto".
Definition EUROPEAN : string := "European".
Definition EMPTY_STR : string := "".
End SCons.

Module DForm.
Definition EU_FORMAT : string := "%d/%m/%Y".
Definition US_FORMAT : string := "%m/%d/%Y".
End DForm.

Module UsMeta.
Definition SHEET_NAME : string := "Radiators Usage".
Definition HEADERS : list string :=
    ["Date"; "Radiator Name"; "Radiator ID"; "Coefficient"; "Raw Reading";
     "Actual Value"; "Total"; "Valve Setting"; "Notes"]%string.
Definition FREEZE_HEADERS : string := "A2".
Definition COLS : list string :=
    ["A"; "B"; "C"; "D"; "E"; "F"; "G"; "H"; "I"]%string.
Definition COL_EXTRA_SPACE : Z := 10.
Definition NOTES_COLUMN_SPACE : Z := 50.
Definition NOTE_VERTICAL_ALIGNMENT : string := "top".
Definition NOTE_HORIZONTAL_ALIGNMENT : string := "left".
End UsMeta.

Create HintDb consts.

#[global] Hint Unfold SNums.ONE SNums.TWO SNums.THREE SNums.FOUR SNums.FIVE
  SNums.SIX SNums.SEVEN SNums.EIGHT SNums.NINE SNums.TWELVE SNums.THIRTY_ONE
  : consts.

(** ** The console *)

(** A validated answer, as the prompt functions return it. *)
Inductive response :=
| RLine (s : string)   (* [input()]: any line, for the press-Enter screens *)
| RYesNo (b : bool)    (* [pyip.inputYesNo]: "yes" or "no" *)
| RStr (s : string)    (* [pyip.inputStr]: a non blank string *)
| RInt (z : Z).        (* [pyip.inputInt] *)

Inductive info_msg := USAGE_DATA_ENTRY_INTRO | VALVE_SETTING_ENTRY | VALVE_SETTING_UPDATE.

(** How a run ends: with a result, with an uncaught exception, or waiting
    for an answer that the script does not hold. *)
Inductive outcome (A : Type) :=
| Done (a : A)
| Raise (e : exn)
| Blocked.
Arguments Done {A} a.
Arguments Raise {A} e.
Arguments Blocked {A}.

Section Engine.

Context {rt : PyRuntime}.

(** A cell value or a JSON value: [None], an [int], a [float] or a [str]. *)
Inductive pyval := VNone | VInt (z : Z) | VFloat (f : float) | VStr (s : string).

Definition is_none (v : pyval) : bool :=
  match v with VNone => true | _ => false end.

(** [s * n] on a string: [n] copies, none when [n <= 0]. *)
Definition str_repeat (s : string) (n : Z) : string :=
  Nat.iter (Z.to_nat n) (String.append s) EmptyString.

(** Python's [a * b] on the values a cell can hold. *)
Definition py_mul (a b : pyval) : result pyval :=
  match a, b with
  | VInt x, VInt y => Ok (VInt (x * y))
  | VFloat f, VFloat g => Ok (VFloat (float_mul f g))
  | VFloat f, VInt y =>
      match float_of_int y with
      | Some g => Ok (VFloat (float_mul f g))
      | None => Err OverflowError
      end
  | VInt x, VFloat g =>
      match float_of_int x with
      | Some f => Ok (VFloat (float_mul f g))
      | None => Err OverflowError
      end
  | VStr s, VInt n | VInt n, VStr s => Ok (VStr (str_repeat s n))
  | _, _ => Err TypeError
  end.

(** The numbers of a sequence, if it holds nothing else. *)
Fixpoint numbers_of (l : list pyval) : option (list (Z + float)) :=
  match l with
  | [] => Some []
  | VInt z :: l' => cons (inl z) <$> numbers_of l'
  | VFloat f :: l' => cons (inr f) <$> numbers_of l'
  | _ :: _ => None
  end.

(** The integers of a sequence of numbers, if it holds no float. *)
Fixpoint ints_of (l : list (Z + float)) : option (list Z) :=
  match l with
  | [] => Some []
  | inl z :: l' => cons z <$> ints_of l'
  | inr _ :: _ => None
  end.

Definition sum_list_Z (l : list Z) : Z := foldr Z.add 0 l.

(** The builtin [sum(values)], starting from the integer [0]: exact on
    integers, left to the runtime once a float takes part, and a TypeError
    on [None] or a string. *)
Definition py_sum (l : list pyval) : result pyval :=
  match numbers_of l with
  | None => Err TypeError
  | Some ns =>
      match ints_of ns with
      | Some zs => Ok (VInt (sum_list_Z zs))
      | None =>
          match float_sum ns with
          | Some f => Ok (VFloat f)
          | None => Err OverflowError
          end
      end
  end.

(** ** The worksheet (openpyxl) *)

Record Alignment := mkAlignment
  { wrap_text : bool; vertical : string; horizontal : string }.

Record Comment := mkComment
  { text : string; author : string; height : Z; width : Z }.

Record Cell := mkCell
  { value : pyval; comment : option Comment; alignment : option Alignment }.

(** What sits at a coordinate: an ordinary cell, or the read-only
    placeholder that [merge_cells] leaves everywhere in a merged region but
    at its top-left corner. *)
Inductive slot := Plain (c : Cell) | MergedCell.

Record CellRange := mkCellRange
  { min_row : Z; min_col : Z; max_row_ : Z; max_col : Z }.

Record Worksheet := mkWorksheet {
  _cells : gmap (Z * Z) slot;
  merged_cells : list CellRange;
  title : string;
  freeze_panes : option string;
  column_width : gmap string Z;
}.

Definition blank : Cell := mkCell VNone None None.

(** A new [openpyxl.Workbook()]'s active sheet. *)
Definition new_worksheet : Worksheet :=
  mkWorksheet ∅ [] "Sheet" None ∅.

Definition with_cells (ws : Worksheet) (m : gmap (Z * Z) slot) : Worksheet :=
  mkWorksheet m (merged_cells ws) (title ws) (freeze_panes ws) (column_width ws).

(** [ws._cells[k] = s] *)
Definition put_slot (ws : Worksheet) (k : Z * Z) (s : slot) : Worksheet :=
  with_cells ws (<[k := s]> (_cells ws)).

Definition rows_of (ws : Worksheet) : list Z := (map_to_list (_cells ws)).*1.*1.

(** [Worksheet.max_row]: the largest row index that has a cell, and 1 on a
    sheet without cells (row indices are at least 1). *)
Definition max_row (ws : Worksheet) : Z := foldr Z.max 1 (rows_of ws).

(** [Worksheet._current_row]: the largest row index that has a cell, and 0
    on a sheet without cells. *)
Definition _current_row (ws : Worksheet) : Z := foldr Z.max 0 (rows_of ws).

(** What a coordinate holds, a cell that was never created reading as a
    blank one. *)
Definition slot_at (ws : Worksheet) (row column : Z) : slot :=
  default (Plain blank) (_cells ws !! (row, column)).

Definition slot_value (s : slot) : pyval :=
  match s with Plain c => value c | MergedCell => VNone end.

Definition slot_comment (s : slot) : option Comment :=
  match s with Plain c => comment c | MergedCell => None end.

Definition value_at (ws : Worksheet) (row column : Z) : pyval :=
  slot_value (slot_at ws row column).

Definition comment_at (ws : Worksheet) (row column : Z) : option Comment :=
  slot_comment (slot_at ws row column).

(** [Worksheet._get_cell]: the cell at a coordinate, created blank when it
    does not exist yet. *)
Definition _get_cell (ws : Worksheet) (row column : Z) : slot * Worksheet :=
  match _cells ws !! (row, column) with
  | Some s => (s, ws)
  | None => (Plain blank, put_slot ws (row, column) (Plain blank))
  end.

(** The coordinates of a range, row by row. *)
Definition range_coords (cr : CellRange) : list (Z * Z) :=
  r ← seqZ (min_row cr) (max_row_ cr - min_row cr + 1);
  c ← seqZ (min_col cr) (max_col cr - min_col cr + 1);
  [(r, c)].

(** [a <= b] on ranges: [a] lies within [b]. *)
Definition range_within (a b : CellRange) : bool :=
  (min_row b <=? min_row a) && (max_row_ a <=? max_row_ b) &&
  (min_col b <=? min_col a) && (max_col a <=? max_col b).

(** [MultiCellRange.add]: a range that an existing one covers is not
    recorded again. *)
Definition merged_add (l : list CellRange) (cr : CellRange) : list CellRange :=
  if existsb (range_within cr) l then l else l ++ [cr].

(** ** The state of a run *)

Inductive prompt :=
| ShowInfo (msg : info_msg)
| AskDay | AskMonth | AskYear
| AskConfirmDate (formatted : string)
| AskValveSetting (name : pyval)
| AskModifyAny (label : string)
| AskChangeValve (name current : pyval)
| AskNewValve (name : pyval)
| AskApplyChange
| AskRawReading (name : pyval)
| AskAddNote
| AskNote.

Record world := mkWorld {
  worksheet : Worksheet;
  config_data : gmap string pyval;
  config_update : bool;
  stdin : list response;
  transcript : list (prompt * response);
}.

Definition M (A : Type) : Type := world → outcome (A * world).

#[global] Instance M_ret : MRet M := λ A a w, Done (a, w).

#[global] Instance M_bind : MBind M := λ A B f m w,
  match m w with
  | Done (a, w') => f a w'
  | Raise e => Raise e
  | Blocked => Blocked
  end.

Definition raise {A} (e : exn) : M A := λ _, Raise e.

Definition lift {A} (r : result A) : M A :=
  match r with Ok a => mret a | Err e => raise e end.

Definition get_worksheet : M Worksheet := λ w, Done (worksheet w, w).

Definition put_worksheet (ws : Worksheet) : M unit := λ w,
  Done (tt, mkWorld ws (config_data w) (config_update w) (stdin w) (transcript w)).

Definition get_config : M (gmap string pyval) := λ w, Done (config_data w, w).

Definition put_config (c : gmap string pyval) : M unit := λ w,
  Done (tt, mkWorld (worksheet w) c (config_update w) (stdin w) (transcript w)).

Definition set_config_update (b : bool) : M unit := λ w,
  Done (tt, mkWorld (worksheet w) (config_data w) b (stdin w) (transcript w)).

(** One validated answer is taken from the script and logged with the
    prompt it answers. *)
Definition ask {A} (p : prompt) (accept : response → option A) : M A := λ w,
  match stdin w with
  | [] => Blocked
  | r :: rest =>
      match accept r with
      | Some a =>
          Done (a, mkWorld (worksheet w) (config_data w) (config_update w) rest
                           (transcript w ++ [(p, r)]))
      | None => Blocked
      end
  end.


Definition blocked {A} : M A := λ _, Blocked.

(** A loop whose every turn asks for at least one answer cannot take more
    turns than there are answers left, plus the one that finds none: the
    fuel handed out here never runs out before the script does. *)
Definition with_fuel {A} (loop : nat → M A) : M A :=
  λ w, loop (S (length (stdin w))) w.

(** [for x in l: body(x)] *)
Fixpoint for_each {A} (l : list A) (body : A → M unit) : M unit :=
  match l with
  | [] => mret tt
  | x :: l' => _ ← body x; for_each l' body
  end.

(** [[f(x) for x in l]] *)
Fixpoint for_list {A B} (l : list A) (f : A → M B) : M (list B) :=
  match l with
  | [] => mret []
  | x :: l' => y ← f x; ys ← for_list l' f; mret (y :: ys)
  end.

(** [range(a, b)] *)
Definition range (a b : Z) : list Z := seqZ a (b - a).

(** *** Cells *)

(** [ws.cell(row, column).value]: the value at a coordinate; the cell is
    created when it does not exist. *)
Definition ws_read (ws : Worksheet) (row column : Z) : result (pyval * Worksheet) :=
  if (row <? 1) || (column <? 1) then Err ValueError
  else let '(s, ws') := _get_cell ws row column in Ok (slot_value s, ws').

(** [ws.cell(row, column, value)]: as above, and the value is bound to the
    cell unless it is [None]; a merged cell refuses it. *)
Definition ws_write (ws : Worksheet) (row column : Z) (v : pyval) : result Worksheet :=
  if (row <? 1) || (column <? 1) then Err ValueError
  else
    let '(s, ws') := _get_cell ws row column in
    if is_none v then Ok ws'
    else match s with
         | MergedCell => Err AttributeError
         | Plain c =>
             Ok (put_slot ws' (row, column) (Plain (mkCell v (comment c) (alignment c))))
         end.

(** [ws.cell(row, column).comment = note] *)
Definition ws_set_comment (ws : Worksheet) (row column : Z) (note : Comment) : result Worksheet :=
  if (row <? 1) || (column <? 1) then Err ValueError
  else
    let '(s, ws') := _get_cell ws row column in
    match s with
    | MergedCell => Err AttributeError
    | Plain c =>
        Ok (put_slot ws' (row, column) (Plain (mkCell (value c) (Some note) (alignment c))))
    end.

(** [cell.alignment = a] on the cell that [ws.cell(row, column, value)]
    returned (the styles of merged placeholders are not tracked). *)
Definition ws_set_alignment (ws : Worksheet) (row column : Z) (a : Alignment) : Worksheet :=
  match _cells ws !! (row, column) with
  | Some (Plain c) =>
      put_slot ws (row, column) (Plain (mkCell (value c) (comment c) (Some a)))
  | _ => ws
  end.

(** [ws.merge_cells(start_row=, start_column=, end_row=, end_column=)]: the
    range is validated and recorded, its top-left cell is created, and every
    other coordinate of the range gets a merged placeholder in place of
    whatever it held. *)
Definition ws_merge_cells (ws : Worksheet) (start_row start_column end_row end_column : Z)
  : result Worksheet :=
  if (start_row <? 1) || (start_column <? 1) || (end_row <? start_row) || (end_column <? start_column)
  then Err ValueError
  else
    let cr := mkCellRange start_row start_column end_row end_column in
    let '(_, ws') := _get_cell ws start_row start_column in
    Ok (mkWorksheet
          (foldr (λ k m, <[k := MergedCell]> m) (_cells ws') (tail (range_coords cr)))
          (merged_add (merged_cells ws') cr)
          (title ws') (freeze_panes ws') (column_width ws')).

(** [ws.append(values)]: a new row below the current one. *)
Definition ws_append (ws : Worksheet) (values : list pyval) : Worksheet :=
  let row_idx := _current_row ws + 1 in
  with_cells ws
    (foldr (λ '(col_idx, content) m, <[(row_idx, col_idx) := Plain (mkCell content None None)]> m)
       (_cells ws) (zip (seqZ 1 (Z.of_nat (length values))) values)).

Definition cell_value (row column : Z) : M pyval :=
  ws ← get_worksheet;
  '(v, ws') ← lift (ws_read ws row column);
  _ ← put_worksheet ws';
  mret v.

Definition cell_write (row column : Z) (v : pyval) : M unit :=
  ws ← get_worksheet;
  ws' ← lift (ws_write ws row column v);
  put_worksheet ws'.

(** *** Prompts (pyinputplus, [input]) *)

Definition yes_no (b : bool) : string := if b then "yes" else "no".

Definition inputYesNo (p : prompt) : M string :=
  ask p (λ r, match r with RYesNo b => Some (yes_no b) | _ => None end).

Definition inputStr (p : prompt) : M string :=
  ask p (λ r, match r with
              | RStr s => if String.eqb s "" then None else Some s
              | _ => None
              end).

Definition in_bounds (lo hi : option Z) (z : Z) : bool :=
  match lo with Some l => l <=? z | None => true end &&
  match hi with Some h => z <=? h | None => true end.

Definition inputInt (p : prompt) (lo hi : option Z) : M Z :=
  ask p (λ r, match r with
              | RInt z => if in_bounds lo hi z then Some z else None
              | _ => None
              end).

Definition input (p : prompt) : M string :=
  ask p (λ r, match r with RLine s => Some s | _ => None end).

(** ** utils.py *)

Definition display_user_info (msg : info_msg) : M unit :=
  _ ← input (ShowInfo msg); mret tt.

Definition config_getitem (key : string) : M pyval :=
  c ← get_config;
  match c !! key with Some v => mret v | None => raise KeyError end.

Definition config_setitem (key : string) (v : pyval) : M unit :=
  c ← get_config; put_config (<[key := v]> c).

(** A configuration value used as a row index or a count. *)
Definition as_int (v : pyval) : M Z :=
  match v with VInt z => mret z | _ => raise TypeError end.

Definition get_radiators_owned : M Z :=
  config_getitem CKeys.RADIATORS_OWNED ≫= as_int.

Definition py_eq_str (v : pyval) (s : string) : bool :=
  match v with VStr s' => String.eqb s' s | _ => false end.

(** The truth value of [str | None]. *)
Definition truthy (o : option string) : bool :=
  match o with Some s => negb (String.eqb s "") | None => false end.

(** ** What a run finds outside the process *)

(** [usage_file_exists] is [os.path.exists(self.file_path)], which does not
    change before the workbook is saved at the end of the run; [now] is
    [datetime.datetime.now()]; [registry_rows] are the rows of the registry
    worksheet from its second row on, as [iter_rows(values_only=True)]
    yields them. *)
Record Host := mkHost {
  usage_file_exists : bool;
  now : date;
  registry_rows : list (list pyval);
}.

Variable host : Host.

(** ** excel_utils.py *)

(** [ExcelSharedMethods.customize_worksheet] for the usage sheet. *)
Definition customize_worksheet : M unit :=
  ws ← get_worksheet;
  let widths :=
    foldl (λ m '(col, header),
             let m := <[col := Z.of_nat (String.length header) + UsMeta.COL_EXTRA_SPACE]> m in
             if bool_decide (Some col = UsMeta.COLS !! Z.to_nat SNums.EIGHT)
             then <[col := UsMeta.NOTES_COLUMN_SPACE]> m else m)
          (column_width ws) (zip UsMeta.COLS UsMeta.HEADERS) in
  put_worksheet
    (mkWorksheet (_cells ws) (merged_cells ws) UsMeta.SHEET_NAME
                 (Some UsMeta.FREEZE_HEADERS) widths).

(** ** usage_manager.py: [UsageGenerator] *)

Definition _initialize_usage_sheet : M unit :=
  if negb (usage_file_exists host) then
    _ ← customize_worksheet;
    ws ← get_worksheet;
    put_worksheet (ws_append ws (VStr <$> UsMeta.HEADERS))
  else mret tt.

Definition _update_start_rows : M unit :=
  ws ← get_worksheet;
  let start_row := max_row ws + SNums.ONE in
  c ← get_config;
  let last_start_row := default (VInt start_row) (c !! CKeys.START_ROW) in
  _ ← config_setitem CKeys.START_ROW (VInt start_row);
  _ ← config_setitem CKeys.LAST_START_ROW last_start_row;
  set_config_update true.

Definition _get_registry_worksheet : M (list (list pyval)) :=
  _ ← config_getitem CKeys.REGISTRY_FILE;
  mret (registry_rows host).

Definition _fill_registry_data : M unit :=
  registry_worksheet ← _get_registry_worksheet;
  for_each registry_worksheet (λ row,
    ws ← get_worksheet;
    let empty_row := max_row ws + SNums.ONE in
    for_each (zip (seqZ SNums.TWO (Z.of_nat (length row))) row) (λ '(col_offset, value),
      cell_write empty_row col_offset value)).

Definition _display_data_entry_intro : M unit :=
  display_user_info USAGE_DATA_ENTRY_INTRO.

Definition _format_date (d : date) : M string :=
  fmt ← config_getitem CKeys.DATE_FORMAT;
  if py_eq_str fmt SCons.EUROPEAN
  then mret (strftime d DForm.EU_FORMAT)
  else mret (strftime d DForm.US_FORMAT).

Definition _get_date_automatically : M string :=
  _format_date (now host).

Definition _prompt_date : M (Z * Z * Z) :=
  day ← inputInt AskDay (Some SNums.ONE) (Some SNums.THIRTY_ONE);
  month ← inputInt AskMonth (Some SNums.ONE) (Some SNums.TWELVE);
  year ← inputInt AskYear None None;
  mret (day, month, year).

Definition is_leap (y : Z) : bool :=
  (y mod 4 =? 0) && (negb (y mod 100 =? 0) || (y mod 400 =? 0)).

Definition days_in_month (y m : Z) : Z :=
  if m =? 2 then (if is_leap y then 29 else 28)
  else if (m =? 4) || (m =? 6) || (m =? 9) || (m =? 11) then 30
  else 31.

(** [datetime.date(year, month, day)]: the date, or ValueError. *)
Definition datetime_date (y m d : Z) : result date :=
  if (y <? - 2 ^ 31) || (2 ^ 31 <=? y) then Err OverflowError
  else if (1 <=? y) && (y <=? 9999) && (1 <=? m) && (m <=? 12) &&
          (1 <=? d) && (d <=? days_in_month y m)
       then Ok (mkDate y m d)
       else Err ValueError.

(** The date, or [None] when it does not exist (the ValueError is caught). *)
Definition _check_date (y m d : Z) : M (option date) :=
  match datetime_date y m d with
  | Ok date_obj => mret (Some date_obj)
  | Err ValueError => mret None
  | Err e => raise e
  end.

Definition _confirm_date (d : string) : M (option string) :=
  ans ← inputYesNo (AskConfirmDate d);
  if String.eqb ans SCons.AGREE then mret (Some d) else mret None.

(** The [while True] of [_get_date_manually]; every turn starts with a
    prompt, so [fuel] turns need at least [fuel] answers. *)
Fixpoint _get_date_manually_loop (fuel : nat) : M string :=
  match fuel with
  | O => blocked
  | S fuel' =>
      '(day, month, year) ← _prompt_date;
      date_obj ← _check_date year month day;
      match date_obj with
      | None => _get_date_manually_loop fuel'
      | Some date_obj =>
          formatted ← _format_date date_obj;
          d ← _confirm_date formatted;
          if truthy d then mret (default formatted d)
          else _get_date_manually_loop fuel'
      end
  end.

Definition _get_date_manually : M string :=
  with_fuel _get_date_manually_loop.

Definition _get_usage_block_info : M (Z * Z) :=
  radiators_owned ← get_radiators_owned;
  start_row ← config_getitem CKeys.START_ROW ≫= as_int;
  mret (radiators_owned, start_row).

Definition _fill_col (rows : list Z) (get_value : Z → M pyval) (col : Z) : M unit :=
  for_each rows (λ row,
    value ← get_value row;
    cell_write row col value).

Definition _fill_dates : M unit :=
  mode ← config_getitem CKeys.DATE_INPUT_MODE;
  d ← (if py_eq_str mode SCons.DATE_AUTO
       then _get_date_automatically
       else _get_date_manually);
  '(radiators_owned, start_row) ← _get_usage_block_info;
  _fill_col (range start_row (radiators_owned + start_row + SNums.ONE))
            (λ row, mret (VStr d))
            SNums.ONE.

(** The recap of a column just entered: the values are read back, and the
    entry method runs again if the user asks for it. *)
Definition _recap_and_edit_column (label : string) (col : Z) (method : M unit) : M unit :=
  '(radiators_owned, start_row) ← _get_usage_block_info;
  _ ← for_each (range start_row (start_row + radiators_owned)) (λ row,
        _ ← cell_value row SNums.TWO;
        _ ← cell_value row col;
        mret tt);
  ans ← inputYesNo (AskModifyAny label);
  if String.eqb ans SCons.AGREE then method else mret tt.

(** [_enter_initial_valve_settings] calls itself through the recap; every
    call starts with the press-Enter screen, so [fuel] calls need at least
    [fuel] answers. *)
Fixpoint _enter_initial_valve_settings_rec (fuel : nat) : M unit :=
  match fuel with
  | O => blocked
  | S fuel' =>
      _ ← display_user_info VALVE_SETTING_ENTRY;
      '(radiators_owned, start_row) ← _get_usage_block_info;
      _ ← _fill_col (range start_row (start_row + radiators_owned))
            (λ row,
               name ← cell_value row SNums.TWO;
               s ← inputStr (AskValveSetting name);
               mret (VStr s))
            SNums.EIGHT;
      _recap_and_edit_column "valve setting" SNums.EIGHT
        (_enter_initial_valve_settings_rec fuel')
  end.

Definition _enter_initial_valve_settings : M unit :=
  with_fuel _enter_initial_valve_settings_rec.

Definition _add_valve_setting_note : M unit :=
  let note := mkComment "NOTE:
Numbers saved as text. Excel warning expected." "Thermo Tracker"
                SNums.ONE_HUNDRED_FIFTY SNums.TWO_HUNDRED in
  ws ← get_worksheet;
  ws' ← lift (ws_set_comment ws SNums.ONE SNums.EIGHT note);
  put_worksheet ws'.

Definition _get_valve_info (old_row : Z) : M (pyval * pyval) :=
  radiator_name ← cell_value old_row SNums.TWO;
  current_valve_setting ← cell_value old_row SNums.EIGHT;
  mret (radiator_name, current_valve_setting).

Definition _prompt_valve_update (radiator_name current_valve_setting : pyval)
  : M (option string) :=
  ans ← inputYesNo (AskChangeValve radiator_name current_valve_setting);
  if String.eqb ans SCons.AGREE
  then s ← inputStr (AskNewValve radiator_name); mret (Some s)
  else mret None.

Definition _confirm_valve_update (current_valve_setting : pyval)
    (new_valve_setting : string) (new_row : Z) : M bool :=
  ans ← inputYesNo AskApplyChange;
  if String.eqb ans SCons.AGREE
  then _ ← cell_write new_row SNums.EIGHT (VStr new_valve_setting); mret true
  else mret false.

Definition _keep_existing_valve_setting (new_row : Z) (current_valve_setting : pyval)
  : M unit :=
  cell_write new_row SNums.EIGHT current_valve_setting.

(** The [while True] of [_process_valve_setting_update]; every turn starts
    with a prompt, so [fuel] turns need at least [fuel] answers. *)
Fixpoint _process_valve_setting_update_loop (fuel : nat)
    (radiator_name current_valve_setting : pyval) (new_row : Z) : M unit :=
  match fuel with
  | O => blocked
  | S fuel' =>
      new_valve_setting ← _prompt_valve_update radiator_name current_valve_setting;
      if truthy new_valve_setting then
        ok ← _confirm_valve_update current_valve_setting
               (default EmptyString new_valve_setting) new_row;
        if (ok : bool) then mret tt
        else _process_valve_setting_update_loop fuel'
               radiator_name current_valve_setting new_row
      else
        _keep_existing_valve_setting new_row current_valve_setting
  end.

Definition _process_valve_setting_update (old_row new_row : Z) : M unit :=
  '(radiator_name, current_valve_setting) ← _get_valve_info old_row;
  with_fuel (λ fuel, _process_valve_setting_update_loop fuel
                       radiator_name current_valve_setting new_row).

Definition _update_valve_setting : M unit :=
  _ ← display_user_info VALVE_SETTING_UPDATE;
  '(radiators_owned, start_row) ← _get_usage_block_info;
  last_start_row ← config_getitem CKeys.LAST_START_ROW ≫= as_int;
  for_each (range 0 radiators_owned) (λ i,
    let old_row := last_start_row + i in
    let new_row := start_row + i in
    _process_valve_setting_update old_row new_row).

Definition _manage_valve_settings : M unit :=
  if negb (usage_file_exists host) then
    _ ← _enter_initial_valve_settings;
    _add_valve_setting_note
  else
    _update_valve_setting.

(** [_get_raw_readings] calls itself through the recap; every call ends
    with the recap question, so [fuel] calls need at least [fuel] answers. *)
Fixpoint _get_raw_readings_rec (fuel : nat) : M unit :=
  match fuel with
  | O => blocked
  | S fuel' =>
      '(radiators_owned, start_row) ← _get_usage_block_info;
      _ ← _fill_col (range start_row (start_row + radiators_owned))
            (λ row,
               name ← cell_value row SNums.TWO;
               z ← inputInt (AskRawReading name) None None;
               mret (VInt z))
            SNums.FIVE;
      _recap_and_edit_column "raw reading" SNums.FIVE (_get_raw_readings_rec fuel')
  end.

Definition _get_raw_readings : M unit :=
  with_fuel _get_raw_readings_rec.

Definition _compute_actual_value (row : Z) : M pyval :=
  coefficient ← cell_value row SNums.FOUR;
  raw_reading ← cell_value row SNums.FIVE;
  lift (py_mul coefficient raw_reading).

Definition _get_actual_values : M unit :=
  '(radiators_owned, start_row) ← _get_usage_block_info;
  _fill_col (range start_row (start_row + radiators_owned))
            _compute_actual_value
            SNums.SIX.

Definition _get_total : M unit :=
  '(radiators_owned, start_row) ← _get_usage_block_info;
  values ← for_list (range start_row (start_row + radiators_owned))
              (λ row, cell_value row SNums.SIX);
  total_value ← lift (py_sum values);
  cell_write (start_row + radiators_owned) SNums.SEVEN total_value.

Definition _merge_valve_cells : M unit :=
  '(radiators_owned, start_row) ← _get_usage_block_info;
  ws ← get_worksheet;
  ws' ← lift (ws_merge_cells ws start_row SNums.NINE
                (start_row + radiators_owned - SNums.ONE) SNums.NINE);
  put_worksheet ws'.

Definition _insert_note (note : string) : M unit :=
  row ← config_getitem CKeys.START_ROW ≫= as_int;
  _ ← cell_write row SNums.NINE (VStr note);
  ws ← get_worksheet;
  put_worksheet
    (ws_set_alignment ws row SNums.NINE
       (mkAlignment true UsMeta.NOTE_VERTICAL_ALIGNMENT UsMeta.NOTE_HORIZONTAL_ALIGNMENT)).

Definition _get_notes : M unit :=
  ans ← inputYesNo AskAddNote;
  note ← (if String.eqb ans SCons.AGREE
          then inputStr AskNote
          else mret "No additional notes."%string);
  _ ← _merge_valve_cells;
  _insert_note note.

Definition _add_blank_lines : M unit :=
  for_each (range 0 SNums.THREE) (λ _ : Z,
    ws ← get_worksheet;
    let empty_row := max_row ws + SNums.ONE in
    cell_write empty_row SNums.ONE (VStr SCons.EMPTY_STR)).

Definition _populate_usage : M unit :=
  _ ← _update_start_rows;
  _ ← _fill_registry_data;
  _ ← _display_data_entry_intro;
  _ ← _fill_dates;
  _ ← _manage_valve_settings;
  _ ← _get_raw_readings;
  _ ← _get_actual_values;
  _ ← _get_total;
  _ ← _get_notes;
  _add_blank_lines.


(** * The notions that the theorems are stated with *)

(** ** The footprint of a step

    [ws_eff W T ws ws']: going from [ws] to [ws'], what a coordinate holds
    changed only in the rows [W]; cells were created only in the rows [W]
    and [T] (reading a cell that does not exist creates it, blank); no cell
    was removed; merged ranges were only added, starting in the rows [W]. *)
Record ws_eff (W T : Z → Prop) (ws ws' : Worksheet) : Prop := mkWsEff {
  eff_slot : ∀ r c, ¬ W r → slot_at ws' r c = slot_at ws r c;
  eff_dom : ∀ k, is_Some (_cells ws !! k) → is_Some (_cells ws' !! k);
  eff_new : ∀ r c, is_Some (_cells ws' !! (r, c)) →
                   is_Some (_cells ws !! (r, c)) ∨ W r ∨ T r;
  eff_merged : ∃ new, merged_cells ws' = merged_cells ws ++ new ∧
                      Forall (λ cr, W (min_row cr)) new;
}.

(** The same for a run: the configuration is left alone as well. *)
Record eff (W T : Z → Prop) (w w' : world) : Prop := mkEff {
  eff_config : config_data w' = config_data w;
  eff_update : config_update w' = config_update w;
  eff_ws : ws_eff W T (worksheet w) (worksheet w');
}.

(** A step that leaves the console alone. *)
Definition io_same (w w' : world) : Prop :=
  stdin w' = stdin w ∧ transcript w' = transcript w.

(** A step that only talks to the user. *)
Definition talk (w w' : world) : Prop :=
  worksheet w' = worksheet w ∧ config_data w' = config_data w ∧
  config_update w' = config_update w ∧
  ∃ answers, stdin w = answers ++ stdin w'.

(** While a column is being filled over the rows [S], the configuration and
    every coordinate outside that column and those rows are as they were in
    [w0]. *)
Definition filling (w0 : world) (S : Z → Prop) (col : Z) (w : world) : Prop :=
  config_data w = config_data w0 ∧
  ∀ r c, ¬ (S r ∧ c = col) → slot_at (worksheet w) r c = slot_at (worksheet w0) r c.

(** The format that the configuration selects. *)
Definition date_format_of (cfg : gmap string pyval) : string :=
  match cfg !! CKeys.DATE_FORMAT with
  | Some v => if py_eq_str v SCons.EUROPEAN then DForm.EU_FORMAT else DForm.US_FORMAT
  | None => DForm.US_FORMAT
  end.

(** How the dialogue about one device ends: the previous value is kept, or
    a new one is applied. *)
Inductive terminal := KEEP | APPLIED (new_valve_setting : string).

(** One turn that the user gives up at the confirmation. *)
Definition rejected_round (name current : pyval) (entered : string)
  : list (prompt * response) :=
  [(AskChangeValve name current, RYesNo true);
   (AskNewValve name, RStr entered);
   (AskApplyChange, RYesNo false)].

(** The last turn. *)
Definition final_round (name current : pyval) (t : terminal)
  : list (prompt * response) :=
  match t with
  | KEEP => [(AskChangeValve name current, RYesNo false)]
  | APPLIED entered =>
      [(AskChangeValve name current, RYesNo true);
       (AskNewValve name, RStr entered);
       (AskApplyChange, RYesNo true)]
  end.

(** The whole dialogue about one device: turns given up, then the last. *)
Definition device_dialogue (name current : pyval) (o : list string * terminal)
  : list (prompt * response) :=
  concat (rejected_round name current <$> o.1) ++ final_round name current o.2.

(** What the dialogue hands to [ws.cell(new_row, 8, value)]. *)
Definition settled_value (current : pyval) (t : terminal) : pyval :=
  match t with KEEP => current | APPLIED entered => VStr entered end.

(** A dialogue as pyinputplus can produce it: no blank entry. *)
Definition well_entered (o : list string * terminal) : Prop :=
  Forall (λ entered, entered ≠ EmptyString) o.1 ∧
  match o.2 with KEEP => True | APPLIED entered => entered ≠ EmptyString end.

Inductive state := REVIEW | ENTER | CONFIRM (entered : string) | FINAL (t : terminal).

(** The prompt that belongs to a state. *)
Definition awaits (st : state) (p : prompt) : bool :=
  match st, p with
  | REVIEW, AskChangeValve _ _ => true
  | ENTER, AskNewValve _ => true
  | CONFIRM _, AskApplyChange => true
  | _, _ => false
  end.

(** The transitions; [on_reject] is where a rejected confirmation leads. *)
Definition transition (on_reject st : state) (r : response) : option state :=
  match st, r with
  | REVIEW, RYesNo false => Some (FINAL KEEP)
  | REVIEW, RYesNo true => Some ENTER
  | ENTER, RStr entered => Some (CONFIRM entered)
  | CONFIRM entered, RYesNo true => Some (FINAL (APPLIED entered))
  | CONFIRM _, RYesNo false => Some on_reject
  | _, _ => None
  end.

(** The state that a transcript leads to, if it is a run of the machine. *)
Fixpoint machine_run (on_reject st : state) (t : list (prompt * response))
  : option state :=
  match t with
  | [] => Some st
  | (p, r) :: t' =>
      if awaits st p
      then st' ← transition on_reject st r; machine_run on_reject st' t'
      else None
  end.

(** The machine in the words of the specification: a rejected confirmation
    leads back to [ENTER]. *)
Definition spec_machine := machine_run ENTER.

(** The machine of [_process_valve_setting_update]: a rejected confirmation
    leads back to the top of the loop, which asks the review question. *)
Definition code_machine := machine_run REVIEW.

(** The dialogue about the device at ordinal [i], whose previous row is
    [last_start_row + i] of the sheet [ws0]. *)
Definition dialogue_at (ws0 : Worksheet) (last_start_row i : Z)
    (o : list string * terminal) : list (prompt * response) :=
  device_dialogue (value_at ws0 (last_start_row + i) SNums.TWO)
                  (value_at ws0 (last_start_row + i) SNums.EIGHT) o.

(** What the device at ordinal [i] ends with in column 8 of its new row,
    given the sheet [ws0] before the update and the sheet [ws] before its
    own dialogue. *)
Definition settled_at (ws0 ws : Worksheet) (last_start_row start_row i : Z)
    (o : list string * terminal) : pyval :=
  let v := settled_value (value_at ws0 (last_start_row + i) SNums.EIGHT) o.2 in
  if is_none v then value_at ws (start_row + i) SNums.EIGHT else v.

(** The merged region of the block that starts at [s] with [n] devices. *)
Definition notes_region (s n : Z) : CellRange :=
  mkCellRange s SNums.NINE (s + n - SNums.ONE) SNums.NINE.

(** What a completed [_populate_usage] leaves of the rows before [s]. *)
Record prior_rows_kept (s : Z) (header_note : bool) (ws ws' : Worksheet) : Prop := {
  kept_values : ∀ r c, r < s → value_at ws' r c = value_at ws r c;
  kept_slots : ∀ r c, r < s → (r, c) ≠ (1, 8) ∨ header_note = false →
                      slot_at ws' r c = slot_at ws r c;
  kept_cells : ∀ k, is_Some (_cells ws !! k) → is_Some (_cells ws' !! k);
  kept_merged : ∃ new, merged_cells ws' = merged_cells ws ++ new ∧
                       Forall (λ cr, s ≤ min_row cr) new;
}.

(** What [save_workbook] writes of a coordinate: a cell with a value (the
    empty string is one), a comment or a style, and the placeholders of the
    merged regions.  A blank cell that was only read is not written. *)
Definition written (sl : slot) : bool :=
  match sl with
  | Plain c => negb (is_none (value c)) || bool_decide (is_Some (comment c))
               || bool_decide (is_Some (alignment c))
  | MergedCell => true
  end.

(** What [load_workbook] reads back: the cell, an empty string as a cell
    without a value. *)
Definition read_back (sl : slot) : slot :=
  match sl with
  | Plain c =>
      Plain (mkCell (match value c with VStr EmptyString => VNone | v => v end)
                    (comment c) (alignment c))
  | MergedCell => MergedCell
  end.

(** The worksheet of the next run: the one this run saved, loaded again. *)
Definition save_load (ws : Worksheet) : Worksheet :=
  with_cells ws (read_back <$> filter (λ kv, written kv.2 = true) (_cells ws)).

(** [manage_usage], once the folder and the workbook are there. *)
Definition manage_usage : M unit :=
  _ ← _initialize_usage_sheet;
  _populate_usage.

(** The state in which the next run reaches [manage_usage]: the workbook
    and the configuration that this run saved, and a new script. *)
Definition next_run (w : world) (answers : list response) : world :=
  mkWorld (save_load (worksheet w)) (config_data w) false answers [].

End Engine.

(** * The documented sample, run on the model *)

Module Sample.

#[local] Existing Instance binary64.

Definition registry : list (list pyval) :=
  [[VStr "Kitchen"; VInt 0; VInt 1];
   [VStr "Living Room"; VInt 1; VInt 2];
   [VStr "Gym"; VInt 2; VInt 3]].

Definition first_host : Host := mkHost false (mkDate 2025 1 5) registry.
Definition later_host : Host := mkHost true (mkDate 2025 2 9) registry.

Definition config : gmap string pyval :=
  <[CKeys.RADIATORS_OWNED := VInt 3]>
    (<[CKeys.REGISTRY_FILE := VStr "radiators_registry.xlsx"]>
       (<[CKeys.DATE_FORMAT := VStr "European"]>
          (<[CKeys.DATE_INPUT_MODE := VStr "Auto"]> ∅))).

Definition world_of (o : outcome (unit * world)) (otherwise : world) : world :=
  match o with Done (_, w) => w | _ => otherwise end.

Definition first_script : list response :=
  [RLine ""; RLine ""; RStr "3"; RStr "2"; RStr "antifreeze"; RYesNo false;
   RInt 10; RInt 7; RInt 15; RYesNo false; RYesNo false].

Definition first_world : world := mkWorld new_worksheet config false first_script [].

Definition after_first_run : world :=
  Eval vm_compute in world_of (manage_usage first_host first_world) first_world.

Definition second_script : list response :=
  [RLine ""; RLine ""; RYesNo false; RYesNo true; RStr "4"; RYesNo false;
   RYesNo true; RStr "5"; RYesNo true; RYesNo false;
   RInt 12; RInt 9; RInt 20; RYesNo false; RYesNo true; RStr "Cold week."].

Definition second_world : world := next_run after_first_run second_script.

Definition after_second_run : world :=
  Eval vm_compute in world_of (manage_usage later_host second_world) second_world.



Definition second_start : world :=
  Eval vm_compute in world_of (_update_start_rows second_world) second_world.

(** The world in which the second run reaches [_update_valve_setting]. *)
Definition before_update (script : list response) : world :=
  mkWorld (save_load (worksheet after_first_run))
          (<[CKeys.LAST_START_ROW := VInt 2]>
             (<[CKeys.START_ROW := VInt 9]> (config_data after_first_run)))
          true script [].


Definition reconsidered : world :=
  Eval vm_compute in
    world_of (_process_valve_setting_update 2 9
                (before_update [RYesNo true; RStr "5"; RYesNo false; RYesNo false]))
             first_world.


(** A block with its readings, before the actual values. *)
Definition with_readings : world :=
  mkWorld
    (mkWorksheet
       (list_to_map
          ((λ '(k, v), (k, Plain (mkCell v None None))) <$>
             [((2, 4), VInt 1); ((2, 5), VInt 10);
              ((3, 4), VInt 2); ((3, 5), VInt 7);
              ((4, 4), VInt 3); ((4, 5), VInt 15)]))
       [] UsMeta.SHEET_NAME None ∅)
    (<[CKeys.START_ROW := VInt 2]> config) true [RYesNo false] [].

Definition with_actual_values : world :=
  Eval vm_compute in world_of (_get_actual_values with_readings) first_world.

Definition with_total : world :=
  Eval vm_compute in world_of (_get_total with_actual_values) first_world.

Definition with_notes : world :=
  Eval vm_compute in world_of (_get_notes with_total) first_world.

Definition with_dates : world :=
  Eval vm_compute in world_of (_fill_dates first_host with_readings) first_world.


End Sample.

(** * Dialogue rounds and the note of the valve setting header *)

Section Rounds.

Context {rt : PyRuntime}.

(** One round of raw readings over [rows]: each device is named by column
    2 of its row in [ws] and answered with an integer. *)
Definition readings_round (ws : Worksheet) (rows : list Z) (zs : list Z)
  : list (prompt * response) :=
  zip_with (λ row z, (AskRawReading (value_at ws row SNums.TWO), RInt z)) rows zs.

(** A round together with the answer to the recap that follows it. *)
Definition reviewed_round (ws : Worksheet) (rows : list Z) (again : bool) (zs : list Z)
  : list (prompt * response) :=
  readings_round ws rows zs ++ [(AskModifyAny "raw reading", RYesNo again)].

(** The last four exchanges of a manual date entry. *)
Definition confirmed_date_entry (d : date) (formatted : string) : list (prompt * response) :=
  [(AskDay, RInt (day d)); (AskMonth, RInt (month d)); (AskYear, RInt (year d));
   (AskConfirmDate formatted, RYesNo true)].

End Rounds.

Section Notes.

Context {rt : PyRuntime}.

(** The comment that [_add_valve_setting_note] attaches to the header of the
    valve setting column. *)
Definition valve_setting_note : Comment :=
  mkComment "NOTE:
Numbers saved as text. Excel warning expected." "Thermo Tracker"
            SNums.ONE_HUNDRED_FIFTY SNums.TWO_HUNDRED.

End Notes.

Section Devices.

Context {rt : PyRuntime}.




End Devices.

(** * The configuration of the usage file

    [UsageConfigurator] and the parts of [UsageManager] and [utils.py] that
    keep the configuration dictionary: the dialogue that sets the file name,
    the date format and the date input mode, and the paths derived from the
    data folder. *)

(** What this part leaves to the Python runtime: the search that
    pyinputplus makes for a pattern in an answer ([re.search], found or
    not), [os.path.join], and [os.path.exists] on the machine the program
    runs on, for a path and for a file descriptor. *)
Class PyOs := {
  re_search : string → string → bool;
  path_join : string → string → string;
  path_exists : string → bool;
  fd_exists : Z → bool;
  (* the pattern [.*] finds something in every string *)
  re_search_any : ∀ s, re_search ".*" s = true;
}.

Module Files.
Definition DEFAULT_USAGE_NAME : string := "radiators_usage_[Years].xlsx".
Definition YEARS_PLACEHOLDER : string := "[Years]".
End Files.

Module Folds.
Definition USAGE_FOLDER : string := "radiators_usage".
End Folds.

(** The keys of [ConfigKeys] that the configurator adds to those of the
    engine. *)
Module ConfigKeys.
Definition EXCEL_FOLDER : string := "excel_folder".
Definition USAGE_FOLDER_PATH : string := "usage_folder_path".
Definition USAGE_NAME : string := "usage_name".
End ConfigKeys.

Module RegexP.
Definition YEARS : string := "^\d{4}-\d{4}$".
Definition DATE_REGEX : string := "^(European|American)$".
Definition DATE_INPUT_REGEX : string := "^(Auto|Manual)$".
Definition BLOCK : string := ".*".
End RegexP.

(** [s.replace(old, new)]: the occurrences of [old] in [s] that do not
    overlap, from the left, each replaced by [new]; [skip] counts the
    characters of an occurrence still to pass over.  With an empty [old],
    [new] goes before every character and at the end. *)
Fixpoint replace_from (skip : nat) (s old new : string) : string :=
  match s with
  | EmptyString => EmptyString
  | String c rest =>
      match skip with
      | S skip' => replace_from skip' rest old new
      | O =>
          if String.prefix old s
          then String.append new (replace_from (String.length old - 1) rest old new)
          else String c (replace_from 0 rest old new)
      end
  end.

Fixpoint replace_between (s new : string) : string :=
  match s with
  | EmptyString => EmptyString
  | String c rest => String c (String.append new (replace_between rest new))
  end.

Definition str_replace (s old new : string) : string :=
  match old with
  | EmptyString => String.append new (replace_between s new)
  | _ => replace_from 0 s old new
  end.

Module Setup.

Section Dialogue.

Context {rt : PyRuntime} {os : PyOs}.

Inductive prompt :=
| ShowUsageGeneration
| AskYears (start_year end_year : Z)
| AskDateFormat
| AskDateInputMode
| AskConfirm (entry : string)
| AskChangeUsageConfig (file_name date_format date_input : pyval)
| AskChangeItem (label : string) (current : pyval).

(** The configurator shares with the rest of the program the configuration
    dictionary and its update flag, and talks to the console. *)
Record state := mkState {
  config_data : gmap string pyval;
  config_update : bool;
  stdin : list response;
  transcript : list (prompt * response);
}.

Definition M (A : Type) : Type := state → outcome (A * state).

#[export] Instance M_ret : MRet M := λ A a st, Done (a, st).

#[export] Instance M_bind : MBind M := λ A B f m st,
  match m st with
  | Done (a, st') => f a st'
  | Raise e => Raise e
  | Blocked => Blocked
  end.

Definition raise {A} (e : exn) : M A := λ _, Raise e.

Definition blocked {A} : M A := λ _, Blocked.

Definition get_config : M (gmap string pyval) := λ st, Done (config_data st, st).

Definition put_config (c : gmap string pyval) : M unit := λ st,
  Done (tt, mkState c (config_update st) (stdin st) (transcript st)).

Definition set_config_update (b : bool) : M unit := λ st,
  Done (tt, mkState (config_data st) b (stdin st) (transcript st)).

Definition ask {A} (p : prompt) (accept : response → option A) : M A := λ st,
  match stdin st with
  | [] => Blocked
  | r :: rest =>
      match accept r with
      | Some a => Done (a, mkState (config_data st) (config_update st) rest
                                   (transcript st ++ [(p, r)]))
      | None => Blocked
      end
  end.

Definition with_fuel {A} (loop : nat → M A) : M A :=
  λ st, loop (S (length (stdin st))) st.

Fixpoint for_each {A} (l : list A) (body : A → M unit) : M unit :=
  match l with
  | [] => mret tt
  | x :: l' => _ ← body x; for_each l' body
  end.

Definition inputYesNo (p : prompt) : M string :=
  ask p (λ r, match r with RYesNo b => Some (yes_no b) | _ => None end).

(** [pyip.inputStr(prompt, allowRegexes=[regex], blockRegexes=[BLOCK])]: a
    blank answer is refused, an answer that the allowed pattern finds is
    returned, and every other answer is blocked, since [BLOCK] finds
    anything. *)
Definition inputStr (p : prompt) (regex : string) : M string :=
  ask p (λ r, match r with
              | RStr s =>
                  if String.eqb s "" then None
                  else if re_search regex s then Some s
                  else if re_search RegexP.BLOCK s then None else Some s
              | _ => None
              end).

Definition input (p : prompt) : M string :=
  ask p (λ r, match r with RLine s => Some s | _ => None end).

Definition display_user_info (p : prompt) : M unit :=
  _ ← input p; mret tt.

Definition config_getitem (key : string) : M pyval :=
  c ← get_config;
  match c !! key with Some v => mret v | None => raise KeyError end.

Definition config_setitem (key : string) (v : pyval) : M unit :=
  c ← get_config; put_config (<[key := v]> c).

(** ** utils.py *)

(** [old_path != new_path], the new path being a string. *)
Definition differs (old_path : option pyval) (new_path : string) : bool :=
  match old_path with
  | Some (VStr s) => negb (String.eqb s new_path)
  | _ => true
  end.

Definition update_config_path (path_key path_suffix : string) : M unit :=
  c ← get_config;
  let old_path := c !! path_key in
  base ← config_getitem ConfigKeys.EXCEL_FOLDER;
  match base with
  | VStr base =>
      let new_path := path_join base path_suffix in
      _ ← config_setitem path_key (VStr new_path);
      if differs old_path new_path then set_config_update true else mret tt
  | _ => raise TypeError
  end.

(** ** usage_manager.py: [UsageConfigurator] *)

Variable now_year : Z.

(** The [while True] of [_prompt_config_option]; every turn starts with a
    prompt, so [fuel] turns need at least [fuel] answers. *)
Fixpoint _prompt_config_option_loop (fuel : nat) (p : prompt) (regex config_key : string)
    (embed_years : bool) : M unit :=
  match fuel with
  | O => blocked
  | S fuel' =>
      entry ← inputStr p regex;
      let entry :=
        if embed_years
        then str_replace Files.DEFAULT_USAGE_NAME Files.YEARS_PLACEHOLDER entry
        else entry in
      ans ← inputYesNo (AskConfirm entry);
      if String.eqb ans SCons.AGREE
      then config_setitem config_key (VStr entry)
      else _prompt_config_option_loop fuel' p regex config_key embed_years
  end.

Definition _prompt_config_option (p : prompt) (regex config_key : string)
    (embed_years : bool) : M unit :=
  with_fuel (λ fuel, _prompt_config_option_loop fuel p regex config_key embed_years).

Definition _prompt_usage_name : M unit :=
  let start_year := now_year in
  let end_year := start_year + SNums.ONE in
  _prompt_config_option (AskYears start_year end_year) RegexP.YEARS
    ConfigKeys.USAGE_NAME true.

Definition _prompt_date_format : M unit :=
  _prompt_config_option AskDateFormat RegexP.DATE_REGEX CKeys.DATE_FORMAT false.

Definition _prompt_date_input_mode : M unit :=
  _prompt_config_option AskDateInputMode RegexP.DATE_INPUT_REGEX CKeys.DATE_INPUT_MODE false.

Definition usage_config_setup : M unit :=
  _ ← display_user_info ShowUsageGeneration;
  _ ← _prompt_usage_name;
  _ ← _prompt_date_format;
  _ ← _prompt_date_input_mode;
  set_config_update true.

Definition prompt_change_usage_config : M bool :=
  file_name ← config_getitem ConfigKeys.USAGE_NAME;
  date_format ← config_getitem CKeys.DATE_FORMAT;
  date_input ← config_getitem CKeys.DATE_INPUT_MODE;
  ans ← inputYesNo (AskChangeUsageConfig file_name date_format date_input);
  mret (String.eqb ans SCons.AGREE).

Definition _make_config_change (update_method : M unit) : M unit :=
  _ ← update_method;
  set_config_update true.

Definition config_items : list (string * string * M unit) :=
  [("usage filename"%string, ConfigKeys.USAGE_NAME, _prompt_usage_name);
   ("date format"%string, CKeys.DATE_FORMAT, _prompt_date_format);
   ("date input mode"%string, CKeys.DATE_INPUT_MODE, _prompt_date_input_mode)].

Definition prompt_usage_config_updates : M unit :=
  for_each config_items (λ '(label, key, update_method),
    current ← config_getitem key;
    ans ← inputYesNo (AskChangeItem label current);
    if String.eqb ans SCons.AGREE then _make_config_change update_method else mret tt).

(** ** usage_manager.py: [UsageManager] *)

Definition update_usage_path : M unit :=
  update_config_path ConfigKeys.USAGE_FOLDER_PATH Folds.USAGE_FOLDER.

(** [os.path.exists(path)]: a string is a path, an integer a file
    descriptor, and anything else is a TypeError. *)
Definition os_path_exists (path : pyval) : M bool :=
  match path with
  | VStr s => mret (path_exists s)
  | VInt fd => mret (fd_exists fd)
  | _ => raise TypeError
  end.

Definition _configure_usage : M unit :=
  folder ← config_getitem ConfigKeys.USAGE_FOLDER_PATH;
  found ← os_path_exists folder;
  if negb found then usage_config_setup
  else
    change ← prompt_change_usage_config;
    if (change : bool) then prompt_usage_config_updates else mret tt.

(** ** The notions that the theorems are stated with *)

(** The file name that an entry of years gives. *)
Definition usage_name_of (years : string) : string :=
  String.append "radiators_usage_" (String.append years ".xlsx").

(** What [_prompt_config_option] stores for an answer. *)
Definition stored_entry (embed_years : bool) (answer : string) : string :=
  if embed_years then usage_name_of answer else answer.

(** One turn of [_prompt_config_option]: an answer and whether it was
    confirmed. *)
Definition option_turn (p : prompt) (embed_years confirmed : bool) (answer : string)
  : list (prompt * response) :=
  [(p, RStr answer); (AskConfirm (stored_entry embed_years answer), RYesNo confirmed)].

End Dialogue.

End Setup.

(** * More runs of the sample household *)

Module Cases.

#[local] Existing Instance binary64.

Import Sample.

Definition state_after {A} (o : outcome (A * world)) (otherwise : world) : world :=
  match o with Done (_, w) => w | _ => otherwise end.

(** The first run at the point where the registry rows are copied. *)
Definition at_registry : world :=
  Eval vm_compute in
    state_after ((_ ← _initialize_usage_sheet first_host; _update_start_rows) first_world)
                first_world.

(** Raw readings entered twice: the first round is given up at the recap. *)
Definition two_rounds : world :=
  mkWorld (worksheet with_readings) (config_data with_readings) true
          [RInt 1; RInt 2; RInt 3; RYesNo true; RInt 10; RInt 7; RInt 15; RYesNo false] [].

Definition after_two_rounds : world :=
  Eval vm_compute in state_after (_get_raw_readings two_rounds) first_world.

(** A date entered by hand: 30 February, then 5 January, which is not
    confirmed, then 6 January. *)
Definition by_hand : world :=
  mkWorld new_worksheet (<[CKeys.DATE_INPUT_MODE := VStr "Manual"]> config) false
          [RInt 30; RInt 2; RInt 2025;
           RInt 5; RInt 1; RInt 2025; RYesNo false;
           RInt 6; RInt 1; RInt 2025; RYesNo true] [].

Definition after_by_hand : world :=
  Eval vm_compute in state_after (_get_date_manually by_hand) first_world.

(** A block whose second device has no coefficient. *)
Definition missing_coefficient : world :=
  mkWorld
    (mkWorksheet
       (list_to_map
          ((λ '(k, v), (k, Plain (mkCell v None None))) <$>
             [((2, 4), VInt 1); ((2, 5), VInt 10);
              ((3, 5), VInt 7);
              ((4, 4), VInt 3); ((4, 5), VInt 15)]))
       [] UsMeta.SHEET_NAME None ∅)
    (<[CKeys.START_ROW := VInt 2]> config) true [] [].

(** The fourth row of the first block is its total row: it has no valve
    setting to carry forward. *)
Definition kept_missing : world :=
  Eval vm_compute in
    world_of (_process_valve_setting_update 5 9 (before_update [RYesNo false]))
             first_world.

(** The valve settings reviewed in the second run: the second device is
    changed, the others are kept. *)
Definition one_change : list response :=
  [RLine ""; RYesNo false; RYesNo true; RStr "4"; RYesNo true; RYesNo false].

Definition after_one_change : world :=
  Eval vm_compute in
    world_of (_update_valve_setting (before_update one_change)) first_world.

(** A household that owns no radiator, at the note of its block. *)
Definition no_devices : world :=
  mkWorld (worksheet with_total)
          (<[CKeys.RADIATORS_OWNED := VInt 0]> (config_data with_total)) true
          [RYesNo true; RStr "Away."] [].










(** ** A machine for the configurator *)

Definition is_digit (c : ascii) : bool := (("0" <=? c) && (c <=? "9"))%char.

Definition lower (c : ascii) : ascii :=
  if (("A" <=? c) && (c <=? "Z"))%char
  then ascii_of_nat (nat_of_ascii c + 32) else c.

Fixpoint lowercase (s : string) : string :=
  match s with
  | EmptyString => EmptyString
  | String c rest => String (lower c) (lowercase rest)
  end.

Definition years_shape (s : string) : bool :=
  match s with
  | String a (String b (String c (String d (String "-" (String e (String f (String g
      (String h EmptyString)))))))) => forallb is_digit [a; b; c; d; e; f; g; h]
  | _ => false
  end.

Definition one_of (words : list string) (s : string) : bool :=
  existsb (String.eqb (lowercase s)) words.

(** The four patterns of the program, on ASCII answers, letter case
    ignored as pyinputplus does. *)
Definition search (pattern s : string) : bool :=
  if String.eqb pattern RegexP.BLOCK then true
  else if String.eqb pattern RegexP.YEARS then years_shape s
  else if String.eqb pattern RegexP.DATE_REGEX then one_of ["european"; "american"] s
  else if String.eqb pattern RegexP.DATE_INPUT_REGEX then one_of ["auto"; "manual"] s
  else false.

Definition ends_with_slash (s : string) : bool :=
  match String.length s with
  | O => false
  | S n => match String.get n s with Some "/"%char => true | _ => false end
  end.

(** [posixpath.join] of two components. *)
Definition join (a b : string) : string :=
  if String.prefix "/" b then b
  else if String.eqb a "" || ends_with_slash a then String.append a b
  else String.append a (String.append "/" b).

(** A machine on which [paths] exist and the standard streams are open. *)
Definition machine (paths : list string) : PyOs := {|
  re_search := search;
  path_join := join;
  path_exists := λ p, existsb (String.eqb p) paths;
  fd_exists := λ fd, (0 <=? fd) && (fd <=? 2);
  re_search_any := λ s, eq_refl;
|}.

Definition data_folder : string := "/home/ada/thermo".
Definition usage_folder : string := "/home/ada/thermo/radiators_usage".

Definition new_machine : PyOs := machine [data_folder].
Definition used_machine : PyOs := machine [data_folder; usage_folder].

Definition settings_after {A} (o : outcome (A * Setup.state)) (otherwise : Setup.state)
  : Setup.state :=
  match o with Done (_, st) => st | _ => otherwise end.

(** The first run: only the data folder is configured. *)
Definition unset : Setup.state :=
  Setup.mkState (<[ConfigKeys.EXCEL_FOLDER := VStr data_folder]> config) false
    [RLine ""; RStr "2025-2026"; RYesNo false; RStr "2026-2027"; RYesNo true;
     RStr "European"; RYesNo true; RStr "Auto"; RYesNo true] [].

Definition with_path : Setup.state :=
  Eval vm_compute in
    settings_after (Setup.update_usage_path (os := new_machine) unset) unset.

Definition set_up : Setup.state :=
  Eval vm_compute in
    settings_after (Setup._configure_usage (os := new_machine) 2026 with_path) unset.

(** A later run, in which the date input mode is changed. *)
Definition reviewing : Setup.state :=
  Setup.mkState (Setup.config_data set_up) false
    [RYesNo true; RYesNo false; RYesNo false; RYesNo true; RStr "Manual"; RYesNo true] [].

Definition reviewed : Setup.state :=
  Eval vm_compute in
    settings_after (Setup._configure_usage (os := used_machine) 2026 reviewing) unset.

(** The years of the first run, entered on their own. *)
Definition naming : Setup.state :=
  Setup.mkState (Setup.config_data with_path) false
    [RStr "2025-2026"; RYesNo false; RStr "2026-2027"; RYesNo true] [].

Definition named : Setup.state :=
  Eval vm_compute in
    settings_after (Setup._prompt_usage_name (os := new_machine) 2026 naming) unset.

(** The three items of a review, the second one changed. *)
Definition updating : Setup.state :=
  Setup.mkState (Setup.config_data set_up) false
    [RYesNo false; RYesNo true; RStr "American"; RYesNo true; RYesNo false] [].

Definition updated_settings : Setup.state :=
  Eval vm_compute in
    settings_after (Setup.prompt_usage_config_updates (os := new_machine) 2026 updating)
                   unset.

End Cases.

(** * Proofs *)

Section Proofs.

Context {rt : PyRuntime} (host : Host).

(** * Reasoning about runs *)

Lemma bind_done {A B} (m : M A) (f : A → M B) w r :
  (m ≫= f) w = Done r ↔ ∃ a w1, m w = Done (a, w1) ∧ f a w1 = Done r.
Proof.
  unfold mbind, M_bind. split.
  - destruct (m w) as [[a w1]| |]; [eauto | discriminate | discriminate].
  - intros (a & w1 & -> & ?). done.
Qed.

Lemma ret_done {A} (a b : A) (w w' : world) :
  mret (M := M) a w = Done (b, w') ↔ a = b ∧ w = w'.
Proof. unfold mret, M_ret. split; [by inversion 1 | by intros [-> ->]]. Qed.

Lemma lift_done {A} (r : result A) w a w' :
  lift r w = Done (a, w') ↔ r = Ok a ∧ w = w'.
Proof.
  destruct r; simpl.
  - rewrite ret_done. split; [by intros [-> ->] | by intros [[= ->] ->]].
  - unfold raise. split; [discriminate | by intros [? _]].
Qed.

(** Splits a completed run at its binds, from the outside in. *)
Ltac inv_run H :=
  lazymatch type of H with
  | (_ ≫= _) _ = Done _ =>
      let a := fresh "a" in let w1 := fresh "w" in
      let H1 := fresh "Hrun" in let H2 := fresh "Hrun" in
      apply bind_done in H as (a & w1 & H1 & H2);
      try inv_run H1; try inv_run H2
  | mret _ _ = Done _ =>
      apply ret_done in H as [? ?]; subst
  | lift _ _ = Done _ =>
      apply lift_done in H as [? ?]; subst
  | get_worksheet _ = Done _ => injection H as ? ?; subst
  | get_config _ = Done _ => injection H as ? ?; subst
  | put_worksheet _ _ = Done _ => injection H as ?; subst
  | put_config _ _ = Done _ => injection H as ?; subst
  | set_config_update _ _ = Done _ => injection H as ?; subst
  | raise _ _ = Done _ => discriminate H
  | blocked _ = Done _ => discriminate H
  | (let '(_, _) := ?p in _) _ = Done _ => destruct p; try inv_run H
  | (match ?o with Some _ => _ | None => _ end) _ = Done _ =>
      let E := fresh "Hopt" in destruct o eqn:E; try inv_run H
  | (if ?b then _ else _) _ = Done _ =>
      let E := fresh "Hif" in destruct b eqn:E; try inv_run H
  | _ => idtac
  end.

(** ** Rows and [max_row] *)

Lemma elem_of_rows_of ws r :
  r ∈ rows_of ws ↔ ∃ c, is_Some (_cells ws !! (r, c)).
Proof.
  unfold rows_of. split.
  - intros (k & -> & Hk)%list_elem_of_fmap.
    apply list_elem_of_fmap in Hk as ([k' v] & -> & Hin).
    apply elem_of_map_to_list in Hin. destruct k' as [r c]. exists c.
    simpl. by rewrite Hin.
  - intros (c & v & Hv). apply list_elem_of_fmap. exists (r, c). split; [done |].
    apply list_elem_of_fmap. exists ((r, c), v). split; [done |].
    by apply elem_of_map_to_list.
Qed.

Lemma foldr_max_ge (b : Z) l : b ≤ foldr Z.max b l.
Proof. induction l; simpl; lia. Qed.

Lemma foldr_max_elem (b : Z) l x : x ∈ l → x ≤ foldr Z.max b l.
Proof.
  induction l as [|y l IH]; [by intros ?%elem_of_nil |].
  intros [->|Hin]%elem_of_cons; simpl; [lia |]. specialize (IH Hin). lia.
Qed.

Lemma foldr_max_le (b m : Z) l :
  b ≤ m → (∀ x, x ∈ l → x ≤ m) → foldr Z.max b l ≤ m.
Proof.
  intros Hb. induction l as [|y l IH]; simpl; [done |]. intros Hl.
  assert (y ≤ m) by (apply Hl; left).
  assert (foldr Z.max b l ≤ m) by (apply IH; intros; apply Hl; by right). lia.
Qed.

Lemma max_row_ge_1 ws : 1 ≤ max_row ws.
Proof. apply foldr_max_ge. Qed.

Lemma max_row_ge ws r c : is_Some (_cells ws !! (r, c)) → r ≤ max_row ws.
Proof. intros H. apply foldr_max_elem, elem_of_rows_of. eauto. Qed.

Lemma max_row_le ws m :
  1 ≤ m → (∀ r c, is_Some (_cells ws !! (r, c)) → r ≤ m) → max_row ws ≤ m.
Proof.
  intros Hm H. apply foldr_max_le; [done |].
  intros r [c Hc]%elem_of_rows_of. eauto.
Qed.


(** A sheet without a cell beyond [max_row] reads blank there. *)
Lemma slot_at_above ws r c : max_row ws < r → slot_at ws r c = Plain blank.
Proof.
  intros Hr. unfold slot_at. destruct (_cells ws !! (r, c)) eqn:E; [|done].
  assert (r ≤ max_row ws) by (eapply max_row_ge; by rewrite E). lia.
Qed.

Lemma ws_eff_refl W T ws : ws_eff W T ws ws.
Proof.
  split; [done | done | by left |]. exists []. by rewrite app_nil_r.
Qed.

Lemma ws_eff_trans W T ws1 ws2 ws3 :
  ws_eff W T ws1 ws2 → ws_eff W T ws2 ws3 → ws_eff W T ws1 ws3.
Proof.
  intros [S1 D1 N1 (n1 & M1 & F1)] [S2 D2 N2 (n2 & M2 & F2)]. split.
  - intros r c Hr. by rewrite S2, S1.
  - intros k Hk. by apply D2, D1.
  - intros r c H3. destruct (N2 r c H3) as [H2|H2]; [by apply N1 | by right].
  - exists (n1 ++ n2). split; [by rewrite M2, M1, app_assoc | by apply Forall_app].
Qed.

Lemma ws_eff_mono (W T W' T' : Z → Prop) ws ws' :
  (∀ r, W r → W' r) → (∀ r, T r → W' r ∨ T' r) →
  ws_eff W T ws ws' → ws_eff W' T' ws ws'.
Proof.
  intros HW HT [S D N (n & Mg & F)]. split.
  - intros r c Hr. apply S. intros ?. by apply Hr, HW.
  - done.
  - intros r c H'. destruct (N r c H') as [?|[?|?]]; [by left | right; left; by apply HW |].
    right. by apply HT.
  - exists n. split; [done |]. eapply Forall_impl; [done |]. intros cr. apply HW.
Qed.

Lemma eff_refl W T w : eff W T w w.
Proof. split; [done | done | apply ws_eff_refl]. Qed.

Lemma eff_trans W T w1 w2 w3 : eff W T w1 w2 → eff W T w2 w3 → eff W T w1 w3.
Proof.
  intros [C1 U1 E1] [C2 U2 E2]. split; [congruence | congruence |].
  by eapply ws_eff_trans.
Qed.

Lemma eff_mono (W T W' T' : Z → Prop) w w' :
  (∀ r, W r → W' r) → (∀ r, T r → W' r ∨ T' r) → eff W T w w' → eff W' T' w w'.
Proof. intros HW HT [C U E]. split; [done | done |]. by eapply ws_eff_mono. Qed.

Lemma ws_eff_max_row_mono W T ws ws' : ws_eff W T ws ws' → max_row ws ≤ max_row ws'.
Proof.
  intros E. apply max_row_le; [apply max_row_ge_1 |].
  intros r c H. eapply max_row_ge. by apply (eff_dom _ _ _ _ E).
Qed.

Lemma ws_eff_max_row_le W T ws ws' hi :
  ws_eff W T ws ws' → (∀ r, W r ∨ T r → r ≤ hi) → max_row ws' ≤ Z.max (max_row ws) hi.
Proof.
  intros E Hhi. apply max_row_le; [pose proof (max_row_ge_1 ws); lia |].
  intros r c H. destruct (eff_new _ _ _ _ E r c H) as [H0|H0].
  - apply max_row_ge in H0. lia.
  - apply Hhi in H0. lia.
Qed.

(** *** One cell at a time *)

Lemma slot_at_put_slot ws k s r c :
  slot_at (put_slot ws k s) r c = if decide (k = (r, c)) then s else slot_at ws r c.
Proof.
  unfold slot_at, put_slot. simpl. case_decide as Hk.
  - subst k. by rewrite lookup_insert_eq.
  - by rewrite lookup_insert_ne.
Qed.

Lemma lookup_put_slot ws k s k' :
  is_Some (_cells (put_slot ws k s) !! k') ↔ k' = k ∨ is_Some (_cells ws !! k').
Proof.
  unfold put_slot. simpl. destruct (decide (k = k')) as [->|Hne].
  - rewrite lookup_insert_eq. split; [by left | by eexists].
  - rewrite lookup_insert_ne by done. split; [by right | by intros [->|?]].
Qed.

Lemma put_slot_eff (W T : Z → Prop) ws r c s :
  W r ∨ (T r ∧ s = slot_at ws r c) → ws_eff W T ws (put_slot ws (r, c) s).
Proof.
  intros HW. split.
  - intros r' c' Hr'. rewrite slot_at_put_slot. case_decide as Hk; [|done].
    injection Hk as -> ->. by destruct HW as [?|[_ ->]].
  - intros k Hk. apply lookup_put_slot. by right.
  - intros r' c' [[= -> ->]|?]%lookup_put_slot; [right; tauto | by left].
  - exists []. by rewrite app_nil_r.
Qed.

Lemma _get_cell_spec ws row column s ws' :
  _get_cell ws row column = (s, ws') →
  s = slot_at ws row column ∧
  _cells ws' !! (row, column) = Some s ∧
  (∀ r c, slot_at ws' r c = slot_at ws r c) ∧
  (∀ W T : Z → Prop, W row ∨ T row → ws_eff W T ws ws').
Proof.
  unfold _get_cell. destruct (_cells ws !! (row, column)) as [s0|] eqn:E.
  - intros [= <- <-]. unfold slot_at at 1. rewrite E. split_and!; try done.
    intros. apply ws_eff_refl.
  - intros [= <- <-].
    assert (slot_at ws row column = Plain blank) as Hb by (unfold slot_at; by rewrite E).
    split_and!; try done.
    + unfold put_slot. simpl. by rewrite lookup_insert_eq.
    + intros r c. rewrite slot_at_put_slot. case_decide as Hk; [|done].
      by injection Hk as <- <-.
    + intros W T HT. apply put_slot_eff. rewrite Hb. tauto.
Qed.

Lemma _get_cell_merged ws row column s ws' :
  _get_cell ws row column = (s, ws') → merged_cells ws' = merged_cells ws.
Proof.
  unfold _get_cell. destruct (_cells ws !! (row, column)); by intros [= <- <-].
Qed.

Lemma ws_read_spec ws row column v ws' :
  ws_read ws row column = Ok (v, ws') →
  1 ≤ row ∧ 1 ≤ column ∧ v = value_at ws row column ∧
  (∀ r c, slot_at ws' r c = slot_at ws r c) ∧
  (∀ W T : Z → Prop, W row ∨ T row → ws_eff W T ws ws').
Proof.
  unfold ws_read. destruct ((row <? 1) || (column <? 1)) eqn:Hg; [discriminate |].
  apply orb_false_iff in Hg as [?%Z.ltb_ge ?%Z.ltb_ge].
  destruct (_get_cell ws row column) as [s ws1] eqn:Hc. intros [= <- <-].
  apply _get_cell_spec in Hc as (-> & _ & Hslot & He). by split_and!.
Qed.

Lemma ws_write_spec ws row column v ws' :
  ws_write ws row column v = Ok ws' →
  1 ≤ row ∧ 1 ≤ column ∧
  value_at ws' row column = (if is_none v then value_at ws row column else v) ∧
  comment_at ws' row column = comment_at ws row column ∧
  is_Some (_cells ws' !! (row, column)) ∧
  (∀ r c, (r, c) ≠ (row, column) → slot_at ws' r c = slot_at ws r c) ∧
  (∀ W T : Z → Prop, W row → ws_eff W T ws ws').
Proof.
  unfold ws_write. destruct ((row <? 1) || (column <? 1)) eqn:Hg; [discriminate |].
  apply orb_false_iff in Hg as [?%Z.ltb_ge ?%Z.ltb_ge].
  destruct (_get_cell ws row column) as [s ws1] eqn:Hc.
  apply _get_cell_spec in Hc as (-> & Hs & Hslot & He).
  destruct (is_none v) eqn:Hv.
  - intros [= <-]. unfold value_at, comment_at. rewrite !Hslot.
    split_and!; try done. intros W T HW. apply He. by left.
  - destruct (slot_at ws row column) as [c0|] eqn:Hs0; [|discriminate].
    intros [= <-]. unfold value_at, comment_at. rewrite !slot_at_put_slot.
    rewrite decide_True by done. simpl. split_and!; try done.
    + by rewrite Hs0.
    + apply lookup_put_slot. by left.
    + intros r c Hrc. rewrite slot_at_put_slot, decide_False by done. apply Hslot.
    + intros W T HW. eapply ws_eff_trans; [apply He; by left |].
      apply put_slot_eff. by left.
Qed.

(** *** The primitive steps of a run *)

Lemma cell_value_spec row column w v w' :
  cell_value row column w = Done (v, w') →
  1 ≤ row ∧ v = value_at (worksheet w) row column ∧
  (∀ r c, slot_at (worksheet w') r c = slot_at (worksheet w) r c) ∧
  (∀ W T : Z → Prop, W row ∨ T row → eff W T w w') ∧
  io_same w w'.
Proof.
  unfold cell_value. intros H. inv_run H. simpl in *.
  apply ws_read_spec in H as (? & ? & -> & Hslot & He).
  split_and!; try done. intros W T HT. split; simpl; auto.
Qed.

Lemma cell_write_spec row column v w w' :
  cell_write row column v w = Done (tt, w') →
  1 ≤ row ∧
  value_at (worksheet w') row column
    = (if is_none v then value_at (worksheet w) row column else v) ∧
  comment_at (worksheet w') row column = comment_at (worksheet w) row column ∧
  is_Some (_cells (worksheet w') !! (row, column)) ∧
  (∀ r c, (r, c) ≠ (row, column) →
          slot_at (worksheet w') r c = slot_at (worksheet w) r c) ∧
  (∀ W T : Z → Prop, W row → eff W T w w') ∧
  io_same w w'.
Proof.
  unfold cell_write. intros H. inv_run H. simpl in *.
  apply ws_write_spec in H as (? & ? & Hv & Hc & Hd & Hslot & He).
  split_and!; try done. intros W T HT. split; simpl; auto.
Qed.

Lemma ask_spec {A} p (accept : response → option A) w a w' :
  ask p accept w = Done (a, w') →
  ∃ r, accept r = Some a ∧
       stdin w = r :: stdin w' ∧
       transcript w' = transcript w ++ [(p, r)] ∧
       worksheet w' = worksheet w ∧ config_data w' = config_data w ∧
       config_update w' = config_update w.
Proof.
  unfold ask. destruct (stdin w) as [|r rest] eqn:E; [discriminate |].
  destruct (accept r) as [a0|] eqn:Ea; [|discriminate].
  intros [= <- <-]. exists r. by simpl.
Qed.

Lemma talk_refl w : talk w w.
Proof. split_and!; try done. by exists []. Qed.

Lemma talk_trans w1 w2 w3 : talk w1 w2 → talk w2 w3 → talk w1 w3.
Proof.
  intros (? & ? & ? & l1 & E1) (? & ? & ? & l2 & E2).
  split_and!; try congruence. exists (l1 ++ l2). by rewrite E1, E2, app_assoc.
Qed.

Lemma talk_eff W T w w' : talk w w' → eff W T w w'.
Proof.
  intros (Hw & ? & ? & _). split; [done | done |]. rewrite Hw. apply ws_eff_refl.
Qed.

Lemma ask_talk {A} p (accept : response → option A) w a w' :
  ask p accept w = Done (a, w') → talk w w'.
Proof.
  intros (r & _ & Hin & _ & ? & ? & ?)%ask_spec. split_and!; try done. by exists [r].
Qed.

Lemma display_user_info_talk msg w w' :
  display_user_info msg w = Done (tt, w') → talk w w'.
Proof. unfold display_user_info, input. intros H. inv_run H. by eapply ask_talk. Qed.

Lemma config_getitem_spec key w v w' :
  config_getitem key w = Done (v, w') → w' = w ∧ config_data w !! key = Some v.
Proof.
  unfold config_getitem. intros H. by inv_run H.
Qed.

Lemma as_int_spec v w z w' : as_int v w = Done (z, w') → w' = w ∧ v = VInt z.
Proof. destruct v; simpl; try discriminate. by intros [= -> ->]. Qed.

Lemma config_int_spec key w z w' :
  (config_getitem key ≫= as_int) w = Done (z, w') →
  w' = w ∧ config_data w !! key = Some (VInt z).
Proof.
  intros H. apply bind_done in H as (v & w1 & H1 & H2).
  apply config_getitem_spec in H1 as [-> Hk].
  apply as_int_spec in H2 as [-> ->]. done.
Qed.

Lemma _get_usage_block_info_spec w n s w' :
  _get_usage_block_info w = Done ((n, s), w') →
  w' = w ∧
  config_data w !! CKeys.RADIATORS_OWNED = Some (VInt n) ∧
  config_data w !! CKeys.START_ROW = Some (VInt s).
Proof.
  unfold _get_usage_block_info, get_radiators_owned. intros H.
  apply bind_done in H as (n' & w1 & H1 & H2).
  apply bind_done in H2 as (s' & w2 & H2 & H3).
  apply config_int_spec in H1 as [-> Hn].
  apply config_int_spec in H2 as [-> Hs].
  apply ret_done in H3 as [[= -> ->] ->]. done.
Qed.

(** *** Loops *)

Lemma for_each_inv {A} (I : world → Prop) (R : world → world → Prop)
    (l : list A) (body : A → M unit) :
  (∀ w, R w w) → (∀ w1 w2 w3, R w1 w2 → R w2 w3 → R w1 w3) →
  (∀ x w w', x ∈ l → I w → body x w = Done (tt, w') → R w w' ∧ I w') →
  ∀ w w', I w → for_each l body w = Done (tt, w') → R w w' ∧ I w'.
Proof.
  intros Hrefl Htrans. induction l as [|x l IH]; intros Hbody w w' HI H; simpl in H.
  - inv_run H. done.
  - apply bind_done in H as ([] & w1 & H1 & H2).
    destruct (Hbody x w w1) as [HR1 HI1]; [by left | done | done |].
    destruct (IH (λ y w w' Hy, Hbody y w w' (list_elem_of_further _ _ _ Hy)) w1 w')
      as [HR2 HI2]; [done | done |].
    split; [by eapply Htrans | done].
Qed.

Lemma for_list_inv {A B} (I : world → Prop) (R : world → world → Prop)
    (P : A → B → Prop) (l : list A) (f : A → M B) :
  (∀ w, R w w) → (∀ w1 w2 w3, R w1 w2 → R w2 w3 → R w1 w3) →
  (∀ x w y w', x ∈ l → I w → f x w = Done (y, w') → R w w' ∧ I w' ∧ P x y) →
  ∀ w ys w', I w → for_list l f w = Done (ys, w') →
             R w w' ∧ I w' ∧ Forall2 P l ys.
Proof.
  intros Hrefl Htrans. induction l as [|x l IH]; intros Hf w ys w' HI H; simpl in H.
  - inv_run H. by split_and!.
  - apply bind_done in H as (a & w1 & H1 & H2).
    apply bind_done in H2 as (a0 & w2 & H2 & H3).
    apply ret_done in H3 as [<- ->].
    destruct (Hf x w a w1) as (HR1 & HI1 & HP); [by left | done | done |].
    destruct (IH (λ y w z w' Hy, Hf y w z w' (list_elem_of_further _ _ _ Hy)) w1 a0 w')
      as (HR2 & HI2 & HF); [done | done |].
    split_and!; [by eapply Htrans | done | by constructor].
Qed.

Lemma elem_of_range a b x : x ∈ range a b ↔ a ≤ x < b.
Proof. unfold range. rewrite elem_of_seqZ. lia. Qed.



(** * The row-block tracker *)

Lemma _update_start_rows_spec w :
  let start_row := max_row (worksheet w) + 1 in
  let last_start_row := default (VInt start_row) (config_data w !! CKeys.START_ROW) in
  _update_start_rows w =
    Done (tt, mkWorld (worksheet w)
                (<[CKeys.LAST_START_ROW := last_start_row]>
                   (<[CKeys.START_ROW := VInt start_row]> (config_data w)))
                true (stdin w) (transcript w)).
Proof. done. Qed.


(** * Filling a column *)

Lemma _fill_col_aux (P : Z → pyval → Prop) (W T S : Z → Prop) get_value col w0 rows :
  NoDup rows →
  (∀ row, row ∈ rows → S row ∧ W row) →
  (∀ row w v w', row ∈ rows → filling w0 S col w → get_value row w = Done (v, w') →
     (∀ r c, slot_at (worksheet w') r c = slot_at (worksheet w) r c) ∧
     eff W T w w' ∧ P row v ∧ is_none v = false) →
  ∀ w w', filling w0 S col w →
    _fill_col rows get_value col w = Done (tt, w') →
    eff W T w w' ∧ filling w0 S col w' ∧
    (∀ row, row ∈ rows → ∃ v, P row v ∧ value_at (worksheet w') row col = v) ∧
    (∀ r c, ¬ (r ∈ rows ∧ c = col) →
            slot_at (worksheet w') r c = slot_at (worksheet w) r c).
Proof.
  unfold _fill_col.
  induction rows as [|row rows IH]; intros Hnd HS Hget w w' Hw H; simpl in H.
  - inv_run H. split_and!; [apply eff_refl | done | by intros ? ?%elem_of_nil | done].
  - apply NoDup_cons in Hnd as [Hnotin Hnd].
    apply bind_done in H as ([] & w2 & H1 & H2).
    apply bind_done in H1 as (v & w1 & Hv & Hwr).
    destruct (HS row) as [HSr HWr]; [by left |].
    destruct (Hget row w v w1) as (Hsl1 & He1 & HP & Hnn); [by left | done | done |].
    apply cell_write_spec in Hwr as (_ & Hval & _ & _ & Hsl2 & He2 & _).
    rewrite Hnn in Hval.
    assert (filling w0 S col w2) as Hw2.
    { destruct Hw as [Hc Hf]. split.
      - rewrite (eff_config _ _ _ _ (He2 W T HWr)), (eff_config _ _ _ _ He1). done.
      - intros r c Hrc. rewrite Hsl2, Hsl1 by (intros [= -> ->]; tauto). by apply Hf. }
    destruct (IH Hnd) with (w := w2) (w' := w') as (He3 & Hw' & Hrows & Hfr); try done.
    { intros r Hr. apply HS. by right. }
    { intros r w3 v3 w4 Hr. apply Hget. by right. }
    split_and!; [| done | |].
    + eapply eff_trans; [done |]. eapply eff_trans; [by apply He2 | done].
    + intros r [->|Hr]%elem_of_cons; [|by apply Hrows].
      exists v. split; [done |]. unfold value_at. rewrite Hfr; [done |].
      intros [? _]. done.
    + intros r c Hrc. rewrite Hfr, Hsl2, Hsl1; [done | |].
      * intros [= -> ->]. apply Hrc. split; [by left | done].
      * intros [? ?]. apply Hrc. split; [by right | done].
Qed.

Lemma filling_refl w0 S col : filling w0 S col w0.
Proof. done. Qed.

Lemma _fill_col_spec (P : Z → pyval → Prop) (W T : Z → Prop) get_value col rows w0 w' :
  NoDup rows →
  (∀ row, row ∈ rows → W row) →
  (∀ row w v w', row ∈ rows → filling w0 (λ r, r ∈ rows) col w →
     get_value row w = Done (v, w') →
     (∀ r c, slot_at (worksheet w') r c = slot_at (worksheet w) r c) ∧
     eff W T w w' ∧ P row v ∧ is_none v = false) →
  _fill_col rows get_value col w0 = Done (tt, w') →
  eff W T w0 w' ∧
  (∀ row, row ∈ rows → ∃ v, P row v ∧ value_at (worksheet w') row col = v) ∧
  (∀ r c, ¬ (r ∈ rows ∧ c = col) →
          slot_at (worksheet w') r c = slot_at (worksheet w0) r c).
Proof.
  intros Hnd HW Hget H.
  destruct (_fill_col_aux P W T (λ r, r ∈ rows) get_value col w0 rows)
    with (w := w0) (w' := w') as (He & _ & Hrows & Hfr); try done.
  intros row Hr. split; [done | by apply HW].
Qed.

Lemma NoDup_range a b : NoDup (range a b).
Proof. apply NoDup_seqZ. Qed.

(** * The field computer *)

Lemma py_mul_not_none a b v : py_mul a b = Ok v → is_none v = false.
Proof.
  destruct a, b; simpl; try discriminate; try (by intros [= <-]);
    destruct (float_of_int _); try discriminate; by intros [= <-].
Qed.

Lemma _compute_actual_value_spec row w v w' :
  _compute_actual_value row w = Done (v, w') →
  py_mul (value_at (worksheet w) row SNums.FOUR) (value_at (worksheet w) row SNums.FIVE) = Ok v ∧
  (∀ r c, slot_at (worksheet w') r c = slot_at (worksheet w) r c) ∧
  (∀ W T : Z → Prop, W row ∨ T row → eff W T w w') ∧
  io_same w w'.
Proof.
  unfold _compute_actual_value. intros H.
  apply bind_done in H as (coefficient & w1 & H1 & H).
  apply bind_done in H as (raw_reading & w2 & H2 & H).
  apply lift_done in H as [Hmul ->].
  apply cell_value_spec in H1 as (_ & -> & Hs1 & He1 & Hio1).
  apply cell_value_spec in H2 as (_ & -> & Hs2 & He2 & Hio2).
  unfold value_at in Hmul. rewrite Hs1 in Hmul. split_and!.
  - done.
  - intros r c. by rewrite Hs2, Hs1.
  - intros W T HT. eapply eff_trans; [by apply He1 | by apply He2].
  - destruct Hio1, Hio2. split; congruence.
Qed.

(** C1.  When [_get_actual_values] returns, every device row of the block
    (the rows [start_row <= row < start_row + radiators_owned]) holds in
    column 6 the Python product of its coefficient (column 4) and its raw
    reading (column 5), both of which are left as they were; on integers
    this is the integer product. *)
Theorem actual_value_is_coefficient_times_raw_reading (w w' : world) :
  _get_actual_values w = Done (tt, w') →
  ∃ radiators_owned start_row,
    config_data w !! CKeys.RADIATORS_OWNED = Some (VInt radiators_owned) ∧
    config_data w !! CKeys.START_ROW = Some (VInt start_row) ∧
    ∀ row, start_row ≤ row < start_row + radiators_owned →
      value_at (worksheet w') row 4 = value_at (worksheet w) row 4 ∧
      value_at (worksheet w') row 5 = value_at (worksheet w) row 5 ∧
      py_mul (value_at (worksheet w') row 4) (value_at (worksheet w') row 5)
        = Ok (value_at (worksheet w') row 6) ∧
      (∀ coefficient raw_reading,
         value_at (worksheet w') row 4 = VInt coefficient →
         value_at (worksheet w') row 5 = VInt raw_reading →
         value_at (worksheet w') row 6 = VInt (coefficient * raw_reading)).
Proof.
  unfold _get_actual_values. intros H.
  apply bind_done in H as ([n s] & w1 & Hinfo & H).
  apply _get_usage_block_info_spec in Hinfo as (-> & Hn & Hs).
  exists n, s. split_and!; try done.
  apply (_fill_col_spec
           (λ row v, py_mul (value_at (worksheet w) row SNums.FOUR)
                            (value_at (worksheet w) row SNums.FIVE) = Ok v)
           (λ _, True) (λ _, True)) in H as (_ & Hrows & Hfr).
  - intros row Hrow.
    destruct (Hrows row) as (v & Hv & Hval); [by apply elem_of_range |].
    assert (∀ c, c ≠ SNums.SIX →
                 value_at (worksheet w') row c = value_at (worksheet w) row c) as Hc.
    { intros c Hc. unfold value_at. rewrite Hfr; [done | tauto]. }
    rewrite (Hc 4), (Hc 5) by done. change 6 with SNums.SIX. rewrite Hval.
    split_and!; try done.
    intros c x Hc4 Hc5. change 4 with SNums.FOUR in Hc4. change 5 with SNums.FIVE in Hc5.
    rewrite Hc4, Hc5 in Hv. simpl in Hv. by injection Hv as <-.
  - apply NoDup_range.
  - done.
  - intros row w2 v w3 Hrow [_ Hfill] Hv.
    apply _compute_actual_value_spec in Hv as (Hmul & Hsl & He & _).
    unfold value_at in Hmul. rewrite !Hfill in Hmul by (intros [_ ?]; done).
    split_and!; [done | apply He; by left | done | by eapply py_mul_not_none].
Qed.

(** ** Dates *)

Lemma _format_date_spec d w str w' :
  _format_date d w = Done (str, w') →
  w' = w ∧ str = strftime d (date_format_of (config_data w)).
Proof.
  unfold _format_date, date_format_of. intros H.
  apply bind_done in H as (fmt & w1 & H1 & H).
  apply config_getitem_spec in H1 as [-> ->].
  destruct (py_eq_str fmt SCons.EUROPEAN); by apply ret_done in H as [<- <-].
Qed.

Lemma _prompt_date_talk w r w' : _prompt_date w = Done (r, w') → talk w w'.
Proof.
  unfold _prompt_date, inputInt. intros H.
  apply bind_done in H as (d & w1 & H1 & H).
  apply bind_done in H as (m & w2 & H2 & H).
  apply bind_done in H as (y & w3 & H3 & H).
  apply ret_done in H as [_ <-].
  eapply talk_trans; [by eapply ask_talk |].
  eapply talk_trans; by eapply ask_talk.
Qed.

Lemma _check_date_spec y m d w o w' : _check_date y m d w = Done (o, w') → w' = w.
Proof.
  unfold _check_date. destruct (datetime_date y m d) as [?|[]]; simpl;
    try discriminate; by intros [= _ ->].
Qed.

Lemma _get_date_manually_loop_spec fuel w str w' :
  _get_date_manually_loop fuel w = Done (str, w') →
  talk w w' ∧ ∃ date_obj, str = strftime date_obj (date_format_of (config_data w)).
Proof.
  revert w. induction fuel as [|fuel IH]; intros w H; simpl in H; [discriminate |].
  apply bind_done in H as ([[dd mm] yy] & w1 & H1 & H).
  apply _prompt_date_talk in H1.
  apply bind_done in H as (o & w2 & H2 & H).
  apply _check_date_spec in H2 as ->.
  assert (config_data w1 = config_data w) as Hcfg by apply H1.
  destruct o as [date_obj|].
  - apply bind_done in H as (formatted & w3 & H3 & H).
    apply _format_date_spec in H3 as [-> ->].
    apply bind_done in H as (d & w4 & H4 & H).
    unfold _confirm_date in H4.
    apply bind_done in H4 as (ans & w5 & H4 & H5).
    apply ask_talk in H4.
    assert (w4 = w5) as -> by (destruct (String.eqb ans SCons.AGREE); by apply ret_done in H5 as [_ ->]).
    assert (config_data w5 = config_data w) as Hcfg5 by (destruct H4 as (_ & -> & _); done).
    destruct (truthy d) eqn:Ht.
    + apply ret_done in H as [<- <-]. split; [by eapply talk_trans |].
      destruct (String.eqb ans SCons.AGREE); apply ret_done in H5 as [<- _]; [|done].
      exists date_obj. simpl. by rewrite Hcfg.
    + apply IH in H as [Ht2 (dobj & ->)]. split.
      * eapply talk_trans; [done |]. by eapply talk_trans.
      * exists dobj. by rewrite Hcfg5.
  - apply IH in H as [Ht2 (dobj & ->)]. split; [by eapply talk_trans |].
    exists dobj. by rewrite Hcfg.
Qed.

(** C10.  When [_fill_dates host] returns, one formatted date (today's date in
    the automatic mode) has been written into column 1 of every row from
    [start_row] to [start_row + radiators_owned], both included: the device
    rows of the block and the row that follows the last of them, the total
    row.  Nothing else is written. *)
Theorem fill_dates_covers_device_rows_and_total_row (w w' : world) :
  _fill_dates host w = Done (tt, w') →
  ∃ radiators_owned start_row date_obj,
    let formatted := strftime date_obj (date_format_of (config_data w)) in
    config_data w !! CKeys.RADIATORS_OWNED = Some (VInt radiators_owned) ∧
    config_data w !! CKeys.START_ROW = Some (VInt start_row) ∧
    (config_data w !! CKeys.DATE_INPUT_MODE = Some (VStr SCons.DATE_AUTO) →
     date_obj = now host) ∧
    (∀ row, start_row ≤ row < start_row + radiators_owned →
            value_at (worksheet w') row 1 = VStr formatted) ∧
    (0 ≤ radiators_owned →
     value_at (worksheet w') (start_row + radiators_owned) 1 = VStr formatted) ∧
    (∀ r c, ¬ (start_row ≤ r ≤ start_row + radiators_owned ∧ c = 1) →
            slot_at (worksheet w') r c = slot_at (worksheet w) r c).
Proof.
  unfold _fill_dates. intros H.
  apply bind_done in H as (mode & w1 & H1 & H).
  apply config_getitem_spec in H1 as [-> Hmode].
  apply bind_done in H as (d & w1 & Hd & H).
  assert (talk w w1 ∧ ∃ date_obj, d = strftime date_obj (date_format_of (config_data w)) ∧
            (py_eq_str mode SCons.DATE_AUTO = true → date_obj = now host))
    as ((Hws & Hcfg & _) & date_obj & -> & Hauto).
  { destruct (py_eq_str mode SCons.DATE_AUTO).
    - apply _format_date_spec in Hd as [-> ->]. split; [apply talk_refl | by eexists].
    - apply _get_date_manually_loop_spec in Hd as [? (dobj & ->)].
      split; [done |]. by exists dobj. }
  apply bind_done in H as ([n s] & w2 & Hinfo & H).
  apply _get_usage_block_info_spec in Hinfo as (-> & Hn & Hs).
  rewrite Hcfg in Hn, Hs.
  exists n, s, date_obj. simpl.
  set (formatted := strftime date_obj (date_format_of (config_data w))) in *.
  apply (_fill_col_spec (λ _ v, v = VStr formatted) (λ _, True) (λ _, True))
    in H as (_ & Hrows & Hfr).
  - assert (∀ row, s ≤ row ≤ s + n → value_at (worksheet w') row 1 = VStr formatted) as Hall.
    { intros row Hrow. destruct (Hrows row) as (v & -> & Hv); [|done].
      apply elem_of_range. unfold SNums.ONE. lia. }
    split_and!; try done.
    + intros Hm. apply Hauto. rewrite Hmode in Hm. by injection Hm as ->.
    + intros row Hrow. apply Hall. lia.
    + intros Hn0. apply Hall. lia.
    + intros r c Hrc. rewrite Hfr, Hws; [done |]. intros [Hr ->]. apply Hrc.
      apply elem_of_range in Hr. unfold SNums.ONE in Hr. split; [lia | done].
  - apply NoDup_range.
  - done.
  - intros row w3 v w4 _ _ Hv. apply ret_done in Hv as [<- <-].
    split_and!; try done. apply eff_refl.
Qed.

(** ** The total *)

Lemma py_sum_not_none l v : py_sum l = Ok v → is_none v = false.
Proof.
  unfold py_sum. destruct (numbers_of l) as [ns|]; [|discriminate].
  destruct (ints_of ns); [by intros [= <-] |].
  destruct (float_sum ns); [by intros [= <-] | discriminate].
Qed.

Lemma numbers_of_ints zs : numbers_of (VInt <$> zs) = Some (inl <$> zs).
Proof.
  induction zs as [|z zs IH]; [done |].
  rewrite !fmap_cons. cbn [numbers_of]. by rewrite IH.
Qed.

Lemma ints_of_ints zs : ints_of (inl <$> zs) = Some zs.
Proof.
  induction zs as [|z zs IH]; [done |].
  rewrite !fmap_cons. cbn [ints_of]. by rewrite IH.
Qed.

Lemma py_sum_ints zs : py_sum (VInt <$> zs) = Ok (VInt (sum_list_Z zs)).
Proof. unfold py_sum. by rewrite numbers_of_ints, ints_of_ints. Qed.

Lemma Forall2_fmap_eq {A B} (f : A → B) l ys :
  Forall2 (λ x y, y = f x) l ys → ys = f <$> l.
Proof. induction 1 as [|x y l ys -> _ IH]; [done |]. by rewrite fmap_cons, IH. Qed.

(** Reading a column over some rows gives the values it holds and changes
    no coordinate. *)
Lemma read_column_spec rows col w values w' :
  for_list rows (λ row, cell_value row col) w = Done (values, w') →
  values = (λ row, value_at (worksheet w) row col) <$> rows ∧
  (∀ r c, slot_at (worksheet w') r c = slot_at (worksheet w) r c) ∧
  (∀ W T : Z → Prop, (∀ row, row ∈ rows → W row ∨ T row) → eff W T w w') ∧
  io_same w w'.
Proof.
  pose (I := λ w1 : world,
          (∀ r c, slot_at (worksheet w1) r c = slot_at (worksheet w) r c) ∧
          (∀ W T : Z → Prop, (∀ row, row ∈ rows → W row ∨ T row) → eff W T w w1) ∧
          io_same w w1).
  intros H.
  apply (for_list_inv I (λ _ _, True) (λ row v, v = value_at (worksheet w) row col))
    in H as (_ & HI & HF); try done.
  - split; [by apply Forall2_fmap_eq | done].
  - intros row w1 v w2 Hrow (Hsl & He & Hio1) Hv.
    apply cell_value_spec in Hv as (_ & -> & Hsl2 & He2 & Hio2).
    split; [done |]. split.
    + split_and!.
      * intros r c. by rewrite Hsl2.
      * intros W T HT. eapply eff_trans; [by apply He | apply He2; by apply HT].
      * destruct Hio1, Hio2. split; congruence.
    + unfold value_at. by rewrite Hsl.
  - split_and!; [done | intros; apply eff_refl | done].
Qed.

Lemma _get_total_spec w w' :
  _get_total w = Done (tt, w') →
  ∃ radiators_owned start_row total,
    config_data w !! CKeys.RADIATORS_OWNED = Some (VInt radiators_owned) ∧
    config_data w !! CKeys.START_ROW = Some (VInt start_row) ∧
    py_sum ((λ row, value_at (worksheet w) row 6)
              <$> range start_row (start_row + radiators_owned)) = Ok total ∧
    value_at (worksheet w') (start_row + radiators_owned) 7 = total ∧
    (∀ r c, (r, c) ≠ (start_row + radiators_owned, 7) →
            slot_at (worksheet w') r c = slot_at (worksheet w) r c) ∧
    (∀ W T : Z → Prop,
       W (start_row + radiators_owned) →
       (∀ row, start_row ≤ row < start_row + radiators_owned → W row ∨ T row) →
       eff W T w w') ∧
    io_same w w'.
Proof.
  unfold _get_total. intros H.
  apply bind_done in H as ([n s] & w1 & Hinfo & H).
  apply _get_usage_block_info_spec in Hinfo as (-> & Hn & Hs).
  apply bind_done in H as (values & w1 & Hread & H).
  apply read_column_spec in Hread as (-> & Hsl & He & Hio).
  apply bind_done in H as (total & w2 & Hsum & H).
  apply lift_done in Hsum as [Hsum ->].
  apply cell_write_spec in H as (_ & Hval & _ & _ & Hsl2 & He2 & Hio2).
  rewrite (py_sum_not_none _ _ Hsum) in Hval.
  exists n, s, total. split_and!; try done.
  - intros r c Hrc. by rewrite Hsl2, Hsl.
  - intros W T HW HT. eapply eff_trans; [apply He | by apply He2].
    intros row Hrow%elem_of_range. by apply HT.
  - destruct Hio, Hio2. split; congruence.
Qed.

(** C2.  When [_get_total] returns, the total it wrote is the builtin sum
    of the actual values (column 6) of exactly the device rows of the block,
    [start_row <= row < start_row + radiators_owned]; on integers this is
    their integer sum.  It stands in the total column (7) of the row that
    follows the last device row, [start_row + radiators_owned], and that is
    the one coordinate the step changes. *)
Theorem total_is_sum_over_device_rows_written_once (w w' : world) :
  _get_total w = Done (tt, w') →
  ∃ radiators_owned start_row total,
    let actual_values := (λ row, value_at (worksheet w') row 6)
                           <$> range start_row (start_row + radiators_owned) in
    config_data w !! CKeys.RADIATORS_OWNED = Some (VInt radiators_owned) ∧
    config_data w !! CKeys.START_ROW = Some (VInt start_row) ∧
    py_sum actual_values = Ok total ∧
    (∀ zs, actual_values = VInt <$> zs → total = VInt (sum_list_Z zs)) ∧
    value_at (worksheet w') (start_row + radiators_owned) 7 = total ∧
    (∀ r c, (r, c) ≠ (start_row + radiators_owned, 7) →
            slot_at (worksheet w') r c = slot_at (worksheet w) r c).
Proof.
  intros H. apply _get_total_spec in H as (n & s & total & Hn & Hs & Hsum & Hval & Hfr & _).
  exists n, s, total. simpl.
  assert ((λ row, value_at (worksheet w') row 6) <$> range s (s + n)
          = (λ row, value_at (worksheet w) row 6) <$> range s (s + n)) as ->.
  { apply list_fmap_ext. intros i row _. unfold value_at. rewrite Hfr; [done |].
    intros [= _ ?]. }
  split_and!; try done.
  intros zs Hzs. rewrite Hzs, py_sum_ints in Hsum. by injection Hsum as <-.
Qed.

(** * The carry-forward updater *)

Lemma inputStr_spec p w str w' :
  inputStr p w = Done (str, w') →
  str ≠ EmptyString ∧ stdin w = RStr str :: stdin w' ∧
  transcript w' = transcript w ++ [(p, RStr str)] ∧
  worksheet w' = worksheet w ∧ config_data w' = config_data w ∧
  config_update w' = config_update w.
Proof.
  unfold inputStr. intros (r & Hacc & ? & ? & ? & ? & ?)%ask_spec.
  destruct r as [| |s0|]; try discriminate.
  destruct (String.eqb s0 "") eqn:E; [discriminate |]. injection Hacc as ->.
  apply String.eqb_neq in E. done.
Qed.

Lemma inputYesNo_spec p w ans w' :
  inputYesNo p w = Done (ans, w') →
  ∃ b, ans = yes_no b ∧ stdin w = RYesNo b :: stdin w' ∧
       transcript w' = transcript w ++ [(p, RYesNo b)] ∧
       worksheet w' = worksheet w ∧ config_data w' = config_data w ∧
       config_update w' = config_update w.
Proof.
  unfold inputYesNo. intros (r & Hacc & ? & ? & ? & ? & ?)%ask_spec.
  destruct r as [|b| |]; try discriminate. injection Hacc as <-. by exists b.
Qed.

Lemma yes_no_agree b : String.eqb (yes_no b) SCons.AGREE = b.
Proof. by destruct b. Qed.

Lemma cell_write_done row column v w w' :
  cell_write row column v w = Done (tt, w') →
  ∃ ws', ws_write (worksheet w) row column v = Ok ws' ∧
         w' = mkWorld ws' (config_data w) (config_update w) (stdin w) (transcript w).
Proof. unfold cell_write. intros H. inv_run H. by eexists. Qed.

(** The [while True] of [_process_valve_setting_update], turn by turn. *)
Lemma _process_valve_setting_update_loop_spec fuel name current new_row w w' :
  _process_valve_setting_update_loop fuel name current new_row w = Done (tt, w') →
  ∃ o,
    well_entered o ∧
    transcript w' = transcript w ++ device_dialogue name current o ∧
    stdin w = (device_dialogue name current o).*2 ++ stdin w' ∧
    ws_write (worksheet w) new_row SNums.EIGHT (settled_value current o.2)
      = Ok (worksheet w') ∧
    config_data w' = config_data w ∧ config_update w' = config_update w.
Proof.
  revert w. induction fuel as [|fuel IH]; intros w H; simpl in H; [discriminate |].
  apply bind_done in H as (new & w1 & Hprompt & H).
  unfold _prompt_valve_update in Hprompt.
  apply bind_done in Hprompt as (ans & w2 & Hans & Hprompt).
  apply inputYesNo_spec in Hans as (b & -> & Hin2 & Htr2 & Hws2 & Hc2 & Hu2).
  rewrite yes_no_agree in Hprompt. destruct b.
  - apply bind_done in Hprompt as (entered & w3 & Hstr & Hret).
    apply ret_done in Hret as [<- <-].
    apply inputStr_spec in Hstr as (Hne & Hin3 & Htr3 & Hws3 & Hc3 & Hu3).
    assert (truthy (Some entered) = true) as Htruthy.
    { simpl. by apply negb_true_iff, String.eqb_neq. }
    rewrite Htruthy in H. simpl in H.
    apply bind_done in H as (ok & w4 & Hconf & H).
    unfold _confirm_valve_update in Hconf.
    apply bind_done in Hconf as (ans & w5 & Hans & Hconf).
    apply inputYesNo_spec in Hans as (b & -> & Hin5 & Htr5 & Hws5 & Hc5 & Hu5).
    rewrite yes_no_agree in Hconf. destruct b.
    + apply bind_done in Hconf as ([] & w6 & Hwr & Hret).
      apply ret_done in Hret as [<- <-]. apply ret_done in H as [_ <-].
      apply cell_write_done in Hwr as (ws' & Hwr & ->). simpl.
      exists ([], APPLIED entered). split_and!.
      * split; [by constructor | done].
      * rewrite Htr5, Htr3, Htr2, <- !app_assoc. done.
      * rewrite Hin2, Hin3, Hin5. done.
      * by rewrite <- Hws2, <- Hws3, <- Hws5.
      * congruence.
      * congruence.
    + apply ret_done in Hconf as [<- <-].
      apply IH in H as ([rejected t] & [Hwell1 Hwell2] & Htr & Hin & Hwr & Hc & Hu).
      exists (entered :: rejected, t). split_and!.
      * split; [by constructor | done].
      * rewrite Htr, Htr5, Htr3, Htr2. unfold device_dialogue. simpl.
        rewrite <- !app_assoc. done.
      * rewrite Hin2, Hin3, Hin5, Hin. done.
      * simpl in *. by rewrite Hws5, Hws3, Hws2 in Hwr.
      * congruence.
      * congruence.
  - apply ret_done in Hprompt as [<- <-]. simpl in H.
    apply cell_write_done in H as (ws' & Hwr & ->). simpl.
    exists ([], KEEP). split_and!.
    + split; [by constructor | done].
    + by rewrite Htr2.
    + by rewrite Hin2.
    + by rewrite <- Hws2.
    + done.
    + done.
Qed.

Lemma _get_valve_info_spec old_row w name current w' :
  _get_valve_info old_row w = Done ((name, current), w') →
  1 ≤ old_row ∧
  name = value_at (worksheet w) old_row SNums.TWO ∧
  current = value_at (worksheet w) old_row SNums.EIGHT ∧
  (∀ r c, slot_at (worksheet w') r c = slot_at (worksheet w) r c) ∧
  (∀ W T : Z → Prop, W old_row ∨ T old_row → eff W T w w') ∧
  io_same w w'.
Proof.
  unfold _get_valve_info. intros H.
  apply bind_done in H as (v1 & w1 & H1 & H).
  apply bind_done in H as (v2 & w2 & H2 & H).
  apply ret_done in H as [[= -> ->] ->].
  apply cell_value_spec in H1 as (? & -> & Hs1 & He1 & Hio1).
  apply cell_value_spec in H2 as (_ & -> & Hs2 & He2 & Hio2).
  split_and!; try done.
  - unfold value_at. by rewrite Hs1.
  - intros r c. by rewrite Hs2.
  - intros W T HT. eapply eff_trans; [by apply He1 | by apply He2].
  - destruct Hio1, Hio2. split; congruence.
Qed.

(** One device: the previous row is read once, the dialogue runs, and one
    value goes to column 8 of the new row. *)
Lemma _process_valve_setting_update_spec old_row new_row w w' :
  _process_valve_setting_update old_row new_row w = Done (tt, w') →
  let name := value_at (worksheet w) old_row SNums.TWO in
  let current := value_at (worksheet w) old_row SNums.EIGHT in
  ∃ o,
    well_entered o ∧
    transcript w' = transcript w ++ device_dialogue name current o ∧
    stdin w = (device_dialogue name current o).*2 ++ stdin w' ∧
    value_at (worksheet w') new_row SNums.EIGHT
      = (if is_none (settled_value current o.2)
         then value_at (worksheet w) new_row SNums.EIGHT
         else settled_value current o.2) ∧
    (∀ r c, (r, c) ≠ (new_row, SNums.EIGHT) →
            slot_at (worksheet w') r c = slot_at (worksheet w) r c) ∧
    (∀ W T : Z → Prop, W new_row → W old_row ∨ T old_row → eff W T w w').
Proof.
  unfold _process_valve_setting_update. intros H.
  apply bind_done in H as ([name current] & w1 & Hinfo & H).
  apply _get_valve_info_spec in Hinfo as (_ & -> & -> & Hsl & He & [Hin Htr]).
  unfold with_fuel in H.
  apply _process_valve_setting_update_loop_spec in H
    as (o & Hwell & Htr2 & Hin2 & Hwr & Hc & Hu).
  apply ws_write_spec in Hwr as (_ & _ & Hval & _ & _ & Hsl2 & He2).
  exists o. split_and!; try congruence.
  - rewrite Hval. unfold value_at. by rewrite Hsl.
  - intros r c Hrc. by rewrite Hsl2, Hsl.
  - intros W T HW HT. eapply eff_trans; [by apply He |].
    split; [done | done | by apply He2].
Qed.

(** ** The dialogue as a state machine *)

Lemma machine_run_app on_reject st t1 t2 st1 :
  machine_run on_reject st t1 = Some st1 →
  machine_run on_reject st (t1 ++ t2) = machine_run on_reject st1 t2.
Proof.
  revert st. induction t1 as [|[p r] t1 IH]; intros st H; simpl in *.
  - by injection H as ->.
  - destruct (awaits st p); [|discriminate].
    destruct (transition on_reject st r) as [st'|]; [|discriminate]. simpl in *.
    by apply IH.
Qed.

Lemma code_machine_dialogue name current o :
  code_machine REVIEW (device_dialogue name current o) = Some (FINAL o.2).
Proof.
  destruct o as [rejected t]. unfold device_dialogue. simpl.
  induction rejected as [|entered rejected IH]; simpl.
  - by destruct t.
  - exact IH.
Qed.

(** In a run of the machine, the prompt after a rejected confirmation is
    the one that belongs to [on_reject]. *)
Lemma machine_run_after_reject on_reject st t1 p r t2 :
  is_Some (machine_run on_reject st (t1 ++ (AskApplyChange, RYesNo false) :: (p, r) :: t2)) →
  awaits on_reject p = true.
Proof.
  revert st. induction t1 as [|[p1 r1] t1 IH]; intros st H; simpl in H.
  - destruct st; simpl in H; try by destruct H.
    destruct (awaits on_reject p); [done | by destruct H].
  - destruct (awaits st p1); [|by destruct H].
    destruct (transition on_reject st r1) as [st'|]; [|by destruct H].
    simpl in H. by eapply IH.
Qed.

(** ** All the devices of a block *)

Lemma settled_at_ext ws0 ws ws' last s i o :
  value_at ws (s + i) SNums.EIGHT = value_at ws' (s + i) SNums.EIGHT →
  settled_at ws0 ws last s i o = settled_at ws0 ws' last s i o.
Proof. unfold settled_at. by intros ->. Qed.

Lemma Forall2_elem_of_l {A B} (P : A → B → Prop) l k :
  Forall2 P l k → Forall2 (λ x y, x ∈ l ∧ P x y) l k.
Proof.
  induction 1 as [|x y l k HP HF IH]; constructor.
  - split; [by left | done].
  - eapply Forall2_impl; [done |]. intros a b [? ?]. split; [by right | done].
Qed.

Lemma update_devices_aux w0 last s idxs :
  NoDup idxs →
  (∀ i, i ∈ idxs → last + i < s ≤ s + i) →
  ∀ w w',
    filling w0 (λ r, s ≤ r) SNums.EIGHT w →
    for_each idxs (λ i, _process_valve_setting_update (last + i) (s + i)) w
      = Done (tt, w') →
    ∃ outs,
      Forall2 (λ i o, well_entered o ∧
                 value_at (worksheet w') (s + i) SNums.EIGHT
                   = settled_at (worksheet w0) (worksheet w) last s i o) idxs outs ∧
      transcript w' = transcript w
                      ++ concat (zip_with (dialogue_at (worksheet w0) last) idxs outs) ∧
      filling w0 (λ r, s ≤ r) SNums.EIGHT w' ∧
      (∀ r c, ¬ (r - s ∈ idxs ∧ c = SNums.EIGHT) →
              slot_at (worksheet w') r c = slot_at (worksheet w) r c) ∧
      (∀ W T : Z → Prop,
         (∀ i, i ∈ idxs → W (s + i) ∧ (W (last + i) ∨ T (last + i))) → eff W T w w').
Proof.
  induction idxs as [|i idxs IH]; intros Hnd Hidx w w' Hw H; simpl in H.
  - apply ret_done in H as [_ <-]. exists []. split_and!; try done.
    + simpl. by rewrite app_nil_r.
    + intros. apply eff_refl.
  - apply NoDup_cons in Hnd as [Hnotin Hnd].
    apply bind_done in H as ([] & w1 & H1 & H).
    destruct (Hidx i) as [Hlt Hge]; [by left |].
    apply _process_valve_setting_update_spec in H1
      as (o & Hwell & Htr & _ & Hval & Hsl & He).
    destruct Hw as [Hcfg Hfill].
    assert (∀ c, slot_at (worksheet w) (last + i) c = slot_at (worksheet w0) (last + i) c)
      as Hold by (intros c; apply Hfill; intros [? _]; lia).
    assert (filling w0 (λ r, s ≤ r) SNums.EIGHT w1) as Hw1.
    { split.
      - rewrite <- Hcfg. apply (eff_config (λ _, True) (λ _, True)).
        apply He; [done | by left].
      - intros r c Hrc. rewrite Hsl; [by apply Hfill |].
        intros [= -> ->]. apply Hrc. split; [lia | done]. }
    destruct (IH Hnd) with (w := w1) (w' := w') as (outs & HF & Htr' & Hw' & Hfr & He');
      try done.
    { intros j Hj. apply Hidx. by right. }
    exists (o :: outs). split_and!.
    + constructor.
      * split; [done |]. unfold settled_at.
        unfold value_at at 1. rewrite Hfr.
        -- fold (value_at (worksheet w1) (s + i) SNums.EIGHT). rewrite Hval.
           unfold value_at at 1 3 5. by rewrite !Hold.
        -- intros [Hin _]. replace (s + i - s) with i in Hin by lia. done.
      * apply Forall2_elem_of_l in HF.
        eapply Forall2_impl; [done |]. intros j oj (Hjin & ? & Hj). split; [done |].
        rewrite Hj. apply settled_at_ext.
        unfold value_at. rewrite Hsl; [done |]. intros [= ?].
        assert (j = i) as -> by lia. done.
    + rewrite Htr', Htr. simpl. unfold dialogue_at at 2.
      unfold value_at at 1 2. rewrite !Hold. by rewrite <- app_assoc.
    + done.
    + intros r c Hrc. rewrite Hfr, Hsl; [done | |].
      * intros [= -> ->]. apply Hrc. split; [|done].
        replace (s + i - s) with i by lia. by left.
      * intros [? ?]. apply Hrc. split; [by right | done].
    + intros W T HWT. eapply eff_trans.
      * apply He; apply HWT; by left.
      * apply He'. intros j Hj. apply HWT. by right.
Qed.

Lemma _update_valve_setting_spec w w' n s last :
  config_data w !! CKeys.RADIATORS_OWNED = Some (VInt n) →
  config_data w !! CKeys.START_ROW = Some (VInt s) →
  config_data w !! CKeys.LAST_START_ROW = Some (VInt last) →
  last + n ≤ s →
  _update_valve_setting w = Done (tt, w') →
  ∃ line outs,
    Forall2 (λ i o, well_entered o ∧
               value_at (worksheet w') (s + i) SNums.EIGHT
                 = settled_at (worksheet w) (worksheet w) last s i o)
            (range 0 n) outs ∧
    transcript w' = transcript w
                    ++ (ShowInfo VALVE_SETTING_UPDATE, RLine line)
                       :: concat (zip_with (dialogue_at (worksheet w) last) (range 0 n) outs) ∧
    (∀ r c, ¬ (s ≤ r < s + n ∧ c = SNums.EIGHT) →
            slot_at (worksheet w') r c = slot_at (worksheet w) r c) ∧
    (∀ W T : Z → Prop,
       (∀ i, 0 ≤ i < n → W (s + i) ∧ (W (last + i) ∨ T (last + i))) → eff W T w w').
Proof.
  intros Hn Hs Hl Hlast H. unfold _update_valve_setting in H.
  apply bind_done in H as ([] & w1 & Hinfo & H).
  unfold display_user_info, input in Hinfo.
  apply bind_done in Hinfo as (line & w2 & Hask & Hret).
  apply ret_done in Hret as [_ ->].
  apply ask_spec in Hask as (r & Hacc & Hin & Htr & Hws & Hcfg & Hupd).
  destruct r as [line'| | |]; try discriminate. injection Hacc as ->.
  apply bind_done in H as ([n' s'] & w2 & Hblock & H).
  apply _get_usage_block_info_spec in Hblock as (-> & Hn' & Hs').
  apply bind_done in H as (last' & w2 & Hlast' & H).
  apply config_int_spec in Hlast' as (-> & Hl').
  rewrite Hcfg in *. simplify_eq.
  apply (update_devices_aux w1) in H as (outs & HF & Htr' & _ & Hfr & He).
  - exists line, outs. rewrite Hws in *. split_and!; try done.
    + by rewrite Htr', Htr, <- app_assoc.
    + intros r c Hrc. apply Hfr. intros [Hin' ->]. apply Hrc. split; [|done].
      apply elem_of_range in Hin'. lia.
    + intros W T HWT. eapply eff_trans.
      * apply talk_eff. split_and!; try done. by exists [RLine line].
      * apply He. intros i Hi%elem_of_range. apply HWT. lia.
  - apply NoDup_range.
  - intros i Hi%elem_of_range. lia.
  - done.
Qed.






Lemma awaits_review p : awaits REVIEW p = true → ∃ name current, p = AskChangeValve name current.
Proof. destruct p; try discriminate. eauto. Qed.

(** C8, as the code has it.  When [_process_valve_setting_update] returns,
    the dialogue it held is a run of the state machine in which a rejected
    confirmation leads back to [REVIEW]: whatever follows a rejected "Apply
    this change?" is the review question "Do you want to change it?" again,
    not the entry of a new value.  The run ends in [KEEP] or [APPLIED], and
    column 8 of the new row receives the previous value or the value
    entered last. *)
Theorem rejected_confirmation_returns_to_review (old_row new_row : Z) (w w' : world) :
  _process_valve_setting_update old_row new_row w = Done (tt, w') →
  ∃ dialogue final,
    transcript w' = transcript w ++ dialogue ∧
    code_machine REVIEW dialogue = Some (FINAL final) ∧
    (∀ before p r after,
       dialogue = before ++ (AskApplyChange, RYesNo false) :: (p, r) :: after →
       ∃ name current, p = AskChangeValve name current) ∧
    value_at (worksheet w') new_row 8
      = (let v := settled_value (value_at (worksheet w) old_row 8) final in
         if is_none v then value_at (worksheet w) new_row 8 else v).
Proof.
  intros H. apply _process_valve_setting_update_spec in H
    as (o & _ & Htr & _ & Hval & _).
  eexists _, o.2. split_and!; [done | apply code_machine_dialogue | | done].
  intros before p r after Hd. apply awaits_review.
  eapply (machine_run_after_reject REVIEW REVIEW before p r after).
  rewrite <- Hd. fold code_machine. by rewrite code_machine_dialogue.
Qed.

(** ** The first block *)

Lemma recap_reads_spec rows col w w' :
  for_each rows (λ row, _ ← cell_value row SNums.TWO; _ ← cell_value row col; mret tt) w
    = Done (tt, w') →
  (∀ r c, slot_at (worksheet w') r c = slot_at (worksheet w) r c) ∧
  (∀ W T : Z → Prop, (∀ row, row ∈ rows → W row ∨ T row) → eff W T w w') ∧
  io_same w w'.
Proof.
  pose (I := λ w1 : world,
          (∀ r c, slot_at (worksheet w1) r c = slot_at (worksheet w) r c) ∧
          (∀ W T : Z → Prop, (∀ row, row ∈ rows → W row ∨ T row) → eff W T w w1) ∧
          io_same w w1).
  intros H.
  apply (for_each_inv I (λ _ _, True)) in H as [_ HI]; try done.
  - intros row w1 w2 Hrow (Hsl & He & Hio) Hbody. split; [done |].
    apply bind_done in Hbody as (v1 & w3 & H1 & Hbody).
    apply bind_done in Hbody as (v2 & w4 & H2 & Hbody).
    apply ret_done in Hbody as [_ ->].
    apply cell_value_spec in H1 as (_ & _ & Hs1 & He1 & Hio1).
    apply cell_value_spec in H2 as (_ & _ & Hs2 & He2 & Hio2).
    split_and!.
    + intros r c. by rewrite Hs2, Hs1.
    + intros W T HT. eapply eff_trans; [by apply He |].
      eapply eff_trans; [apply He1; by apply HT | apply He2; by apply HT].
    + destruct Hio, Hio1, Hio2. split; congruence.
  - split_and!; [done | intros; apply eff_refl | done].
Qed.

(** The recap reads the column back, asks, and runs [method] on a yes. *)
Lemma _recap_and_edit_column_spec label col method w w' n s :
  config_data w !! CKeys.RADIATORS_OWNED = Some (VInt n) →
  config_data w !! CKeys.START_ROW = Some (VInt s) →
  _recap_and_edit_column label col method w = Done (tt, w') →
  ∃ w1,
    (∀ r c, slot_at (worksheet w1) r c = slot_at (worksheet w) r c) ∧
    (∀ W T : Z → Prop, (∀ row, s ≤ row < s + n → W row ∨ T row) → eff W T w w1) ∧
    (w' = w1 ∨ method w1 = Done (tt, w')).
Proof.
  intros Hn Hs H. unfold _recap_and_edit_column in H.
  apply bind_done in H as ([n' s'] & w1 & Hblock & H).
  apply _get_usage_block_info_spec in Hblock as (-> & Hn' & Hs'). simplify_eq.
  apply bind_done in H as ([] & w1 & Hreads & H).
  apply recap_reads_spec in Hreads as (Hsl & He & _).
  apply bind_done in H as (ans & w2 & Hans & H).
  apply inputYesNo_spec in Hans as (b & -> & Hin & Htr & Hws & Hc & Hu).
  exists w2. split_and!.
  - intros r c. by rewrite Hws.
  - intros W T HT. eapply eff_trans.
    + apply He. intros row Hrow%elem_of_range. by apply HT.
    + apply talk_eff. split_and!; try done. by eexists [_].
  - rewrite yes_no_agree in H. destruct b; [by right | left].
    by apply ret_done in H as [_ <-].
Qed.

Lemma _enter_initial_valve_settings_rec_spec fuel w w' n s :
  config_data w !! CKeys.RADIATORS_OWNED = Some (VInt n) →
  config_data w !! CKeys.START_ROW = Some (VInt s) →
  _enter_initial_valve_settings_rec fuel w = Done (tt, w') →
  (∀ row, s ≤ row < s + n →
          ∃ entered, entered ≠ EmptyString ∧
                     value_at (worksheet w') row SNums.EIGHT = VStr entered) ∧
  (∀ r c, ¬ (s ≤ r < s + n ∧ c = SNums.EIGHT) →
          slot_at (worksheet w') r c = slot_at (worksheet w) r c) ∧
  (∀ W T : Z → Prop, (∀ row, s ≤ row < s + n → W row) → eff W T w w').
Proof.
  revert w. induction fuel as [|fuel IH]; intros w Hn Hs H; simpl in H; [discriminate |].
  apply bind_done in H as ([] & w1 & Hinfo & H).
  apply display_user_info_talk in Hinfo as Htalk.
  destruct Htalk as (Hws1 & Hc1 & Hu1 & _).
  apply bind_done in H as ([n' s'] & w2 & Hblock & H).
  apply _get_usage_block_info_spec in Hblock as (-> & Hn' & Hs').
  rewrite Hc1 in Hn', Hs'. simplify_eq.
  apply bind_done in H as ([] & w2 & Hfill & H).
  apply (_fill_col_spec (λ _ v, ∃ entered, v = VStr entered ∧ entered ≠ EmptyString)
           (λ r, s ≤ r < s + n) (λ _, False)) in Hfill as (He2 & Hrows & Hfr2).
  2: apply NoDup_range.
  2: { intros row Hrow%elem_of_range. done. }
  2: { intros row w3 v w4 Hrow%elem_of_range _ Hv.
       apply bind_done in Hv as (name & w5 & Hname & Hv).
       apply bind_done in Hv as (entered & w6 & Hstr & Hv).
       apply ret_done in Hv as [<- ->].
       apply cell_value_spec in Hname as (_ & _ & Hsl & He & _).
       apply inputStr_spec in Hstr as (Hne & _ & _ & Hws & Hc & Hu).
       split_and!.
       - intros r c. by rewrite Hws.
       - eapply eff_trans; [apply He; by left |].
         split; [done | done |]. rewrite Hws. apply ws_eff_refl.
       - by exists entered.
       - done. }
  assert (config_data w2 = config_data w) as Hc2.
  { rewrite (eff_config _ _ _ _ He2). done. }
  apply (_recap_and_edit_column_spec _ _ _ _ _ n s) in H as (w3 & Hsl3 & He3 & Hend);
    [| by rewrite Hc2 | by rewrite Hc2].
  assert (eff (λ r, s ≤ r < s + n) (λ _, False) w w3) as He03.
  { eapply eff_trans; [apply talk_eff; by apply display_user_info_talk in Hinfo |].
    eapply eff_trans; [done |]. apply He3. intros; by left. }
  assert (∀ r c, ¬ (s ≤ r < s + n ∧ c = SNums.EIGHT) →
                 slot_at (worksheet w3) r c = slot_at (worksheet w) r c) as Hfr3.
  { intros r c Hrc. rewrite Hsl3, Hfr2, Hws1; [done |].
    intros [Hin ->]. apply Hrc. by apply elem_of_range in Hin. }
  destruct Hend as [->|Hrec].
  - split_and!; [| done |].
    + intros row Hrow. destruct (Hrows row) as (v & (entered & -> & Hne) & Hval).
      { by apply elem_of_range. }
      exists entered. split; [done |]. unfold value_at. by rewrite Hsl3.
    + intros W T HW. eapply eff_mono; [| |exact He03]; [done | by intros ? []].
  - apply IH in Hrec as (Hrows' & Hfr' & He');
      [| by rewrite (eff_config _ _ _ _ He03) | by rewrite (eff_config _ _ _ _ He03)].
    split_and!; [done | |].
    + intros r c Hrc. by rewrite Hfr', Hfr3.
    + intros W T HW. eapply eff_trans; [|by apply He'].
      eapply eff_mono; [| |exact He03]; [done | by intros ? []].
Qed.

Lemma ws_set_comment_spec ws row column note ws' :
  ws_set_comment ws row column note = Ok ws' →
  (∀ r c, value_at ws' r c = value_at ws r c) ∧
  (∀ r c, (r, c) ≠ (row, column) → slot_at ws' r c = slot_at ws r c) ∧
  comment_at ws' row column = Some note ∧
  (∀ W T : Z → Prop, W row → ws_eff W T ws ws') ∧
  merged_cells ws' = merged_cells ws.
Proof.
  unfold ws_set_comment. destruct ((row <? 1) || (column <? 1)); [discriminate |].
  destruct (_get_cell ws row column) as [sl ws1] eqn:Hc.
  pose proof (_get_cell_merged _ _ _ _ _ Hc) as Hm.
  apply _get_cell_spec in Hc as (-> & Hs & Hslot & He).
  destruct (slot_at ws row column) as [c0|] eqn:Hs0; [|discriminate].
  intros [= <-]. split_and!; [| | | | done].
  - intros r c. unfold value_at. rewrite slot_at_put_slot. case_decide as Hk.
    + injection Hk as <- <-. by rewrite Hs0.
    + by rewrite Hslot.
  - intros r c Hrc. by rewrite slot_at_put_slot, decide_False, Hslot.
  - unfold comment_at. by rewrite slot_at_put_slot, decide_True.
  - intros W T HW. eapply ws_eff_trans; [apply He; by left |].
    apply put_slot_eff. by left.
Qed.

Lemma _add_valve_setting_note_spec w w' :
  _add_valve_setting_note w = Done (tt, w') →
  (∀ r c, value_at (worksheet w') r c = value_at (worksheet w) r c) ∧
  (∀ r c, (r, c) ≠ (1, 8) → slot_at (worksheet w') r c = slot_at (worksheet w) r c) ∧
  (∀ W T : Z → Prop, W 1 → eff W T w w') ∧
  merged_cells (worksheet w') = merged_cells (worksheet w) ∧
  io_same w w'.
Proof.
  unfold _add_valve_setting_note. intros H. inv_run H. simpl.
  apply ws_set_comment_spec in H as (Hv & Hsl & _ & He & Hm).
  split_and!; try done. intros W T HW. split; simpl; auto.
Qed.

Lemma with_fuel_done {A} (loop : nat → M A) w r :
  with_fuel loop w = Done r → ∃ fuel, loop fuel w = Done r.
Proof. unfold with_fuel. eauto. Qed.



(** * The block finalizer *)

Lemma elem_of_range_coords cr r c :
  (r, c) ∈ range_coords cr ↔
  min_row cr ≤ r ≤ max_row_ cr ∧ min_col cr ≤ c ≤ max_col cr.
Proof.
  unfold range_coords. rewrite list_elem_of_bind. split.
  - intros (r' & Hc & Hr). apply list_elem_of_bind in Hc as (c' & Hrc & Hc).
    apply list_elem_of_singleton in Hrc as [= -> ->].
    apply elem_of_seqZ in Hr, Hc. lia.
  - intros [Hr Hc]. exists r. split; [|apply elem_of_seqZ; lia].
    apply list_elem_of_bind. exists c. split; [by left | apply elem_of_seqZ; lia].
Qed.

Lemma NoDup_range_coords cr : NoDup (range_coords cr).
Proof.
  unfold range_coords. apply NoDup_bind; [| |apply NoDup_seqZ].
  - intros r1 r2 [r c] _ _ H1 H2.
    apply list_elem_of_bind in H1 as (c1 & [= -> ->]%list_elem_of_singleton & _).
    by apply list_elem_of_bind in H2 as (c2 & [= -> ->]%list_elem_of_singleton & _).
  - intros r _. apply NoDup_bind; [| |apply NoDup_seqZ].
    + intros c1 c2 [r' c] _ _ [= -> ->]%list_elem_of_singleton
                             [= ->]%list_elem_of_singleton. done.
    + intros c _. apply NoDup_singleton.
Qed.

Lemma range_coords_head cr :
  min_row cr ≤ max_row_ cr → min_col cr ≤ max_col cr →
  ∃ rest, range_coords cr = (min_row cr, min_col cr) :: rest.
Proof.
  intros Hr Hc. unfold range_coords.
  rewrite (seqZ_cons (min_row cr)) by lia. rewrite bind_cons.
  rewrite (seqZ_cons (min_col cr)) by lia. rewrite bind_cons. simpl. eauto.
Qed.

Lemma elem_of_tail_range_coords cr k :
  min_row cr ≤ max_row_ cr → min_col cr ≤ max_col cr →
  k ∈ tail (range_coords cr) ↔ k ∈ range_coords cr ∧ k ≠ (min_row cr, min_col cr).
Proof.
  intros Hr Hc. pose proof (NoDup_range_coords cr) as Hnd.
  destruct (range_coords_head cr Hr Hc) as [rest Hrest]. rewrite Hrest in *. simpl.
  apply NoDup_cons in Hnd as [Hnotin _]. rewrite elem_of_cons. split.
  - intros Hk. split; [by right |]. by intros ->.
  - by intros [[->|?] ?].
Qed.

Lemma lookup_foldr_merged (m : gmap (Z * Z) slot) l k :
  foldr (λ k m, <[k := MergedCell]> m) m l !! k
  = if decide (k ∈ l) then Some MergedCell else m !! k.
Proof.
  induction l as [|k' l IH]; cbn [foldr].
  - destruct (decide (k ∈ [])) as [Hin|]; [by apply elem_of_nil in Hin | done].
  - destruct (decide (k' = k)) as [->|Hne].
    + rewrite lookup_insert_eq.
      destruct (decide (k ∈ k :: l)) as [|Hn]; [done |]. exfalso. apply Hn. by left.
    + rewrite lookup_insert_ne, IH by done.
      destruct (decide (k ∈ l)) as [Hin|Hnin], (decide (k ∈ k' :: l)) as [Hin'|Hnin'];
        try done.
      * exfalso. apply Hnin'. by right.
      * by apply elem_of_cons in Hin' as [->|?].
Qed.

Lemma ws_merge_cells_spec ws sr sc er ec ws' :
  ws_merge_cells ws sr sc er ec = Ok ws' →
  let cr := mkCellRange sr sc er ec in
  1 ≤ sr ≤ er ∧ 1 ≤ sc ≤ ec ∧
  merged_cells ws' = merged_add (merged_cells ws) cr ∧
  slot_at ws' sr sc = slot_at ws sr sc ∧
  (∀ r c, sr ≤ r ≤ er → sc ≤ c ≤ ec → (r, c) ≠ (sr, sc) → slot_at ws' r c = MergedCell) ∧
  (∀ r c, ¬ (sr ≤ r ≤ er ∧ sc ≤ c ≤ ec) → slot_at ws' r c = slot_at ws r c) ∧
  (∀ k, is_Some (_cells ws !! k) → is_Some (_cells ws' !! k)) ∧
  (∀ r c, is_Some (_cells ws' !! (r, c)) → is_Some (_cells ws !! (r, c)) ∨ sr ≤ r ≤ er).
Proof.
  unfold ws_merge_cells.
  destruct ((sr <? 1) || (sc <? 1) || (er <? sr) || (ec <? sc)) eqn:Hg; [discriminate |].
  repeat (apply orb_false_iff in Hg as [Hg ?]).
  apply Z.ltb_ge in Hg. repeat match goal with H : (_ <? _) = false |- _ =>
                                  apply Z.ltb_ge in H end.
  destruct (_get_cell ws sr sc) as [sl ws1] eqn:Hc.
  pose proof (_get_cell_merged _ _ _ _ _ Hc) as Hm.
  apply _get_cell_spec in Hc as (-> & Hs & Hslot & He).
  specialize (He (λ r, r = sr) (λ _, False) (or_introl eq_refl)).
  intros [= <-]. set (cr := mkCellRange sr sc er ec).
  assert (∀ r c, slot_at
            (mkWorksheet (foldr (λ k m, <[k := MergedCell]> m) (_cells ws1)
                                (tail (range_coords cr)))
               (merged_add (merged_cells ws1) cr) (title ws1) (freeze_panes ws1)
               (column_width ws1)) r c
          = if decide ((r, c) ∈ tail (range_coords cr)) then MergedCell else slot_at ws r c)
    as Hlook.
  { intros r c. unfold slot_at at 1. simpl. rewrite lookup_foldr_merged.
    case_decide; [done |]. apply Hslot. }
  assert (∀ r c, (r, c) ∈ tail (range_coords cr) ↔
                 (sr ≤ r ≤ er ∧ sc ≤ c ≤ ec) ∧ (r, c) ≠ (sr, sc)) as Htail.
  { intros r c. rewrite elem_of_tail_range_coords by (simpl; lia).
    by rewrite elem_of_range_coords. }
  split_and!; try lia.
  - simpl. by rewrite Hm.
  - rewrite Hlook, decide_False; [done |]. rewrite Htail. tauto.
  - intros r c Hr Hcc Hne. rewrite Hlook, decide_True; [done |]. by apply Htail.
  - intros r c Hout. rewrite Hlook, decide_False; [done |]. rewrite Htail. tauto.
  - intros k Hk. simpl. rewrite lookup_foldr_merged. case_decide; [done |].
    by apply (eff_dom _ _ _ _ He).
  - intros r c. simpl. rewrite lookup_foldr_merged. case_decide as Hin.
    + intros _. right. apply Htail in Hin. lia.
    + intros H'. destruct (eff_new _ _ _ _ He r c H') as [?|[->|[]]]; [by left | right; lia].
Qed.

Lemma ws_set_alignment_spec ws row column a :
  let ws' := ws_set_alignment ws row column a in
  (∀ r c, value_at ws' r c = value_at ws r c) ∧
  (∀ r c, (r, c) ≠ (row, column) → slot_at ws' r c = slot_at ws r c) ∧
  (slot_at ws row column = MergedCell → slot_at ws' row column = MergedCell) ∧
  merged_cells ws' = merged_cells ws ∧
  (∀ W T : Z → Prop, W row → ws_eff W T ws ws').
Proof.
  unfold ws_set_alignment. destruct (_cells ws !! (row, column)) as [[c0|]|] eqn:E; simpl.
  2,3: split_and!; try done; intros; apply ws_eff_refl.
  split_and!.
  - intros r c. unfold value_at. rewrite slot_at_put_slot. case_decide as Hk; [|done].
    injection Hk as <- <-. unfold slot_at. by rewrite E.
  - intros r c Hrc. by rewrite slot_at_put_slot, decide_False.
  - unfold slot_at at 1. by rewrite E.
  - done.
  - intros W T HW. apply put_slot_eff. by left.
Qed.

Lemma _merge_valve_cells_spec w w' n s :
  config_data w !! CKeys.RADIATORS_OWNED = Some (VInt n) →
  config_data w !! CKeys.START_ROW = Some (VInt s) →
  _merge_valve_cells w = Done (tt, w') →
  1 ≤ n ∧ 1 ≤ s ∧
  merged_cells (worksheet w') = merged_add (merged_cells (worksheet w)) (notes_region s n) ∧
  slot_at (worksheet w') s SNums.NINE = slot_at (worksheet w) s SNums.NINE ∧
  (∀ r, s < r ≤ s + n - 1 → slot_at (worksheet w') r SNums.NINE = MergedCell) ∧
  (∀ r c, ¬ (s ≤ r ≤ s + n - 1 ∧ c = SNums.NINE) →
          slot_at (worksheet w') r c = slot_at (worksheet w) r c) ∧
  (∀ W T : Z → Prop, (∀ r, s ≤ r ≤ s + n - 1 → W r) → eff W T w w') ∧
  io_same w w'.
Proof.
  intros Hn Hs H. unfold _merge_valve_cells in H.
  apply bind_done in H as ([n' s'] & w1 & Hblock & H).
  apply _get_usage_block_info_spec in Hblock as (-> & Hn' & Hs'). simplify_eq.
  inv_run H. simpl.
  apply ws_merge_cells_spec in H as (Hr & _ & Hm & Htop & Hmerged & Hout & Hdom & Hnew).
  unfold SNums.ONE, SNums.NINE in *.
  split_and!; try done; try lia.
  - intros r Hrr. apply Hmerged; [lia | lia |]. intros [= ->]. lia.
  - intros r c Hrc. apply Hout. intros [? ?]. apply Hrc. split; [done | lia].
  - intros W T HW. split; [done | done |]. simpl. split.
    + intros r c Hr'. apply Hout. intros [? ?]. apply Hr'. by apply HW.
    + done.
    + intros r c H'. destruct (Hnew r c H') as [?|?]; [by left |]. right. left. by apply HW.
    + rewrite Hm. unfold merged_add. destruct (existsb _ _).
      * exists []. by rewrite app_nil_r.
      * eexists [_]. split; [done |]. constructor; [|done]. simpl. apply HW. lia.
Qed.

Lemma _insert_note_spec note w w' s :
  config_data w !! CKeys.START_ROW = Some (VInt s) →
  _insert_note note w = Done (tt, w') →
  value_at (worksheet w') s SNums.NINE = VStr note ∧
  (∀ r c, (r, c) ≠ (s, SNums.NINE) →
          slot_at (worksheet w') r c = slot_at (worksheet w) r c) ∧
  merged_cells (worksheet w') = merged_cells (worksheet w) ∧
  (∀ W T : Z → Prop, W s → eff W T w w') ∧
  io_same w w'.
Proof.
  intros Hs H. unfold _insert_note in H.
  apply bind_done in H as (row & w1 & Hrow & H).
  apply config_int_spec in Hrow as (-> & Hs'). simplify_eq.
  apply bind_done in H as ([] & w1 & Hwr & H).
  inv_run H. simpl.
  pose proof (cell_write_done _ _ _ _ _ Hwr) as (ws1 & Hws1 & ->).
  apply cell_write_spec in Hwr as (_ & Hval & _ & _ & Hsl & He & Hio). simpl in *.
  destruct (ws_set_alignment_spec ws1 s SNums.NINE
              (mkAlignment true UsMeta.NOTE_VERTICAL_ALIGNMENT
                           UsMeta.NOTE_HORIZONTAL_ALIGNMENT))
    as (Hv & Hsl2 & _ & Hm2 & He2).
  split_and!.
  - by rewrite Hv, Hval.
  - intros r c Hrc. by rewrite Hsl2, Hsl.
  - rewrite Hm2. unfold ws_write in Hws1.
    destruct ((s <? 1) || (SNums.NINE <? 1)); [discriminate |].
    destruct (_get_cell (worksheet w) s SNums.NINE) as [sl ws2] eqn:Hc.
    apply _get_cell_merged in Hc. simpl in Hws1.
    destruct sl; [|discriminate]. by injection Hws1 as <-.
  - intros W T HW. eapply eff_trans; [by apply He |].
    split; [done | done |]. by apply He2.
  - done.
Qed.

Lemma merged_add_fresh l cr :
  Forall (λ cr', max_row_ cr' < max_row_ cr) l → merged_add l cr = l ++ [cr].
Proof.
  intros HF. unfold merged_add.
  assert (existsb (range_within cr) l = false) as ->; [|done].
  induction HF as [|cr' l Hlt HF IH]; simpl; [done |]. rewrite IH, orb_false_r.
  unfold range_within. apply andb_false_iff. left. apply andb_false_iff. left.
  apply andb_false_iff. right. apply Z.leb_gt. lia.
Qed.

(** C9.  Let the merged regions that exist end before the new block.  When
    [_get_notes] returns, the block has at least one device row; the note,
    which is the text the user entered after answering yes to the one
    question asked, or the default text after a no, stands in the notes
    column (9) of the block's first row, [start_row]; every other device
    row of the block holds a merged placeholder without a value there; the
    region that was merged is recorded as exactly the device rows,
    [start_row] to [start_row + radiators_owned - 1], of column 9; and no
    other coordinate changes. *)
Theorem note_stored_once_over_merged_device_rows (w w' : world) (n s : Z) :
  config_data w !! CKeys.RADIATORS_OWNED = Some (VInt n) →
  config_data w !! CKeys.START_ROW = Some (VInt s) →
  Forall (λ cr, max_row_ cr < s) (merged_cells (worksheet w)) →
  _get_notes w = Done (tt, w') →
  1 ≤ n ∧
  (∃ note,
     value_at (worksheet w') s 9 = VStr note ∧
     ((∃ rest, stdin w = RYesNo false :: rest ∧ note = "No additional notes."%string) ∨
      (∃ rest, stdin w = RYesNo true :: RStr note :: rest ∧ note ≠ EmptyString))) ∧
  (∀ r, s < r ≤ s + n - 1 →
        slot_at (worksheet w') r 9 = MergedCell ∧ value_at (worksheet w') r 9 = VNone) ∧
  merged_cells (worksheet w')
    = merged_cells (worksheet w) ++ [mkCellRange s 9 (s + n - 1) 9] ∧
  (∀ r c, ¬ (s ≤ r ≤ s + n - 1 ∧ c = 9) →
          slot_at (worksheet w') r c = slot_at (worksheet w) r c).
Proof.
  intros Hn Hs Hfresh H. unfold _get_notes in H.
  apply bind_done in H as (ans & w1 & Hans & H).
  apply inputYesNo_spec in Hans as (b & -> & Hin1 & _ & Hws1 & Hc1 & _).
  rewrite yes_no_agree in H.
  apply bind_done in H as (note & w2 & Hnote & H).
  assert (worksheet w2 = worksheet w ∧ config_data w2 = config_data w ∧
          ((∃ rest, stdin w = RYesNo false :: rest ∧ note = "No additional notes."%string) ∨
           (∃ rest, stdin w = RYesNo true :: RStr note :: rest ∧ note ≠ EmptyString)))
    as (Hws2 & Hc2 & Hwhich).
  { destruct b.
    - apply inputStr_spec in Hnote as (Hne & Hin2 & _ & Hws2 & Hc2 & _).
      split_and!; [congruence | congruence |]. right. exists (stdin w2).
      by rewrite Hin1, Hin2.
    - apply ret_done in Hnote as [<- <-]. split_and!; [done | done |]. left. eauto. }
  apply bind_done in H as ([] & w3 & Hmerge & H).
  apply (_merge_valve_cells_spec _ _ n s) in Hmerge
    as (Hn1 & _ & Hm & _ & Hmerged & Hout & He & _); [| by rewrite Hc2 | by rewrite Hc2].
  apply (_insert_note_spec _ _ _ s) in H as (Hval & Hsl & Hm' & _);
    [| by rewrite (eff_config _ _ _ _ (He (λ _, True) (λ _, True) (λ _ _, I))), Hc2].
  split_and!.
  - done.
  - exists note. by split.
  - intros r Hr.
    assert (slot_at (worksheet w') r 9 = MergedCell) as Hslot.
    { rewrite Hsl by (intros [= ->]; lia). by apply Hmerged. }
    split; [done |]. unfold value_at. by rewrite Hslot.
  - rewrite Hm', Hm, Hws2. unfold notes_region, SNums.NINE, SNums.ONE.
    apply merged_add_fresh. simpl. eapply Forall_impl; [done |]. simpl. intros; lia.
  - intros r c Hrc. rewrite Hsl, Hout, Hws2; [done | done |].
    intros [= -> ->]. apply Hrc. split; [lia | done].
Qed.

(** * The footprint of each step of [_populate_usage host] *)

Lemma eff_max_row_mono W T w w' :
  eff W T w w' → max_row (worksheet w) ≤ max_row (worksheet w').
Proof. intros [_ _ E]. by eapply ws_eff_max_row_mono. Qed.

Lemma eff_max_row_le W T w w' hi :
  eff W T w w' → (∀ r, W r ∨ T r → r ≤ hi) →
  max_row (worksheet w') ≤ Z.max (max_row (worksheet w)) hi.
Proof. intros [_ _ E]. by eapply ws_eff_max_row_le. Qed.

Lemma write_row_eff (W T : Z → Prop) empty_row (cols : list (Z * pyval)) w w' :
  W empty_row →
  for_each cols (λ '(col_offset, value), cell_write empty_row col_offset value) w
    = Done (tt, w') →
  eff W T w w'.
Proof.
  intros HW H.
  apply (for_each_inv (λ _, True) (eff W T)) in H as [He _]; try done.
  - apply eff_refl.
  - apply eff_trans.
  - intros [c v] w1 w2 _ _ Hwr. split; [|done].
    apply cell_write_spec in Hwr as (_ & _ & _ & _ & _ & He & _). by apply He.
Qed.

Lemma fill_registry_rows_eff (rows : list (list pyval)) w w' :
  for_each rows (λ row,
    ws ← get_worksheet;
    let empty_row := max_row ws + SNums.ONE in
    for_each (zip (seqZ SNums.TWO (Z.of_nat (length row))) row) (λ '(col_offset, value),
      cell_write empty_row col_offset value)) w = Done (tt, w') →
  max_row (worksheet w') ≤ max_row (worksheet w) + Z.of_nat (length rows) ∧
  ∀ W T : Z → Prop,
    (∀ r, max_row (worksheet w) < r ≤ max_row (worksheet w) + Z.of_nat (length rows) → W r) →
    eff W T w w'.
Proof.
  revert w. induction rows as [|row rows IH]; intros w H; simpl in H.
  - apply ret_done in H as [_ <-]. split; [simpl; lia | intros; apply eff_refl].
  - apply bind_done in H as ([] & w1 & Hrow & H).
    apply bind_done in Hrow as (ws & w0 & Hget & Hrow). inv_run Hget.
    unfold SNums.ONE in Hrow.
    pose proof (write_row_eff (λ r, r = max_row (worksheet w0) + 1) (λ _, False)
                  _ _ _ _ eq_refl Hrow) as He1.
    pose proof (eff_max_row_mono _ _ _ _ He1) as Hmono.
    pose proof (eff_max_row_le _ _ _ _ (max_row (worksheet w0) + 1) He1) as Hle.
    destruct (IH _ H) as [Hle2 He2].
    assert (max_row (worksheet w1) ≤ max_row (worksheet w0) + 1) as Hle1.
    { etrans; [apply Hle; intros r [->|[]]; lia | lia]. }
    split.
    + rewrite length_cons. lia.
    + intros W T HW. rewrite length_cons in HW. eapply eff_trans.
      * eapply eff_mono; [| |exact He1]; [|by intros ? []]. intros r ->. apply HW. lia.
      * apply He2. intros r Hr. apply HW. lia.
Qed.

Lemma _fill_registry_data_eff w w' :
  _fill_registry_data host w = Done (tt, w') →
  max_row (worksheet w') ≤ max_row (worksheet w) + Z.of_nat (length (registry_rows host)) ∧
  ∀ W T : Z → Prop,
    (∀ r, max_row (worksheet w) < r
          ≤ max_row (worksheet w) + Z.of_nat (length (registry_rows host)) → W r) →
    eff W T w w'.
Proof.
  unfold _fill_registry_data, _get_registry_worksheet. intros H.
  apply bind_done in H as (rows & w1 & Hrows & H).
  apply bind_done in Hrows as (v & w2 & Hkey & Hret).
  apply config_getitem_spec in Hkey as [-> _]. apply ret_done in Hret as [<- <-].
  by apply fill_registry_rows_eff.
Qed.

Lemma blank_line_spec w w' :
  (ws ← get_worksheet;
   let empty_row := max_row ws + SNums.ONE in
   cell_write empty_row SNums.ONE (VStr SCons.EMPTY_STR)) w = Done (tt, w') →
  max_row (worksheet w') = max_row (worksheet w) + 1 ∧
  value_at (worksheet w') (max_row (worksheet w') ) 1 = VStr EmptyString ∧
  ∀ W T : Z → Prop, W (max_row (worksheet w) + 1) → eff W T w w'.
Proof.
  intros H. apply bind_done in H as (ws & w0 & Hget & H). inv_run Hget.
  unfold SNums.ONE in H.
  apply cell_write_spec in H as (_ & Hval & _ & Hsome & _ & He & _). simpl in Hval.
  assert (max_row (worksheet w') = max_row (worksheet w0) + 1) as Hmax.
  { apply Z.le_antisymm.
    - etrans; [apply (eff_max_row_le (λ r, r = max_row (worksheet w0) + 1) (λ _, False));
               [by apply He | intros r [->|[]]; reflexivity] | lia].
    - by eapply max_row_ge. }
  split_and!; [done | by rewrite Hmax | done].
Qed.

Lemma _add_blank_lines_spec w w' :
  _add_blank_lines w = Done (tt, w') →
  max_row (worksheet w') = max_row (worksheet w) + 3 ∧
  value_at (worksheet w') (max_row (worksheet w')) 1 = VStr EmptyString ∧
  ∀ W T : Z → Prop,
    (∀ r, max_row (worksheet w) < r ≤ max_row (worksheet w) + 3 → W r) → eff W T w w'.
Proof.
  unfold _add_blank_lines. change (range 0 SNums.THREE) with [0; 1; 2]. simpl. intros H.
  apply bind_done in H as ([] & w1 & H1 & H). apply blank_line_spec in H1 as (M1 & _ & E1).
  apply bind_done in H as ([] & w2 & H2 & H). apply blank_line_spec in H2 as (M2 & _ & E2).
  apply bind_done in H as ([] & w3 & H3 & H). apply blank_line_spec in H3 as (M3 & V3 & E3).
  apply ret_done in H as [_ <-].
  split_and!; [lia | done |].
  intros W T HW. eapply eff_trans; [apply E1, HW; lia |].
  eapply eff_trans; [apply E2, HW; lia | apply E3, HW; lia].
Qed.

Lemma _fill_dates_eff w w' n s :
  config_data w !! CKeys.RADIATORS_OWNED = Some (VInt n) →
  config_data w !! CKeys.START_ROW = Some (VInt s) →
  _fill_dates host w = Done (tt, w') →
  (0 ≤ n → is_Some (_cells (worksheet w') !! (s + n, 1))) ∧
  ∀ W T : Z → Prop, (∀ r, s ≤ r ≤ s + n → W r) → eff W T w w'.
Proof.
  intros Hn Hs H. unfold _fill_dates in H.
  apply bind_done in H as (mode & w1 & H1 & H).
  apply config_getitem_spec in H1 as [-> Hmode].
  apply bind_done in H as (d & w1 & Hd & H).
  assert (talk w w1) as Htalk.
  { destruct (py_eq_str mode SCons.DATE_AUTO).
    - apply _format_date_spec in Hd as [-> _]. apply talk_refl.
    - by apply _get_date_manually_loop_spec in Hd as [? _]. }
  apply bind_done in H as ([n' s'] & w2 & Hinfo & H).
  apply _get_usage_block_info_spec in Hinfo as (-> & Hn' & Hs').
  destruct Htalk as (Hws & Hcfg & Hupd & Hans).
  rewrite Hcfg in Hn', Hs'. simplify_eq.
  assert (∀ W T : Z → Prop, (∀ r, s ≤ r ≤ s + n → W r) →
            eff W T w1 w' ∧
            (∀ row, row ∈ range s (n + s + SNums.ONE) →
               ∃ v, v = VStr d ∧ value_at (worksheet w') row SNums.ONE = v)) as Hall.
  { intros W T HW.
    apply (_fill_col_spec (λ _ v, v = VStr d) W T) in H as (He & Hrows & _);
      [done | apply NoDup_range | |].
    - intros row Hrow%elem_of_range. apply HW. unfold SNums.ONE in Hrow. lia.
    - intros row w3 v w4 _ _ Hv. apply ret_done in Hv as [<- <-].
      split_and!; try done. apply eff_refl. }
  split.
  - intros Hn0. destruct (Hall (λ _, True) (λ _, True)) as [_ Hrows]; [done |].
    destruct (Hrows (s + n)) as (v & -> & Hval).
    { apply elem_of_range. unfold SNums.ONE. lia. }
    unfold value_at, slot_at, SNums.ONE in Hval.
    destruct (_cells (worksheet w') !! (s + n, 1)); [done | discriminate].
  - intros W T HW. eapply eff_trans; [apply talk_eff; by split_and! |].
    by apply Hall.
Qed.

Lemma _get_raw_readings_rec_eff fuel w w' n s :
  config_data w !! CKeys.RADIATORS_OWNED = Some (VInt n) →
  config_data w !! CKeys.START_ROW = Some (VInt s) →
  _get_raw_readings_rec fuel w = Done (tt, w') →
  ∀ W T : Z → Prop, (∀ row, s ≤ row < s + n → W row) → eff W T w w'.
Proof.
  revert w. induction fuel as [|fuel IH]; intros w Hn Hs H; simpl in H; [discriminate |].
  apply bind_done in H as ([n' s'] & w2 & Hblock & H).
  apply _get_usage_block_info_spec in Hblock as (-> & Hn' & Hs'). simplify_eq.
  apply bind_done in H as ([] & w2 & Hfill & H).
  intros W T HW.
  apply (_fill_col_spec (λ _ _, True) W T) in Hfill as (He2 & _ & _).
  2: apply NoDup_range.
  2: { intros row Hrow%elem_of_range. by apply HW. }
  2: { intros row w3 v w4 Hrow%elem_of_range _ Hv.
       apply bind_done in Hv as (name & w5 & Hname & Hv).
       apply bind_done in Hv as (z & w6 & Hint & Hv).
       apply ret_done in Hv as [<- ->].
       apply cell_value_spec in Hname as (_ & _ & Hsl & He & _).
       unfold inputInt in Hint. apply ask_spec in Hint as (r & _ & _ & _ & Hws & Hc & Hu).
       split_and!; try done.
       - intros r' c. by rewrite Hws.
       - eapply eff_trans; [apply He; left; by apply HW |].
         split; [done | done |]. rewrite Hws. apply ws_eff_refl. }
  pose proof (eff_config _ _ _ _ He2) as Hc2.
  apply (_recap_and_edit_column_spec _ _ _ _ _ n s) in H as (w3 & _ & He3 & Hend);
    [| by rewrite Hc2 | by rewrite Hc2].
  assert (eff W T w w3) as He03.
  { eapply eff_trans; [done |]. apply He3. intros row Hrow. left. by apply HW. }
  destruct Hend as [->|Hrec]; [done |].
  eapply eff_trans; [done |].
  eapply IH; [| | done | done]; by rewrite (eff_config _ _ _ _ He03).
Qed.

Lemma _get_actual_values_eff w w' n s :
  config_data w !! CKeys.RADIATORS_OWNED = Some (VInt n) →
  config_data w !! CKeys.START_ROW = Some (VInt s) →
  _get_actual_values w = Done (tt, w') →
  ∀ W T : Z → Prop, (∀ row, s ≤ row < s + n → W row) → eff W T w w'.
Proof.
  intros Hn Hs H W T HW. move H at bottom. unfold _get_actual_values in H.
  apply bind_done in H as ([n' s'] & w1 & Hinfo & H).
  apply _get_usage_block_info_spec in Hinfo as (-> & Hn' & Hs'). simplify_eq.
  apply (_fill_col_spec (λ _ _, True) W T) in H as (He & _ & _); [done | apply NoDup_range | |].
  - intros row Hrow%elem_of_range. by apply HW.
  - intros row w2 v w3 Hrow%elem_of_range _ Hv.
    apply _compute_actual_value_spec in Hv as (Hmul & Hsl & He & _).
    split_and!; [done | apply He; left; by apply HW | done | by eapply py_mul_not_none].
Qed.

Lemma _get_total_eff w w' n s :
  config_data w !! CKeys.RADIATORS_OWNED = Some (VInt n) →
  config_data w !! CKeys.START_ROW = Some (VInt s) →
  _get_total w = Done (tt, w') →
  ∀ W T : Z → Prop, W (s + n) → (∀ row, s ≤ row < s + n → W row) → eff W T w w'.
Proof.
  intros Hn Hs H W T HW HW'.
  apply _get_total_spec in H as (n' & s' & total & Hn' & Hs' & _ & _ & _ & He & _).
  simplify_eq. apply He; [done |]. intros row Hrow. left. by apply HW'.
Qed.

Lemma _get_notes_eff w w' n s :
  config_data w !! CKeys.RADIATORS_OWNED = Some (VInt n) →
  config_data w !! CKeys.START_ROW = Some (VInt s) →
  _get_notes w = Done (tt, w') →
  1 ≤ n ∧ ∀ W T : Z → Prop, (∀ row, s ≤ row < s + n → W row) → eff W T w w'.
Proof.
  intros Hn Hs H. unfold _get_notes in H.
  apply bind_done in H as (ans & w1 & Hans & H).
  apply inputYesNo_spec in Hans as (b & -> & Hin1 & _ & Hws1 & Hc1 & Hu1).
  apply bind_done in H as (note & w2 & Hnote & H).
  assert (talk w w2) as Htalk.
  { destruct (String.eqb _ _).
    - apply inputStr_spec in Hnote as (_ & Hin2 & _ & Hws2 & Hc2 & Hu2).
      split_and!; try congruence. exists [RYesNo b; RStr note]. by rewrite Hin1, Hin2.
    - apply ret_done in Hnote as [_ <-]. split_and!; try done. by exists [RYesNo b]. }
  pose proof Htalk as (_ & Hc2 & _).
  apply bind_done in H as ([] & w3 & Hmerge & H).
  apply (_merge_valve_cells_spec _ _ n s) in Hmerge
    as (Hn1 & _ & _ & _ & _ & _ & He & _); [| by rewrite Hc2 | by rewrite Hc2].
  apply (_insert_note_spec _ _ _ s) in H as (_ & _ & _ & He' & _);
    [| by rewrite (eff_config _ _ _ _ (He (λ _, True) (λ _, True) (λ _ _, I))), Hc2].
  split; [done |]. intros W T HW.
  eapply eff_trans; [by apply talk_eff |].
  eapply eff_trans; [apply He; intros; apply HW; lia | apply He', HW; lia].
Qed.

Lemma _update_valve_setting_eff w w' n s :
  config_data w !! CKeys.RADIATORS_OWNED = Some (VInt n) →
  config_data w !! CKeys.START_ROW = Some (VInt s) →
  _update_valve_setting w = Done (tt, w') →
  ∀ W T : Z → Prop, (∀ row, s ≤ row < s + n → W row) → (∀ row, T row) → eff W T w w'.
Proof.
  intros Hn Hs H W T HW HT. move H at bottom. unfold _update_valve_setting in H.
  apply bind_done in H as ([] & w1 & Hinfo & H).
  apply display_user_info_talk in Hinfo as Htalk.
  pose proof Htalk as (_ & Hc1 & _).
  apply bind_done in H as ([n' s'] & w2 & Hblock & H).
  apply _get_usage_block_info_spec in Hblock as (-> & Hn' & Hs').
  rewrite Hc1 in *. simplify_eq.
  apply bind_done in H as (last & w2 & Hlast & H).
  apply config_int_spec in Hlast as (-> & _).
  eapply eff_trans; [by apply talk_eff |].
  apply (for_each_inv (λ _, True) (eff W T)) in H as [He _]; try done.
  - apply eff_refl.
  - apply eff_trans.
  - intros i w3 w4 Hi%elem_of_range _ Hp. split; [|done].
    apply _process_valve_setting_update_spec in Hp as (_ & _ & _ & _ & _ & _ & He).
    apply He; [apply HW; lia | right; apply HT].
Qed.

Lemma _fill_dates_reads_block w w' :
  _fill_dates host w = Done (tt, w') →
  ∃ n s, config_data w !! CKeys.RADIATORS_OWNED = Some (VInt n) ∧
         config_data w !! CKeys.START_ROW = Some (VInt s).
Proof.
  unfold _fill_dates. intros H.
  apply bind_done in H as (mode & w1 & H1 & H).
  apply config_getitem_spec in H1 as [-> Hmode].
  apply bind_done in H as (d & w1 & Hd & H).
  assert (config_data w1 = config_data w) as Hcfg.
  { destruct (py_eq_str mode SCons.DATE_AUTO).
    - by apply _format_date_spec in Hd as [-> _].
    - apply _get_date_manually_loop_spec in Hd as [(_ & ? & _) _]. done. }
  apply bind_done in H as ([n s] & w2 & Hinfo & H).
  apply _get_usage_block_info_spec in Hinfo as (-> & Hn & Hs).
  rewrite Hcfg in Hn, Hs. eauto.
Qed.

(** The valve settings step is the entry or the update of the column,
    followed on a new ledger by the note on the header. *)
Lemma _manage_valve_settings_split w w' n s :
  config_data w !! CKeys.RADIATORS_OWNED = Some (VInt n) →
  config_data w !! CKeys.START_ROW = Some (VInt s) →
  _manage_valve_settings host w = Done (tt, w') →
  ∃ w1,
    (∀ W T : Z → Prop,
       (∀ row, s ≤ row < s + n → W row) →
       (usage_file_exists host = true → ∀ row, T row) → eff W T w w1) ∧
    ((usage_file_exists host = true ∧ w' = w1) ∨
     (usage_file_exists host = false ∧ _add_valve_setting_note w1 = Done (tt, w'))).
Proof.
  intros Hn Hs H. unfold _manage_valve_settings in H.
  destruct (usage_file_exists host) eqn:Hexists; simpl in H.
  - exists w'. split; [|by left]. intros W T HW HT.
    eapply _update_valve_setting_eff; try done. by apply HT.
  - apply bind_done in H as ([] & w1 & Henter & Hnote).
    apply with_fuel_done in Henter as [fuel Henter]. exists w1. split; [|by right].
    intros W T HW _.
    apply (_enter_initial_valve_settings_rec_spec _ _ _ n s) in Henter as (_ & _ & He);
      try done. by apply He.
Qed.

(** The steps of [_populate_usage host] that follow the valve settings. *)
Lemma populate_after_valves_eff w5 w' n s :
  config_data w5 !! CKeys.RADIATORS_OWNED = Some (VInt n) →
  config_data w5 !! CKeys.START_ROW = Some (VInt s) →
  (_ ← _get_raw_readings; _ ← _get_actual_values; _ ← _get_total; _ ← _get_notes;
   _add_blank_lines) w5 = Done (tt, w') →
  ∃ w9,
    1 ≤ n ∧
    max_row (worksheet w') = max_row (worksheet w9) + 3 ∧
    value_at (worksheet w') (max_row (worksheet w')) 1 = VStr EmptyString ∧
    (∀ W T : Z → Prop, (∀ row, s ≤ row ≤ s + n → W row) → eff W T w5 w9) ∧
    (∀ W T : Z → Prop,
       (∀ r, max_row (worksheet w9) < r ≤ max_row (worksheet w9) + 3 → W r) →
       eff W T w9 w').
Proof.
  intros Hn Hs H.
  apply bind_done in H as ([] & w6 & H5 & H).
  apply bind_done in H as ([] & w7 & H6 & H).
  apply bind_done in H as ([] & w8 & H7 & H).
  apply bind_done in H as ([] & w9 & H8 & H9).
  apply with_fuel_done in H5 as [fuel H5].
  pose proof (_get_raw_readings_rec_eff _ _ _ n s Hn Hs H5) as E5.
  pose proof (eff_config _ _ _ _ (E5 (λ _, True) (λ _, True) (λ _ _, I))) as C6.
  rewrite <- C6 in Hn, Hs.
  pose proof (_get_actual_values_eff _ _ n s Hn Hs H6) as E6.
  pose proof (eff_config _ _ _ _ (E6 (λ _, True) (λ _, True) (λ _ _, I))) as C7.
  rewrite <- C7 in Hn, Hs.
  pose proof (_get_total_eff _ _ n s Hn Hs H7) as E7.
  pose proof (eff_config _ _ _ _ (E7 (λ _, True) (λ _, True) I (λ _ _, I))) as C8.
  rewrite <- C8 in Hn, Hs.
  destruct (_get_notes_eff _ _ n s Hn Hs H8) as [Hn1 E8].
  apply _add_blank_lines_spec in H9 as (Hmax & Hblank & E9).
  assert (∀ W T : Z → Prop, (∀ row, s ≤ row ≤ s + n → W row) → eff W T w5 w9) as E59.
  { intros W T HW.
    eapply eff_trans; [apply E5; intros; apply HW; lia |].
    eapply eff_trans; [apply E6; intros; apply HW; lia |].
    eapply eff_trans; [apply E7; [apply HW; lia | intros; apply HW; lia] |].
    apply E8; intros; apply HW; lia. }
  exists w9. by split_and!.
Qed.

(** The steps of [_populate_usage host] between the row-block tracker and the
    valve settings. *)
Lemma populate_before_valves_eff w1 w4 :
  (_ ← _fill_registry_data host; _ ← _display_data_entry_intro; _fill_dates host) w1
    = Done (tt, w4) →
  ∃ n s w2,
    config_data w1 !! CKeys.RADIATORS_OWNED = Some (VInt n) ∧
    config_data w1 !! CKeys.START_ROW = Some (VInt s) ∧
    max_row (worksheet w2) ≤ max_row (worksheet w1) + Z.of_nat (length (registry_rows host)) ∧
    (∀ W T : Z → Prop,
       (∀ r, max_row (worksheet w1) < r
             ≤ max_row (worksheet w1) + Z.of_nat (length (registry_rows host)) → W r) →
       eff W T w1 w2) ∧
    (0 ≤ n → is_Some (_cells (worksheet w4) !! (s + n, 1))) ∧
    (∀ W T : Z → Prop, (∀ r, s ≤ r ≤ s + n → W r) → eff W T w2 w4).
Proof.
  intros H.
  apply bind_done in H as ([] & w2 & H1 & H).
  apply bind_done in H as ([] & w3 & H2 & H3).
  apply _fill_registry_data_eff in H1 as [Hmax E1].
  apply display_user_info_talk in H2.
  pose proof (eff_config _ _ _ _ (E1 (λ _, True) (λ _, True) (λ _ _, I))) as C2.
  pose proof H2 as (_ & C3 & _).
  destruct (_fill_dates_reads_block _ _ H3) as (n & s & Hn & Hs).
  destruct (_fill_dates_eff _ _ n s Hn Hs H3) as [Hdate E3].
  rewrite C3, C2 in Hn, Hs.
  exists n, s, w2. split_and!; try done.
  intros W T HW. eapply eff_trans; [by apply talk_eff | by apply E3].
Qed.

(** A completed [_populate_usage host], step by step: [w1] after the row-block
    tracker, [w2] after the registry rows, [w4] after the dates, [w45] after
    the valve settings were entered or updated, [w5] after the note on the
    header of a new ledger, [w9] after the notes, [w'] after the blank
    lines. *)
Lemma populate_usage_run w w' :
  _populate_usage host w = Done (tt, w') →
  ∃ n s w1 w2 w4 w45 w5 w9,
    s = max_row (worksheet w) + 1 ∧
    worksheet w1 = worksheet w ∧
    config_data w1
      = <[CKeys.LAST_START_ROW := default (VInt s) (config_data w !! CKeys.START_ROW)]>
          (<[CKeys.START_ROW := VInt s]> (config_data w)) ∧
    config_data w1 !! CKeys.RADIATORS_OWNED = Some (VInt n) ∧
    config_data w1 !! CKeys.START_ROW = Some (VInt s) ∧
    config_data w' = config_data w1 ∧
    1 ≤ n ∧
    max_row (worksheet w2) ≤ max_row (worksheet w1) + Z.of_nat (length (registry_rows host)) ∧
    (∀ W T : Z → Prop,
       (∀ r, max_row (worksheet w1) < r
             ≤ max_row (worksheet w1) + Z.of_nat (length (registry_rows host)) → W r) →
       eff W T w1 w2) ∧
    is_Some (_cells (worksheet w4) !! (s + n, 1)) ∧
    (∀ W T : Z → Prop, (∀ r, s ≤ r ≤ s + n → W r) → eff W T w2 w4) ∧
    (∀ W T : Z → Prop,
       (∀ r, s ≤ r < s + n → W r) →
       (usage_file_exists host = true → ∀ r, T r) → eff W T w4 w45) ∧
    ((usage_file_exists host = true ∧ w5 = w45) ∨
     (usage_file_exists host = false ∧ _add_valve_setting_note w45 = Done (tt, w5))) ∧
    (∀ W T : Z → Prop, (∀ r, s ≤ r ≤ s + n → W r) → eff W T w5 w9) ∧
    max_row (worksheet w') = max_row (worksheet w9) + 3 ∧
    value_at (worksheet w') (max_row (worksheet w')) 1 = VStr EmptyString ∧
    (∀ W T : Z → Prop,
       (∀ r, max_row (worksheet w9) < r ≤ max_row (worksheet w9) + 3 → W r) →
       eff W T w9 w').
Proof.
  unfold _populate_usage. intros H.
  apply bind_done in H as ([] & w1 & H0 & H).
  rewrite _update_start_rows_spec in H0. injection H0 as <-.
  set (w1 := mkWorld _ _ _ _ _) in H.
  assert ((_ ← (_ ← _fill_registry_data host; _ ← _display_data_entry_intro; _fill_dates host);
           _ ← _manage_valve_settings host;
           _ ← _get_raw_readings; _ ← _get_actual_values; _ ← _get_total; _ ← _get_notes;
           _add_blank_lines) w1 = Done (tt, w')) as H'.
  { revert H. unfold mbind, M_bind.
    destruct (_fill_registry_data host w1) as [[[] ?]| |]; try done.
    destruct (_display_data_entry_intro w0) as [[[] ?]| |]; done. }
  clear H. apply bind_done in H' as ([] & w4 & Hpre & H).
  apply bind_done in H as ([] & w5 & Hvalves & Hpost).
  apply populate_before_valves_eff in Hpre
    as (n & s & w2 & Hn & Hs & Hmax2 & E12 & Hdate & E24).
  assert (s = max_row (worksheet w) + 1) as ->.
  { subst w1. simpl in Hs. rewrite lookup_insert_ne, lookup_insert_eq in Hs by done.
    by injection Hs. }
  pose proof (eff_config _ _ _ _ (E12 (λ _, True) (λ _, True) (λ _ _, I))) as C2.
  pose proof (eff_config _ _ _ _ (E24 (λ _, True) (λ _, True) (λ _ _, I))) as C4.
  assert (config_data w4 = config_data w1) as C14 by congruence.
  destruct (_manage_valve_settings_split w4 w5 n (max_row (worksheet w) + 1))
    as (w45 & E445 & Hnote); [by rewrite C14 | by rewrite C14 | done |].
  pose proof (eff_config _ _ _ _ (E445 (λ _, True) (λ _, True) (λ _ _, I) (λ _ _, I))) as C45.
  assert (config_data w5 = config_data w1) as C15.
  { destruct Hnote as [[_ ->]|[_ Hnote]]; [congruence |].
    apply _add_valve_setting_note_spec in Hnote as (_ & _ & He & _).
    rewrite (eff_config _ _ _ _ (He (λ _, True) (λ _, True) I)). congruence. }
  destruct (populate_after_valves_eff w5 w' n (max_row (worksheet w) + 1))
    as (w9 & Hn1 & Hmax & Hblank & E59 & E9); [by rewrite C15 | by rewrite C15 | done |].
  exists n, (max_row (worksheet w) + 1), w1, w2, w4, w45, w5, w9.
  split_and!; try done.
  - rewrite (eff_config _ _ _ _ (E9 (λ _, True) (λ _, True) (λ _ _, I))).
    rewrite (eff_config _ _ _ _ (E59 (λ _, True) (λ _, True) (λ _ _, I))). done.
  - apply Hdate. lia.
Qed.

(** * Appending a block *)

Lemma prior_rows_kept_eff s b w w' :
  eff (λ r, s ≤ r) (λ _, True) w w' → prior_rows_kept s b (worksheet w) (worksheet w').
Proof.
  intros [_ _ [Hsl Hdom _ Hm]]. split; try done.
  - intros r c Hr. unfold value_at. rewrite Hsl; [done | lia].
  - intros r c Hr _. apply Hsl. lia.
Qed.

Lemma prior_rows_kept_trans s b ws1 ws2 ws3 :
  prior_rows_kept s b ws1 ws2 → prior_rows_kept s b ws2 ws3 → prior_rows_kept s b ws1 ws3.
Proof.
  intros [V1 S1 D1 (n1 & M1 & F1)] [V2 S2 D2 (n2 & M2 & F2)]. split.
  - intros r c Hr. by rewrite V2, V1.
  - intros r c Hr Hc. by rewrite S2, S1.
  - intros k Hk. by apply D2, D1.
  - exists (n1 ++ n2). split; [by rewrite M2, M1, app_assoc | by apply Forall_app].
Qed.

(** C5.  When [_populate_usage host] returns, the block it built starts at
    [start_row = max_row + 1], one past the highest row the ledger had, and
    it has at least one device row.  Below [start_row], that is in every
    row of the header and of the blocks that were there, every cell holds
    the value it held; on a ledger that existed the cells are left as they
    were altogether, and on a new ledger the one change below [start_row]
    is the comment attached to the header cell of the valve setting column
    (row 1, column 8).  No cell is removed, and the merged regions are those
    that were there followed by regions that start at or after
    [start_row].  So every value written (registry rows, dates, valve
    settings, raw readings, actual values, total, notes, padding) went to a
    row at or after [start_row]. *)
Theorem new_block_leaves_prior_rows_untouched (w w' : world) :
  _populate_usage host w = Done (tt, w') →
  ∃ radiators_owned start_row,
    start_row = max_row (worksheet w) + 1 ∧
    config_data w' !! CKeys.START_ROW = Some (VInt start_row) ∧
    config_data w' !! CKeys.RADIATORS_OWNED = Some (VInt radiators_owned) ∧
    1 ≤ radiators_owned ∧
    (∀ r c, is_Some (_cells (worksheet w) !! (r, c)) → r < start_row) ∧
    (∀ r c, r < start_row →
            value_at (worksheet w') r c = value_at (worksheet w) r c) ∧
    (∀ r c, r < start_row → (r, c) ≠ (1, 8) ∨ usage_file_exists host = true →
            slot_at (worksheet w') r c = slot_at (worksheet w) r c) ∧
    (∀ k, is_Some (_cells (worksheet w) !! k) → is_Some (_cells (worksheet w') !! k)) ∧
    (∃ new, merged_cells (worksheet w') = merged_cells (worksheet w) ++ new ∧
            Forall (λ cr, start_row ≤ min_row cr) new).
Proof.
  intros H. apply populate_usage_run in H
    as (n & s & w1 & w2 & w4 & w45 & w5 & w9 & Hs & Hws1 & _ & Hn & Hs1 & Hcfg & Hn1 &
        _ & E12 & _ & E24 & E445 & Hnote & E59 & _ & _ & E9).
  set (W := λ r : Z, s ≤ r). set (T := λ _ : Z, True).
  assert (eff W T w1 w45) as E145.
  { eapply eff_trans; [apply E12; intros r Hr; unfold W; rewrite Hws1 in Hr; lia |].
    eapply eff_trans; [apply E24; intros r Hr; unfold W; lia |].
    apply E445; [intros r Hr; unfold W; lia | done]. }
  assert (prior_rows_kept s (negb (usage_file_exists host)) (worksheet w45) (worksheet w5) ∧
          max_row (worksheet w45) ≤ max_row (worksheet w5)) as [K455 M455].
  { destruct Hnote as [[_ ->]|[Hex Hnote]].
    - split; [apply (prior_rows_kept_eff _ _ w45 w45), eff_refl | lia].
    - apply _add_valve_setting_note_spec in Hnote as (Hv & Hsl & He & Hm & _).
      split; [|by eapply (eff_max_row_mono (λ _, True) T), He].
      split.
      + intros r c _. apply Hv.
      + intros r c _ [Hne|Hb]; [by apply Hsl |]. by rewrite Hex in Hb.
      + intros k. by apply (eff_dom _ _ _ _ (eff_ws _ _ _ _ (He (λ _, True) T I))).
      + exists []. by rewrite app_nil_r, Hm. }
  assert (eff W T w5 w') as E5'.
  { eapply eff_trans; [apply E59; intros r Hr; unfold W; lia |].
    apply E9. intros r Hr. unfold W.
    pose proof (eff_max_row_mono _ _ _ _ E145).
    pose proof (eff_max_row_mono _ _ _ _ (E59 W T (λ r Hr, proj1 Hr))).
    rewrite Hws1 in *. lia. }
  assert (prior_rows_kept s (negb (usage_file_exists host)) (worksheet w) (worksheet w'))
    as [KV KS KD KM].
  { rewrite <- Hws1. eapply prior_rows_kept_trans; [by apply prior_rows_kept_eff |].
    eapply prior_rows_kept_trans; [done | by apply prior_rows_kept_eff]. }
  exists n, s. split_and!; try done.
  - by rewrite Hcfg.
  - by rewrite Hcfg.
  - intros r c Hc. apply max_row_ge in Hc. lia.
  - intros r c Hr Hc. apply KS; [done |]. destruct Hc as [? | ->]; [by left | by right].
Qed.

(** * From one run to the next *)

Lemma lookup_save_load ws k :
  is_Some (_cells (save_load ws) !! k) ↔
  ∃ sl, _cells ws !! k = Some sl ∧ written sl = true.
Proof.
  unfold save_load. simpl. rewrite lookup_fmap. split.
  - intros [sl' Hsl']. apply fmap_Some in Hsl' as (sl & Hsl & _).
    apply map_lookup_filter_Some in Hsl as [? ?]. eauto.
  - intros (sl & Hsl & Hw). exists (read_back sl). apply fmap_Some. exists sl.
    split; [|done]. by apply map_lookup_filter_Some.
Qed.

Lemma max_row_save_load ws c :
  is_none (value_at ws (max_row ws) c) = false → max_row (save_load ws) = max_row ws.
Proof.
  intros Hv. apply Z.le_antisymm.
  - apply max_row_le; [apply max_row_ge_1 |]. intros r c' [sl [Hsl _]]%lookup_save_load.
    eapply max_row_ge. by rewrite Hsl.
  - eapply (max_row_ge _ _ c). apply lookup_save_load.
    unfold value_at, slot_at in Hv.
    destruct (_cells ws !! (max_row ws, c)) as [[cell|]|] eqn:E; simpl in Hv; try done.
    exists (Plain cell). split; [done |]. simpl. by rewrite Hv.
Qed.

Lemma _initialize_usage_sheet_new w :
  usage_file_exists host = false → worksheet w = new_worksheet →
  ∃ w', _initialize_usage_sheet host w = Done (tt, w') ∧
        max_row (worksheet w') = 1 ∧ config_data w' = config_data w.
Proof.
  intros Hex Hws. unfold _initialize_usage_sheet. rewrite Hex. simpl.
  unfold customize_worksheet, mbind, M_bind, get_worksheet, put_worksheet. simpl.
  eexists. split; [done |]. simpl. rewrite Hws. split; [|done]. by vm_compute.
Qed.

(** C4, as the code has it.  A first-ever run (no [start_row] recorded
    yet) records [last_start_row] equal to [start_row].  On a new ledger
    whose registry lists at most [n] devices, for [n] radiators owned, that
    first run records [start_row = last_start_row = 2] and leaves cells up
    to row [2 + n + 3]: [n] device rows, the total row, and three rows of
    padding that each hold an empty string.  The second run, on the saved
    ledger, therefore records [start_row = 2 + n + 1 + 3], which is 9 for
    three devices (not 6), and [last_start_row = 2]. *)
Theorem second_block_starts_after_padding
    (w0 w1 : world) (n : Z) (answers : list response) :
  usage_file_exists host = false →
  worksheet w0 = new_worksheet →
  config_data w0 !! CKeys.START_ROW = None →
  config_data w0 !! CKeys.RADIATORS_OWNED = Some (VInt n) →
  Z.of_nat (length (registry_rows host)) ≤ n →
  manage_usage host w0 = Done (tt, w1) →
  (∀ w, config_data w !! CKeys.START_ROW = None →
        ∃ w' s, _update_start_rows w = Done (tt, w') ∧
                config_data w' !! CKeys.START_ROW = Some (VInt s) ∧
                config_data w' !! CKeys.LAST_START_ROW = Some (VInt s)) ∧
  config_data w1 !! CKeys.START_ROW = Some (VInt 2) ∧
  config_data w1 !! CKeys.LAST_START_ROW = Some (VInt 2) ∧
  max_row (worksheet w1) = 2 + n + 3 ∧
  ∃ w2,
    _update_start_rows (next_run w1 answers) = Done (tt, w2) ∧
    config_data w2 !! CKeys.START_ROW = Some (VInt (2 + n + 1 + 3)) ∧
    config_data w2 !! CKeys.LAST_START_ROW = Some (VInt 2).
Proof.
  intros Hex Hws Hnone Hn Hreg H. split.
  { intros w Hw. eexists _, _. split; [apply _update_start_rows_spec |]. simpl.
    rewrite Hw. simpl. split; [|by rewrite lookup_insert_eq].
    rewrite lookup_insert_ne by done. by rewrite lookup_insert_eq. }
  unfold manage_usage in H. apply bind_done in H as ([] & wh & Hinit & H).
  destruct (_initialize_usage_sheet_new w0 Hex Hws) as (wh' & Hinit' & Hmax0 & Hcfg0).
  rewrite Hinit' in Hinit. injection Hinit as ->.
  apply populate_usage_run in H
    as (n' & s & wa & w2 & w4 & w45 & w5 & w9 & Hs & Hwsa & Hcfga & Hn' & Hs' & Hcfg1 &
        Hn1 & _ & E12 & Hdate & E24 & E445 & Hnote & E59 & Hmax & Hblank & _).
  rewrite Hmax0 in Hs. simpl in Hs. subst s.
  assert (n' = n) as ->.
  { rewrite Hcfga, !lookup_insert_ne, Hcfg0, Hn in Hn' by done. by injection Hn'. }
  destruct Hnote as [[Hex' _]|[_ Hnote]]; [congruence |].
  apply _add_valve_setting_note_spec in Hnote as (_ & _ & Enote & _).
  set (W := λ r : Z, r = 1 ∨ 2 ≤ r ≤ 2 + n). set (T := λ _ : Z, False).
  assert (eff W T wa w9) as E.
  { eapply eff_trans; [apply E12; intros r Hr; unfold W; rewrite Hwsa, Hmax0 in Hr; lia |].
    eapply eff_trans; [apply E24; intros r Hr; unfold W; lia |].
    eapply eff_trans; [apply E445; [intros r Hr; unfold W; lia | congruence] |].
    eapply eff_trans; [apply Enote; unfold W; lia |].
    apply E59. intros r Hr. unfold W. lia. }
  assert (max_row (worksheet w9) = 2 + n) as Hmax9.
  { apply Z.le_antisymm.
    - etrans; [apply (eff_max_row_le _ _ _ _ (2 + n) E) |].
      + intros r [[->|?]|[]]; lia.
      + rewrite Hwsa, Hmax0. lia.
    - eapply (max_row_ge _ _ 1).
      assert (eff (λ _, True) (λ _, True) w4 w9) as E49.
      { eapply eff_trans; [by apply E445 |].
        eapply eff_trans; [by apply Enote | by apply E59]. }
      by apply (eff_dom _ _ _ _ (eff_ws _ _ _ _ E49)). }
  assert (config_data w1 !! CKeys.START_ROW = Some (VInt 2)) as Hstart1.
  { by rewrite Hcfg1. }
  split_and!.
  - done.
  - rewrite Hcfg1, Hcfga, lookup_insert_eq, Hcfg0, Hnone. done.
  - lia.
  - eexists. split; [apply _update_start_rows_spec |]. simpl.
    rewrite (max_row_save_load _ 1) by (by rewrite Hblank).
    rewrite Hstart1, Hmax, Hmax9. simpl. split.
    + rewrite lookup_insert_ne by done. rewrite lookup_insert_eq. do 2 f_equal. lia.
    + by rewrite lookup_insert_eq.
Qed.

End Proofs.

(** * The sample household, run *)

Ltac run_vm :=
  lazymatch goal with
  | |- ?l = ?r => exact (@eq_refl _ r <: l = r)
  end.

(** [evaluated t H] replaces the closed term [t] by its value in [H]. *)
Ltac evaluated t H :=
  let v := eval vm_compute in t in
  let E := fresh in
  assert (t = v) as E by (exact (@eq_refl _ v <: t = v));
  rewrite E in H; clear E.

Ltac has_value :=
  lazymatch goal with
  | |- ?l ≠ _ =>
      let v := eval vm_compute in l in
      let E := fresh in
      assert (l = v) as E by (exact (@eq_refl _ v <: l = v));
      rewrite E; discriminate
  end.

Ltac not_among :=
  let H := fresh in
  intros H;
  repeat (apply elem_of_cons in H as [H|H]; [discriminate H |]);
  by apply elem_of_nil in H.

Section Runs.

#[local] Existing Instance binary64.

Import Sample.

(** The second device of the sample block: coefficient 2, raw reading 7,
    actual value 14. *)
Lemma actual_values_of_the_sample_block :
  _get_actual_values with_readings = Done (tt, with_actual_values) ∧
  value_at (worksheet with_actual_values) 3 6 = VInt (2 * 7).
Proof.
  assert (_get_actual_values with_readings = Done (tt, with_actual_values)) as H
    by run_vm.
  split; [exact H |].
  destruct (actual_value_is_coefficient_times_raw_reading _ _ H)
    as (n & s & Hn & Hs & Hrows).
  evaluated (config_data with_readings !! CKeys.RADIATORS_OWNED) Hn.
  evaluated (config_data with_readings !! CKeys.START_ROW) Hs.
  injection Hn as <-. injection Hs as <-.
  destruct (Hrows 3 ltac:(lia)) as (_ & _ & _ & Hint).
  apply (Hint 2 7); run_vm.
Defined.

(** The total of the sample block: 10 + 14 + 45 in row 5, column 7. *)
Lemma total_of_the_sample_block :
  _get_total with_actual_values = Done (tt, with_total) ∧
  value_at (worksheet with_total) 5 7 = VInt (10 + 14 + 45).
Proof.
  assert (_get_total with_actual_values = Done (tt, with_total)) as H by run_vm.
  split; [exact H |].
  destruct (total_is_sum_over_device_rows_written_once _ _ H)
    as (n & s & total & Hn & Hs & _ & Hint & Hcell & _).
  evaluated (config_data with_actual_values !! CKeys.RADIATORS_OWNED) Hn.
  evaluated (config_data with_actual_values !! CKeys.START_ROW) Hs.
  injection Hn as <-. injection Hs as <-.
  change (2 + 3) with 5 in Hcell. rewrite Hcell.
  apply (Hint [10; 14; 45]). run_vm.
Defined.

(** The first run of the sample household, then the start of its second
    run: the second block starts at row 9. *)
Lemma second_block_of_the_sample :
  manage_usage first_host first_world = Done (tt, after_first_run) ∧
  max_row (worksheet after_first_run) = 8 ∧
  ∃ w2, _update_start_rows (next_run after_first_run second_script) = Done (tt, w2) ∧
        config_data w2 !! CKeys.START_ROW = Some (VInt 9) ∧
        config_data w2 !! CKeys.LAST_START_ROW = Some (VInt 2).
Proof.
  assert (manage_usage first_host first_world = Done (tt, after_first_run)) as H
    by run_vm.
  assert (usage_file_exists first_host = false) as Hnew by run_vm.
  assert (worksheet first_world = new_worksheet) as Hws by run_vm.
  assert (config_data first_world !! CKeys.START_ROW = None) as Hs by run_vm.
  assert (config_data first_world !! CKeys.RADIATORS_OWNED = Some (VInt 3)) as Hn
    by run_vm.
  assert (Z.of_nat (length (registry_rows first_host)) = 3) as Hrows by run_vm.
  assert (Z.of_nat (length (registry_rows first_host)) ≤ 3) as Hreg
    by (rewrite Hrows; lia).
  destruct (second_block_starts_after_padding first_host first_world after_first_run 3
              second_script Hnew Hws Hs Hn Hreg H)
    as (_ & _ & _ & Hmax & w2 & Hrun & Hs2 & Hl2).
  split; [exact H |]. split; [exact Hmax |]. exists w2.
  split; [exact Hrun |]. split; [exact Hs2 | exact Hl2].
Defined.

(** The code against the specification's figure: after a first block of
    three devices at row 2, the ledger holds the three padding rows 6 to
    8, and the second run records [start_row = 9], not 6. *)
Lemma second_block_does_not_start_at_row_6 :
  manage_usage first_host first_world = Done (tt, after_first_run) ∧
  config_data after_first_run !! CKeys.RADIATORS_OWNED = Some (VInt 3) ∧
  config_data after_first_run !! CKeys.START_ROW = Some (VInt 2) ∧
  value_at (worksheet after_first_run) 5 7 = VInt 69 ∧
  value_at (worksheet after_first_run) 6 1 = VStr "" ∧
  value_at (worksheet after_first_run) 7 1 = VStr "" ∧
  value_at (worksheet after_first_run) 8 1 = VStr "" ∧
  _update_start_rows (next_run after_first_run second_script)
    = Done (tt, second_start) ∧
  config_data second_start !! CKeys.START_ROW = Some (VInt 9) ∧
  config_data second_start !! CKeys.START_ROW ≠ Some (VInt 6) ∧
  config_data second_start !! CKeys.LAST_START_ROW = Some (VInt 2).
Proof.
  repeat (split; [run_vm |]). split; [has_value | run_vm].
Defined.

(** The second run of the sample household leaves the first block as it
    was. *)
Lemma first_block_kept_by_the_second_run :
  _populate_usage later_host second_world = Done (tt, after_second_run) ∧
  value_at (worksheet after_second_run) 3 8 = value_at (worksheet second_world) 3 8 ∧
  value_at (worksheet after_second_run) 5 7 = VInt 69.
Proof.
  assert (_populate_usage later_host second_world = Done (tt, after_second_run)) as H
    by run_vm.
  split; [exact H |].
  destruct (new_block_leaves_prior_rows_untouched later_host _ _ H)
    as (n & s & Hs & _ & _ & _ & _ & Hval & _).
  evaluated (max_row (worksheet second_world) + 1) Hs. subst s.
  split; [apply Hval; lia |].
  rewrite Hval by lia. run_vm.
Defined.


(** A confirmation rejected in the sample: the dialogue is a run of the
    machine of the code. *)
Lemma reconsidered_sample_runs_the_machine :
  _process_valve_setting_update 2 9
    (before_update [RYesNo true; RStr "5"; RYesNo false; RYesNo false])
    = Done (tt, reconsidered) ∧
  ∃ final, code_machine REVIEW (transcript reconsidered) = Some (FINAL final).
Proof.
  pose (w := before_update [RYesNo true; RStr "5"; RYesNo false; RYesNo false]).
  assert (_process_valve_setting_update 2 9 w = Done (tt, reconsidered)) as H by run_vm.
  split; [exact H |].
  destruct (rejected_confirmation_returns_to_review 2 9 w reconsidered H)
    as (dialogue & final & Htr & Hrun & _).
  evaluated (transcript w) Htr. rewrite app_nil_l in Htr.
  exists final. rewrite Htr. exact Hrun.
Defined.

(** The code against the specification's transition: in the sample the
    user enters "5" and rejects the confirmation; what follows is the
    review question, which the machine of the specification (rejection
    leads to [ENTER]) does not accept, and the machine of the code
    (rejection leads to [REVIEW]) does. *)
Lemma rejected_confirmation_does_not_return_to_enter :
  _process_valve_setting_update 2 9
    (before_update [RYesNo true; RStr "5"; RYesNo false; RYesNo false])
    = Done (tt, reconsidered) ∧
  transcript reconsidered
    = [(AskChangeValve (VStr "Kitchen") (VStr "3"), RYesNo true);
       (AskNewValve (VStr "Kitchen"), RStr "5");
       (AskApplyChange, RYesNo false);
       (AskChangeValve (VStr "Kitchen") (VStr "3"), RYesNo false)] ∧
  spec_machine REVIEW (transcript reconsidered) = None ∧
  code_machine REVIEW (transcript reconsidered) = Some (FINAL KEEP).
Proof.
  split; [run_vm |]. split; [run_vm |]. split; run_vm.
Defined.

(** The note of the sample block: the default text in row 2, over the
    merged rows 2 to 4 of column 9. *)
Lemma notes_of_the_sample_block :
  _get_notes with_total = Done (tt, with_notes) ∧
  value_at (worksheet with_notes) 2 9 = VStr "No additional notes." ∧
  merged_cells (worksheet with_notes) = [mkCellRange 2 9 4 9].
Proof.
  assert (_get_notes with_total = Done (tt, with_notes)) as H by run_vm.
  split; [exact H |].
  assert (config_data with_total !! CKeys.RADIATORS_OWNED = Some (VInt 3)) as Hn
    by run_vm.
  assert (config_data with_total !! CKeys.START_ROW = Some (VInt 2)) as Hs by run_vm.
  assert (merged_cells (worksheet with_total) = []) as Hnil by run_vm.
  assert (Forall (λ cr, max_row_ cr < 2) (merged_cells (worksheet with_total))) as Hm
    by (rewrite Hnil; apply Forall_nil_2).
  destruct (note_stored_once_over_merged_device_rows with_total with_notes 3 2
              Hn Hs Hm H)
    as (_ & (note & Hnote & Hsaid) & _ & Hmerged & _).
  evaluated (stdin with_total) Hsaid. rewrite Hnil in Hmerged.
  destruct Hsaid as [(rest & _ & ->) | (rest & Hin & _)]; [|discriminate Hin].
  split; [exact Hnote | exact Hmerged].
Defined.

(** The dates of the sample block: 5 January 2025, day first, in the
    device rows 2 to 4 and in the total row 5 of column 1. *)
Lemma dates_of_the_sample_block :
  _fill_dates first_host with_readings = Done (tt, with_dates) ∧
  value_at (worksheet with_dates) 2 1 = VStr "05/01/2025" ∧
  value_at (worksheet with_dates) 4 1 = VStr "05/01/2025" ∧
  value_at (worksheet with_dates) 5 1 = VStr "05/01/2025".
Proof.
  assert (_fill_dates first_host with_readings = Done (tt, with_dates)) as H by run_vm.
  split; [exact H |].
  destruct (fill_dates_covers_device_rows_and_total_row first_host _ _ H)
    as (n & s & date_obj & Hn & Hs & Hauto & Hrows & Htotal & _).
  evaluated (config_data with_readings !! CKeys.RADIATORS_OWNED) Hn.
  evaluated (config_data with_readings !! CKeys.START_ROW) Hs.
  injection Hn as <-. injection Hs as <-.
  assert (config_data with_readings !! CKeys.DATE_INPUT_MODE
          = Some (VStr SCons.DATE_AUTO)) as Hmode by run_vm.
  rewrite (Hauto Hmode) in Hrows, Htotal.
  rewrite (Hrows 2), (Hrows 4) by lia.
  change 5 with (2 + 3) at 1. rewrite Htotal by lia.
  split; [run_vm |]. split; run_vm.
Defined.

End Runs.

(** * More of the engine: runs that always complete *)

Section Progress.

Context {rt : PyRuntime} (host : Host).

Lemma bind_run {A B} (m : M A) (f : A → M B) w a w1 :
  m w = Done (a, w1) → (m ≫= f) w = f a w1.
Proof. unfold mbind, M_bind. by intros ->. Qed.

Lemma bind_raise {A B} (m : M A) (f : A → M B) w e :
  m w = Raise e → (m ≫= f) w = Raise e.
Proof. unfold mbind, M_bind. by intros ->. Qed.

Lemma ws_read_total ws row column :
  1 ≤ row → 1 ≤ column →
  ∃ ws', ws_read ws row column = Ok (value_at ws row column, ws').
Proof.
  intros Hr Hc. unfold ws_read.
  assert ((row <? 1) || (column <? 1) = false) as ->.
  { apply orb_false_iff. split; apply Z.ltb_ge; lia. }
  destruct (_get_cell ws row column) as [s ws1] eqn:Hcell.
  apply _get_cell_spec in Hcell as (-> & _). by eexists.
Qed.

Lemma cell_value_total row column w :
  1 ≤ row → 1 ≤ column →
  ∃ w', cell_value row column w = Done (value_at (worksheet w) row column, w').
Proof.
  intros Hr Hc. destruct (ws_read_total (worksheet w) row column Hr Hc) as [ws' Hread].
  unfold cell_value, mbind, M_bind, get_worksheet. simpl. rewrite Hread. simpl.
  by eexists.
Qed.

Lemma ws_write_total ws row column v :
  1 ≤ row → 1 ≤ column →
  is_none v = true ∨ slot_at ws row column ≠ MergedCell →
  ∃ ws', ws_write ws row column v = Ok ws'.
Proof.
  intros Hr Hc Hok. unfold ws_write.
  assert ((row <? 1) || (column <? 1) = false) as ->.
  { apply orb_false_iff. split; apply Z.ltb_ge; lia. }
  destruct (_get_cell ws row column) as [s ws1] eqn:Hcell.
  apply _get_cell_spec in Hcell as (-> & _).
  destruct (is_none v); [by eexists |].
  destruct Hok as [?|Hok]; [done |].
  destruct (slot_at ws row column); [by eexists | done].
Qed.

Lemma cell_write_total row column v w :
  1 ≤ row → 1 ≤ column →
  is_none v = true ∨ slot_at (worksheet w) row column ≠ MergedCell →
  ∃ w', cell_write row column v w = Done (tt, w').
Proof.
  intros Hr Hc Hok.
  destruct (ws_write_total (worksheet w) row column v Hr Hc Hok) as [ws' Hwr].
  unfold cell_write, mbind, M_bind, get_worksheet. simpl. rewrite Hwr. simpl.
  by eexists.
Qed.

Lemma ws_write_merged ws row column v ws' :
  ws_write ws row column v = Ok ws' → merged_cells ws' = merged_cells ws.
Proof.
  unfold ws_write. destruct ((row <? 1) || (column <? 1)); [discriminate |].
  destruct (_get_cell ws row column) as [s ws1] eqn:Hcell.
  apply _get_cell_merged in Hcell.
  destruct (is_none v); [by intros [= <-] |].
  destruct s; [|discriminate]. by intros [= <-].
Qed.

Lemma cell_write_merged row column v w w' :
  cell_write row column v w = Done (tt, w') →
  merged_cells (worksheet w') = merged_cells (worksheet w).
Proof.
  intros (ws' & Hwr & ->)%cell_write_done. simpl. by eapply ws_write_merged.
Qed.

(** One blank line: it always goes through, to the row below the last. *)
Lemma blank_line_run w :
  ∃ w',
    (ws ← get_worksheet;
     let empty_row := max_row ws + SNums.ONE in
     cell_write empty_row SNums.ONE (VStr SCons.EMPTY_STR)) w = Done (tt, w') ∧
    max_row (worksheet w') = max_row (worksheet w) + 1 ∧
    value_at (worksheet w') (max_row (worksheet w) + 1) 1 = VStr EmptyString ∧
    (∀ r c, (r, c) ≠ (max_row (worksheet w) + 1, 1) →
            slot_at (worksheet w') r c = slot_at (worksheet w) r c) ∧
    merged_cells (worksheet w') = merged_cells (worksheet w) ∧
    config_data w' = config_data w ∧ config_update w' = config_update w ∧
    io_same w w'.
Proof.
  pose proof (max_row_ge_1 (worksheet w)) as Hge.
  destruct (cell_write_total (max_row (worksheet w) + 1) 1 (VStr SCons.EMPTY_STR) w)
    as [w' Hwr]; [lia | lia | |].
  { right. rewrite slot_at_above by lia. done. }
  exists w'.
  assert ((ws ← get_worksheet;
           let empty_row := max_row ws + SNums.ONE in
           cell_write empty_row SNums.ONE (VStr SCons.EMPTY_STR)) w = Done (tt, w')) as Hrun.
  { unfold mbind, M_bind, get_worksheet. simpl. exact Hwr. }
  split; [exact Hrun |].
  pose proof (cell_write_merged _ _ _ _ _ Hwr) as Hm.
  apply blank_line_spec in Hrun as (Hmax & _ & _).
  apply cell_write_spec in Hwr as (_ & Hval & _ & _ & Hsl & He & Hio).
  specialize (He (λ _, True) (λ _, True) I).
  split_and!; try done; apply He.
Qed.

Lemma _add_blank_lines_run (w : world) :
  ∃ w',
    _add_blank_lines w = Done (tt, w') ∧
    max_row (worksheet w') = max_row (worksheet w) + 3 ∧
    (∀ r, max_row (worksheet w) < r ≤ max_row (worksheet w) + 3 →
          value_at (worksheet w') r 1 = VStr EmptyString) ∧
    (∀ r c, ¬ (max_row (worksheet w) < r ≤ max_row (worksheet w) + 3 ∧ c = 1) →
            slot_at (worksheet w') r c = slot_at (worksheet w) r c) ∧
    merged_cells (worksheet w') = merged_cells (worksheet w) ∧
    config_data w' = config_data w ∧ config_update w' = config_update w ∧
    stdin w' = stdin w ∧ transcript w' = transcript w.
Proof.
  destruct (blank_line_run w) as (w1 & R1 & M1 & V1 & S1 & G1 & C1 & U1 & [I1 T1]).
  destruct (blank_line_run w1) as (w2 & R2 & M2 & V2 & S2 & G2 & C2 & U2 & [I2 T2]).
  destruct (blank_line_run w2) as (w3 & R3 & M3 & V3 & S3 & G3 & C3 & U3 & [I3 T3]).
  exists w3. split_and!; try congruence.
  - unfold _add_blank_lines. change (range 0 SNums.THREE) with [0; 1; 2].
    cbn [for_each].
    rewrite (bind_run _ _ _ _ _ R1), (bind_run _ _ _ _ _ R2), (bind_run _ _ _ _ _ R3).
    done.
  - lia.
  - intros r Hr. set (m := max_row (worksheet w)) in *.
    assert (r = m + 1 ∨ r = m + 2 ∨ r = m + 3) as [-> | [-> | ->]] by lia.
    + unfold value_at in *. rewrite S3, S2 by (intros [= ?]; lia). done.
    + unfold value_at in *. rewrite S3 by (intros [= ?]; lia).
      replace (m + 2) with (max_row (worksheet w1) + 1) by lia. done.
    + replace (m + 3) with (max_row (worksheet w2) + 1) by lia. done.
  - intros r c Hrc. rewrite S3, S2, S1; [done | | |]; intros [= -> ->]; apply Hrc; lia.
Qed.


(** X1.  [_add_blank_lines] always returns.  It adds exactly three rows below
    the last row of the ledger, each with the empty string in column 1, so
    [max_row] grows by three; no other coordinate, no merged region and
    nothing of the configuration or the console changes. *)
Theorem blank_lines_pad_three_rows (w : world) :
  ∃ w',
    _add_blank_lines w = Done (tt, w') ∧
    max_row (worksheet w') = max_row (worksheet w) + 3 ∧
    (∀ r, max_row (worksheet w) < r ≤ max_row (worksheet w) + 3 →
          value_at (worksheet w') r 1 = VStr EmptyString) ∧
    (∀ r c, ¬ (max_row (worksheet w) < r ≤ max_row (worksheet w) + 3 ∧ c = 1) →
            slot_at (worksheet w') r c = slot_at (worksheet w) r c) ∧
    merged_cells (worksheet w') = merged_cells (worksheet w) ∧
    config_data w' = config_data w ∧ config_update w' = config_update w ∧
    stdin w' = stdin w ∧ transcript w' = transcript w.
Proof. apply _add_blank_lines_run. Qed.

End Progress.

(** * The registry rows of a block *)

Section Registry.

Context {rt : PyRuntime} (host : Host).

Lemma ws_write_plain ws row column v ws' :
  ws_write ws row column v = Ok ws' →
  slot_at ws row column ≠ MergedCell → slot_at ws' row column ≠ MergedCell.
Proof.
  unfold ws_write. destruct ((row <? 1) || (column <? 1)); [discriminate |].
  destruct (_get_cell ws row column) as [s ws1] eqn:Hcell.
  apply _get_cell_spec in Hcell as (-> & _ & Hslot & _).
  destruct (is_none v).
  - intros [= <-]. by rewrite Hslot.
  - destruct (slot_at ws row column); [|discriminate].
    intros [= <-] _. by rewrite slot_at_put_slot, decide_True.
Qed.

(** One row written from left to right into a row without merged cells. *)
Lemma write_row_run row (cols : list (Z * pyval)) w :
  1 ≤ row → NoDup cols.*1 → (∀ c, c ∈ cols.*1 → 1 ≤ c) →
  (∀ c, slot_at (worksheet w) row c ≠ MergedCell) →
  ∃ w',
    for_each cols (λ '(col_offset, value), cell_write row col_offset value) w
      = Done (tt, w') ∧
    (∀ c v, (c, v) ∈ cols →
            value_at (worksheet w') row c
              = if is_none v then value_at (worksheet w) row c else v) ∧
    (∀ c, c ∈ cols.*1 → is_Some (_cells (worksheet w') !! (row, c))) ∧
    (∀ r c, ¬ (r = row ∧ c ∈ cols.*1) →
            slot_at (worksheet w') r c = slot_at (worksheet w) r c) ∧
    merged_cells (worksheet w') = merged_cells (worksheet w) ∧
    config_data w' = config_data w ∧ config_update w' = config_update w ∧
    io_same w w' ∧
    (∀ W T : Z → Prop, W row → eff W T w w').
Proof.
  intros Hrow. revert w.
  induction cols as [|[c v] cols IH]; intros w Hnd Hpos Hplain.
  - exists w. split_and!; try done.
    + by intros ? ? ?%elem_of_nil.
    + by intros ? ?%elem_of_nil.
    + intros. apply eff_refl.
  - rewrite fmap_cons in Hnd, Hpos. apply NoDup_cons in Hnd as [Hnotin Hnd]. simpl in *.
    destruct (cell_write_total row c v w) as [w1 Hwr]; [done | apply Hpos; by left | |].
    { right. apply Hplain. }
    pose proof (cell_write_merged _ _ _ _ _ Hwr) as Hm1.
    pose proof (cell_write_done _ _ _ _ _ Hwr) as (ws1 & Hws1 & Hw1).
    pose proof (cell_write_spec _ _ _ _ _ Hwr) as (_ & Hval & _ & Hsome & Hsl & He & Hio).
    destruct (IH w1) as (w' & Hrun & Hvals & Hdom & Hfr & Hm & Hc & Hu & Hio' & He');
      [done | by intros; apply Hpos; right | |].
    { intros c'. destruct (decide (c' = c)) as [->|Hne].
      - subst w1. simpl. eapply ws_write_plain; [done | apply Hplain].
      - rewrite Hsl by (intros [= ?]; done). apply Hplain. }
    exists w'. split_and!.
    + cbn [for_each]. by rewrite (bind_run _ _ _ _ _ Hwr).
    + intros c' v' [[= -> ->]|Hin]%elem_of_cons.
      * unfold value_at at 1. rewrite Hfr; [exact Hval |]. intros [_ ?]. done.
      * rewrite (Hvals _ _ Hin). unfold value_at. rewrite Hsl; [done |].
        intros [= ->]. apply Hnotin. apply list_elem_of_fmap. by exists (c, v').
    + intros c' [->|Hin]%elem_of_cons; [|by apply Hdom].
      apply (eff_dom _ _ _ _ (eff_ws _ _ _ _ (He' (λ _, True) (λ _, True) I))). done.
    + intros r c' Hrc. rewrite Hfr, Hsl; [done | |].
      * intros [= -> ->]. apply Hrc. split; [done | by left].
      * intros [-> ?]. apply Hrc. split; [done | by right].
    + congruence.
    + rewrite Hc. apply (eff_config _ _ _ _ (He (λ _, True) (λ _, True) I)).
    + rewrite Hu. apply (eff_update _ _ _ _ (He (λ _, True) (λ _, True) I)).
    + destruct Hio, Hio'. split; congruence.
    + intros W T HW. eapply eff_trans; [by apply He | by apply He'].
Qed.

Lemma elem_of_zip_seqZ {A} (a : Z) (l : list A) c v :
  (c, v) ∈ zip (seqZ a (Z.of_nat (length l))) l ↔
  ∃ j : nat, l !! j = Some v ∧ c = a + Z.of_nat j.
Proof.
  rewrite list_elem_of_lookup. split.
  - intros (j & Hj). apply lookup_zip_with_Some in Hj as (c' & v' & [= -> ->] & Hc & Hv).
    apply lookup_seqZ in Hc as [-> _]. eauto.
  - intros (j & Hv & ->). exists j. apply lookup_zip_with_Some. exists (a + Z.of_nat j), v.
    split_and!; [done | | done]. apply lookup_seqZ. split; [done |].
    apply lookup_lt_Some in Hv. lia.
Qed.

Lemma fst_zip_seqZ {A} (a : Z) (l : list A) :
  (zip (seqZ a (Z.of_nat (length l))) l).*1 = seqZ a (Z.of_nat (length l)).
Proof. apply fst_zip. rewrite length_seqZ. lia. Qed.

(** The rows of the registry, each below the last row of the sheet. *)
Lemma fill_rows_run (rows : list (list pyval)) w :
  Forall (λ row, row ≠ []) rows →
  let m := max_row (worksheet w) in
  ∃ w',
    for_each rows (λ row,
      ws ← get_worksheet;
      let empty_row := max_row ws + SNums.ONE in
      for_each (zip (seqZ SNums.TWO (Z.of_nat (length row))) row) (λ '(col_offset, value),
        cell_write empty_row col_offset value)) w = Done (tt, w') ∧
    max_row (worksheet w') = m + Z.of_nat (length rows) ∧
    (∀ (i : nat) row (j : nat) v, rows !! i = Some row → row !! j = Some v →
       value_at (worksheet w') (m + 1 + Z.of_nat i) (2 + Z.of_nat j) = v) ∧
    (∀ r c, ¬ (∃ (i : nat) row, rows !! i = Some row ∧ r = m + 1 + Z.of_nat i ∧
                                2 ≤ c < 2 + Z.of_nat (length row)) →
            slot_at (worksheet w') r c = slot_at (worksheet w) r c) ∧
    merged_cells (worksheet w') = merged_cells (worksheet w) ∧
    config_data w' = config_data w ∧ config_update w' = config_update w ∧
    io_same w w'.
Proof.
  revert w. induction rows as [|row rows IH]; intros w Hne m.
  - exists w. split_and!; try done. simpl. lia.
  - apply Forall_cons in Hne as [Hrow Hne].
    pose proof (max_row_ge_1 (worksheet w)) as Hge.
    destruct (write_row_run (m + 1) (zip (seqZ SNums.TWO (Z.of_nat (length row))) row) w)
      as (w1 & Hrun1 & Hvals1 & Hdom1 & Hfr1 & Hm1 & Hc1 & Hu1 & Hio1 & He1).
    { lia. }
    { rewrite fst_zip_seqZ. apply NoDup_seqZ. }
    { intros c. rewrite fst_zip_seqZ. intros ?%elem_of_seqZ. unfold SNums.TWO in *. lia. }
    { intros c. rewrite slot_at_above by (fold m; lia). done. }
    assert (max_row (worksheet w1) = m + 1) as Hmax1.
    { apply Z.le_antisymm.
      - etrans; [apply (eff_max_row_le (λ r, r = m + 1) (λ _, False));
                 [by apply He1 | intros r [->|[]]; reflexivity] |]. fold m. lia.
      - destruct row as [|v0 row]; [done |].
        apply (max_row_ge _ _ SNums.TWO). apply Hdom1. rewrite fst_zip_seqZ.
        apply elem_of_seqZ. simpl length. unfold SNums.TWO. lia. }
    destruct (IH w1 Hne) as (w' & Hrun & Hmax & Hvals & Hfr & Hm & Hc & Hu & Hio).
    rewrite Hmax1 in Hmax, Hvals, Hfr.
    exists w'. split_and!.
    + cbn [for_each]. erewrite bind_run; [exact Hrun |].
      unfold mbind, M_bind, get_worksheet. exact Hrun1.
    + rewrite Hmax, length_cons. lia.
    + intros i row' j v Hi Hj. destruct i as [|i]; simpl in Hi.
      * injection Hi as <-. replace (m + 1 + Z.of_nat 0) with (m + 1) by lia.
        unfold value_at. rewrite Hfr.
        -- fold (value_at (worksheet w1) (m + 1) (2 + Z.of_nat j)).
           rewrite (Hvals1 (2 + Z.of_nat j) v).
           ++ unfold value_at. rewrite slot_at_above by (fold m; lia).
              by destruct v.
           ++ apply elem_of_zip_seqZ. eauto.
        -- intros (i' & ? & _ & ? & _). lia.
      * replace (m + 1 + Z.of_nat (S i)) with (m + 1 + 1 + Z.of_nat i) by lia.
        by eapply Hvals.
    + intros r c Hrc. rewrite Hfr, Hfr1; [done | |].
      * intros [-> Hin]. apply Hrc. exists 0%nat, row. split; [done |].
        split; [lia |]. rewrite fst_zip_seqZ in Hin. apply elem_of_seqZ in Hin.
        unfold SNums.TWO in Hin. lia.
      * intros (i & row' & Hi & -> & Hcc). apply Hrc. exists (S i), row'.
        split; [done |]. split; [lia | done].
    + congruence.
    + congruence.
    + congruence.
    + destruct Hio1, Hio. split; congruence.
Qed.

(** X2.  With a registry file configured and registry rows that are not
    empty tuples, [_fill_registry_data host] returns: the rows of the
    registry go, in order, to the rows below the last row of the ledger, one
    row each, their values from column 2 on; nothing else is written
    (column 1 of the new rows included), and the configuration and the
    console are left alone. *)
Theorem registry_rows_are_copied_below_the_ledger (w : world) :
  is_Some (config_data w !! CKeys.REGISTRY_FILE) →
  Forall (λ row, row ≠ []) (registry_rows host) →
  let m := max_row (worksheet w) in
  ∃ w',
    _fill_registry_data host w = Done (tt, w') ∧
    max_row (worksheet w') = m + Z.of_nat (length (registry_rows host)) ∧
    (∀ (i : nat) row (j : nat) v,
       registry_rows host !! i = Some row → row !! j = Some v →
       value_at (worksheet w') (m + 1 + Z.of_nat i) (2 + Z.of_nat j) = v) ∧
    (∀ r c, ¬ (∃ (i : nat) row, registry_rows host !! i = Some row ∧
                                r = m + 1 + Z.of_nat i ∧
                                2 ≤ c < 2 + Z.of_nat (length row)) →
            slot_at (worksheet w') r c = slot_at (worksheet w) r c) ∧
    merged_cells (worksheet w') = merged_cells (worksheet w) ∧
    config_data w' = config_data w ∧ config_update w' = config_update w ∧
    stdin w' = stdin w ∧ transcript w' = transcript w.
Proof.
  intros [file Hfile] Hne m.
  destruct (fill_rows_run (registry_rows host) w Hne)
    as (w' & Hrun & Hmax & Hvals & Hfr & Hm & Hc & Hu & [Hin Htr]).
  exists w'. split_and!; try done.
  unfold _fill_registry_data, _get_registry_worksheet.
  assert (config_getitem CKeys.REGISTRY_FILE w = Done (file, w)) as Hget.
  { unfold config_getitem, mbind, M_bind, get_config. simpl. by rewrite Hfile. }
  rewrite (bind_run _ _ w (registry_rows host) w); [exact Hrun |].
  by rewrite (bind_run _ _ _ _ _ Hget).
Qed.

End Registry.

(** * Raw readings and the manual date *)

Section Entry.

Context {rt : PyRuntime} (host : Host).

Lemma inputInt_spec p lo hi w z w' :
  inputInt p lo hi w = Done (z, w') →
  in_bounds lo hi z = true ∧ stdin w = RInt z :: stdin w' ∧
  transcript w' = transcript w ++ [(p, RInt z)] ∧
  worksheet w' = worksheet w ∧ config_data w' = config_data w ∧
  config_update w' = config_update w.
Proof.
  unfold inputInt. intros (r & Hacc & ? & ? & ? & ? & ?)%ask_spec.
  destruct r as [| | |z0]; try discriminate.
  destruct (in_bounds lo hi z0) eqn:E; [|discriminate]. by injection Hacc as ->.
Qed.

Lemma readings_round_ext ws ws' rows zs :
  (∀ row, row ∈ rows → value_at ws' row SNums.TWO = value_at ws row SNums.TWO) →
  readings_round ws' rows zs = readings_round ws rows zs.
Proof.
  unfold readings_round. revert zs.
  induction rows as [|row rows IH]; intros zs Hext; [done |].
  destruct zs as [|z zs]; [done |]. simpl. rewrite Hext by (by left).
  f_equal. apply IH. intros; apply Hext; by right.
Qed.

(** One round: every row gets the integer that was answered for it. *)
Lemma readings_round_spec rows w w' :
  NoDup rows →
  _fill_col rows
    (λ row, name ← cell_value row SNums.TWO;
            z ← inputInt (AskRawReading name) None None;
            mret (VInt z))
    SNums.FIVE w = Done (tt, w') →
  ∃ zs,
    Forall2 (λ row z, value_at (worksheet w') row SNums.FIVE = VInt z) rows zs ∧
    transcript w' = transcript w ++ readings_round (worksheet w) rows zs ∧
    stdin w = (RInt <$> zs) ++ stdin w' ∧
    (∀ r c, ¬ (r ∈ rows ∧ c = SNums.FIVE) →
            slot_at (worksheet w') r c = slot_at (worksheet w) r c) ∧
    merged_cells (worksheet w') = merged_cells (worksheet w) ∧
    config_data w' = config_data w ∧ config_update w' = config_update w.
Proof.
  unfold _fill_col. revert w.
  induction rows as [|row rows IH]; intros w Hnd H; simpl in H.
  - apply ret_done in H as [_ <-]. exists []. split_and!; try done.
    unfold readings_round. simpl. by rewrite app_nil_r.
  - apply NoDup_cons in Hnd as [Hnotin Hnd].
    apply bind_done in H as ([] & w1 & Hbody & H).
    apply bind_done in Hbody as (v & w2 & Hget & Hwr).
    apply bind_done in Hget as (name & w3 & Hname & Hget).
    apply bind_done in Hget as (z & w4 & Hint & Hret).
    apply ret_done in Hret as [<- <-].
    pose proof (cell_value_spec _ _ _ _ _ Hname) as (_ & -> & Hsl3 & He3 & [Hin3 Htr3]).
    assert (merged_cells (worksheet w3) = merged_cells (worksheet w)) as Hm3.
    { unfold cell_value in Hname.
      apply bind_done in Hname as (ws & w5 & Hws & Hname). injection Hws as <- <-.
      apply bind_done in Hname as ([v5 ws5] & w6 & Hread & Hname).
      apply lift_done in Hread as [Hread <-].
      apply bind_done in Hname as ([] & w7 & Hput & Hret).
      apply ret_done in Hret as [_ <-]. injection Hput as <-. simpl.
      unfold ws_read in Hread. destruct ((row <? 1) || (SNums.TWO <? 1)); [discriminate |].
      destruct (_get_cell (worksheet w) row SNums.TWO) as [s6 ws6] eqn:Hcell.
      injection Hread as _ <-. by eapply _get_cell_merged. }
    apply inputInt_spec in Hint as (_ & Hin4 & Htr4 & Hws4 & Hc4 & Hu4).
    pose proof (cell_write_merged _ _ _ _ _ Hwr) as Hm1.
    apply cell_write_spec in Hwr as (_ & Hval & _ & _ & Hsl1 & He1 & [Hin1 Htr1]).
    simpl in Hval.
    destruct (IH w1 Hnd H) as (zs & HF & Htr & Hin & Hfr & Hm & Hc & Hu).
    assert (∀ r c, (r, c) ≠ (row, SNums.FIVE) →
                   slot_at (worksheet w1) r c = slot_at (worksheet w) r c) as Hsl.
    { intros r c Hrc. by rewrite Hsl1, Hws4, Hsl3. }
    exists (z :: zs). split_and!.
    + constructor; [|done]. unfold value_at. rewrite Hfr; [exact Hval |].
      intros [? _]. done.
    + rewrite Htr, Htr1, Htr4, Htr3, <- app_assoc. f_equal.
      unfold readings_round at 2. simpl. f_equal.
      apply readings_round_ext. intros r _. unfold value_at. rewrite Hsl; [done |].
      by intros [= _ ?].
    + rewrite fmap_cons. simpl. by rewrite <- Hin3, Hin4, <- Hin1, Hin.
    + intros r c Hrc. rewrite Hfr, Hsl; [done | |].
      * intros [= -> ->]. apply Hrc. split; [by left | done].
      * intros [? ?]. apply Hrc. split; [by right | done].
    + rewrite Hm, Hm1, Hws4. done.
    + rewrite Hc. rewrite (eff_config _ _ _ _ (He1 (λ _, True) (λ _, True) I)), Hc4.
      apply (eff_config _ _ _ _ (He3 (λ _, True) (λ _, True) (or_introl I))).
    + rewrite Hu. rewrite (eff_update _ _ _ _ (He1 (λ _, True) (λ _, True) I)), Hu4.
      apply (eff_update _ _ _ _ (He3 (λ _, True) (λ _, True) (or_introl I))).
Qed.

(** The recap with its question and answer. *)
Lemma recap_answer_spec label col method w w' :
  _recap_and_edit_column label col method w = Done (tt, w') →
  ∃ again w1,
    (∀ r c, slot_at (worksheet w1) r c = slot_at (worksheet w) r c) ∧
    merged_cells (worksheet w1) = merged_cells (worksheet w) ∧
    transcript w1 = transcript w ++ [(AskModifyAny label, RYesNo again)] ∧
    stdin w = RYesNo again :: stdin w1 ∧
    config_data w1 = config_data w ∧ config_update w1 = config_update w ∧
    (if again then method w1 = Done (tt, w') else w' = w1).
Proof.
  intros H. unfold _recap_and_edit_column in H.
  apply bind_done in H as ([n s] & w0 & Hblock & H).
  apply _get_usage_block_info_spec in Hblock as (-> & _ & _).
  apply bind_done in H as ([] & w1 & Hreads & H).
  assert (merged_cells (worksheet w1) = merged_cells (worksheet w)) as Hm.
  { revert Hreads. generalize (range s (s + n)). intros rows. revert w.
    induction rows as [|row rows IH]; intros w Hreads; simpl in Hreads.
    - by apply ret_done in Hreads as [_ <-].
    - apply bind_done in Hreads as ([] & w2 & Hbody & Hreads).
      rewrite (IH _ Hreads).
      apply bind_done in Hbody as (v1 & w3 & H1 & Hbody).
      apply bind_done in Hbody as (v2 & w4 & H2 & Hbody).
      apply ret_done in Hbody as [_ <-].
      assert (∀ r c v wa wb, cell_value r c wa = Done (v, wb) →
                merged_cells (worksheet wb) = merged_cells (worksheet wa)) as Hcv.
      { intros r c v wa wb Hcv. unfold cell_value in Hcv.
        apply bind_done in Hcv as (ws & w5 & Hws & Hcv). injection Hws as <- <-.
        apply bind_done in Hcv as ([v5 ws5] & w6 & Hread & Hcv).
        apply lift_done in Hread as [Hread <-].
        apply bind_done in Hcv as ([] & w7 & Hput & Hret).
        apply ret_done in Hret as [_ <-]. injection Hput as <-. simpl.
        unfold ws_read in Hread. destruct ((r <? 1) || (c <? 1)); [discriminate |].
        destruct (_get_cell (worksheet wa) r c) as [s6 ws6] eqn:Hcell.
        injection Hread as _ <-. by eapply _get_cell_merged. }
      rewrite (Hcv _ _ _ _ _ H2). by eapply Hcv. }
  apply recap_reads_spec in Hreads as (Hsl & He & [Hin Htr]).
  apply bind_done in H as (ans & w2 & Hans & H).
  apply inputYesNo_spec in Hans as (b & -> & Hin2 & Htr2 & Hws2 & Hc2 & Hu2).
  rewrite yes_no_agree in H.
  exists b, w2. split_and!.
  - intros r c. by rewrite Hws2.
  - by rewrite Hws2.
  - by rewrite Htr2, Htr.
  - by rewrite <- Hin.
  - rewrite Hc2. apply (eff_config _ _ _ _ (He (λ _, True) (λ _, True) (λ _ _, or_introl I))).
  - rewrite Hu2. apply (eff_update _ _ _ _ (He (λ _, True) (λ _, True) (λ _ _, or_introl I))).
  - destruct b; [done |]. by apply ret_done in H as [_ <-].
Qed.

Lemma _get_raw_readings_rec_spec fuel w w' n s :
  config_data w !! CKeys.RADIATORS_OWNED = Some (VInt n) →
  config_data w !! CKeys.START_ROW = Some (VInt s) →
  _get_raw_readings_rec fuel w = Done (tt, w') →
  let rows := range s (s + n) in
  ∃ attempts zs,
    transcript w' = transcript w
                    ++ concat (reviewed_round (worksheet w) rows true <$> attempts)
                    ++ reviewed_round (worksheet w) rows false zs ∧
    Forall2 (λ row z, value_at (worksheet w') row SNums.FIVE = VInt z) rows zs ∧
    (∀ r c, ¬ (s ≤ r < s + n ∧ c = SNums.FIVE) →
            slot_at (worksheet w') r c = slot_at (worksheet w) r c) ∧
    merged_cells (worksheet w') = merged_cells (worksheet w) ∧
    config_data w' = config_data w ∧ config_update w' = config_update w.
Proof.
  intros Hn Hs H rows. revert w Hn Hs H.
  induction fuel as [|fuel IH]; intros w Hn Hs H; simpl in H; [discriminate |].
  apply bind_done in H as ([n' s'] & w0 & Hblock & H).
  apply _get_usage_block_info_spec in Hblock as (-> & Hn' & Hs'). simplify_eq.
  apply bind_done in H as ([] & w1 & Hfill & H).
  apply readings_round_spec in Hfill as (zs & HF & Htr & _ & Hfr & Hm & Hc & Hu);
    [|apply NoDup_range].
  apply recap_answer_spec in H as (again & w2 & Hsl2 & Hm2 & Htr2 & _ & Hc2 & Hu2 & Hend).
  assert (∀ r c, ¬ (s ≤ r < s + n ∧ c = SNums.FIVE) →
                 slot_at (worksheet w2) r c = slot_at (worksheet w) r c) as Hfr2.
  { intros r c Hrc. rewrite Hsl2. apply Hfr. intros [Hin ->]. apply Hrc.
    by apply elem_of_range in Hin. }
  destruct again.
  - apply IH in Hend as (attempts & zs' & Htr' & HF' & Hfr' & Hm' & Hc' & Hu');
      [| congruence | congruence].
    exists (zs :: attempts), zs'. split_and!; try congruence.
    + rewrite Htr', Htr2, Htr. rewrite fmap_cons. simpl.
      assert (∀ again l, reviewed_round (worksheet w2) rows again l
                         = reviewed_round (worksheet w) rows again l) as Hext.
      { intros again l. unfold reviewed_round. f_equal. apply readings_round_ext.
        intros row Hrow. unfold value_at. rewrite Hfr2; [done |]. intros [_ ?]. done. }
      rewrite Hext.
      rewrite (list_fmap_ext (reviewed_round (worksheet w2) rows true)
                 (reviewed_round (worksheet w) rows true) attempts)
        by (intros; apply Hext).
      assert (∀ ws b l, reviewed_round ws rows b l
                        = readings_round ws rows l ++ [(AskModifyAny "raw reading", RYesNo b)])
        as Hround by done.
      rewrite !Hround. fold rows. by rewrite <- !app_assoc.
    + intros r c Hrc. by rewrite Hfr', Hfr2.
  - subst w'. exists [], zs. split_and!; try congruence.
    + simpl. rewrite Htr2, Htr. unfold reviewed_round. by rewrite <- app_assoc.
    + eapply Forall2_impl; [exact HF |]. intros row z Hv. simpl in Hv.
      unfold value_at. by rewrite Hsl2.
    + exact Hfr2.
Qed.

(** X3.  The raw readings that stand in a block are those of the last round
    of entry.  When [_get_raw_readings] returns, the dialogue was any number
    of rounds that the user asked to modify, followed by one round that was
    left as it is; column 5 of every device row holds the integer answered
    for it in that last round, and no other coordinate changed. *)
Theorem raw_readings_are_those_of_the_last_round (w w' : world) (n s : Z) :
  config_data w !! CKeys.RADIATORS_OWNED = Some (VInt n) →
  config_data w !! CKeys.START_ROW = Some (VInt s) →
  _get_raw_readings w = Done (tt, w') →
  let rows := range s (s + n) in
  ∃ attempts zs,
    transcript w' = transcript w
                    ++ concat (reviewed_round (worksheet w) rows true <$> attempts)
                    ++ reviewed_round (worksheet w) rows false zs ∧
    Forall2 (λ row z, value_at (worksheet w') row 5 = VInt z) rows zs ∧
    (∀ r c, ¬ (s ≤ r < s + n ∧ c = 5) →
            slot_at (worksheet w') r c = slot_at (worksheet w) r c) ∧
    config_data w' = config_data w.
Proof.
  intros Hn Hs H rows. apply with_fuel_done in H as [fuel H].
  destruct (_get_raw_readings_rec_spec _ _ _ n s Hn Hs H)
    as (attempts & zs & Htr & HF & Hfr & _ & Hc & _).
  by exists attempts, zs.
Qed.

Lemma datetime_date_Ok y m d date_obj :
  datetime_date y m d = Ok date_obj →
  date_obj = mkDate y m d ∧ 1 ≤ y ≤ 9999 ∧ 1 ≤ m ≤ 12 ∧ 1 ≤ d ≤ days_in_month y m.
Proof.
  unfold datetime_date. destruct ((y <? - 2 ^ 31) || (2 ^ 31 <=? y)); [discriminate |].
  destruct ((1 <=? y) && (y <=? 9999) && (1 <=? m) && (m <=? 12) && (1 <=? d)
            && (d <=? days_in_month y m)) eqn:E; [|discriminate].
  intros [= <-]. repeat (apply andb_true_iff in E as [E ?]).
  repeat match goal with H : (_ <=? _) = true |- _ => apply Z.leb_le in H end.
  split; [done | lia].
Qed.

Lemma _get_date_manually_loop_confirmed fuel w str w' :
  _get_date_manually_loop fuel w = Done (str, w') →
  ∃ d earlier,
    datetime_date (year d) (month d) (day d) = Ok d ∧
    str = strftime d (date_format_of (config_data w)) ∧
    transcript w' = transcript w ++ earlier ++ confirmed_date_entry d str ∧
    worksheet w' = worksheet w ∧ config_data w' = config_data w ∧
    config_update w' = config_update w.
Proof.
  revert w. induction fuel as [|fuel IH]; intros w H; simpl in H; [discriminate |].
  apply bind_done in H as ([[dd mm] yy] & w1 & H1 & H).
  unfold _prompt_date in H1.
  apply bind_done in H1 as (d1 & wa & Hd & H1).
  apply bind_done in H1 as (m1 & wb & Hm & H1).
  apply bind_done in H1 as (y1 & wc & Hy & H1).
  apply ret_done in H1 as [[= -> -> ->] ->].
  apply inputInt_spec in Hd as (_ & _ & Htra & Hwsa & Hca & Hua).
  apply inputInt_spec in Hm as (_ & _ & Htrb & Hwsb & Hcb & Hub).
  apply inputInt_spec in Hy as (_ & _ & Htrc & Hwsc & Hcc & Huc).
  apply bind_done in H as (o & w2 & H2 & H).
  unfold _check_date in H2.
  destruct (datetime_date yy mm dd) as [date_obj|e] eqn:Hdate.
  - apply ret_done in H2 as [<- <-].
    apply bind_done in H as (formatted & w3 & H3 & H).
    apply _format_date_spec in H3 as [-> ->].
    apply bind_done in H as (d & w4 & H4 & H).
    unfold _confirm_date in H4.
    apply bind_done in H4 as (ans & w5 & H4 & H5).
    apply inputYesNo_spec in H4 as (b & -> & _ & Htr5 & Hws5 & Hc5 & Hu5).
    rewrite yes_no_agree in H5.
    apply datetime_date_Ok in Hdate as Hok. destruct Hok as (-> & _).
    destruct b.
    + apply ret_done in H5 as [<- <-]. simpl in H.
      destruct (negb _) eqn:Hneg.
      * apply ret_done in H as [<- <-].
        exists (mkDate yy mm dd), []. simpl.
        split_and!; try congruence.
        rewrite Htr5, Htrc, Htrb, Htra, <- !app_assoc. simpl.
        unfold confirmed_date_entry. simpl. by rewrite Hcc, Hcb, Hca.
      * apply IH in H as (d & earlier & Hd & -> & Htr & Hws & Hc & Hu).
        exists d, ([(AskDay, RInt dd); (AskMonth, RInt mm); (AskYear, RInt yy);
                    (AskConfirmDate (strftime (mkDate yy mm dd)
                                       (date_format_of (config_data w1))), RYesNo true)]
                   ++ earlier).
        split_and!; try congruence.
        by rewrite Htr, Htr5, Htrc, Htrb, Htra, <- !app_assoc.
    + apply ret_done in H5 as [<- <-]. simpl in H.
      apply IH in H as (d & earlier & Hd & -> & Htr & Hws & Hc & Hu).
      exists d, ([(AskDay, RInt dd); (AskMonth, RInt mm); (AskYear, RInt yy);
                  (AskConfirmDate (strftime (mkDate yy mm dd)
                                     (date_format_of (config_data w1))), RYesNo false)]
                 ++ earlier).
      split_and!; try congruence.
      by rewrite Htr, Htr5, Htrc, Htrb, Htra, <- !app_assoc.
  - destruct e; try discriminate. apply ret_done in H2 as [<- <-].
    apply IH in H as (d & earlier & Hd & -> & Htr & Hws & Hc & Hu).
    exists d, ([(AskDay, RInt dd); (AskMonth, RInt mm); (AskYear, RInt yy)] ++ earlier).
    split_and!; try congruence.
    by rewrite Htr, Htrc, Htrb, Htra, <- !app_assoc.
Qed.

(** X4.  A date entered by hand is a date of the calendar that the user
    confirmed.  When [_get_date_manually] returns, the string it returns is
    the configured format of a date that [datetime.date] accepts (the month
    between 1 and 12, the day within the month, leap years counted), the
    dialogue ends with the entry of that day, month and year and a yes to
    the confirmation of that very string, and neither the worksheet nor the
    configuration changed. *)
Theorem manual_date_is_valid_and_confirmed (w w' : world) (str : string) :
  _get_date_manually w = Done (str, w') →
  ∃ d earlier,
    1 ≤ year d ≤ 9999 ∧ 1 ≤ month d ≤ 12 ∧
    1 ≤ day d ≤ days_in_month (year d) (month d) ∧
    str = strftime d (date_format_of (config_data w)) ∧
    transcript w' = transcript w ++ earlier ++ confirmed_date_entry d str ∧
    worksheet w' = worksheet w ∧ config_data w' = config_data w ∧
    config_update w' = config_update w.
Proof.
  intros H. apply with_fuel_done in H as [fuel H].
  apply _get_date_manually_loop_confirmed in H
    as (d & earlier & Hd & Hstr & Htr & Hws & Hc & Hu).
  apply datetime_date_Ok in Hd as (_ & ? & ? & ?).
  exists d, earlier. split_and!; try done; try lia.
Qed.

End Entry.

(** * Actual values and total: when they go through, and when they stop *)

Section Computation.

Context {rt : PyRuntime} (host : Host).

Lemma for_each_app {A} (l1 l2 : list A) (body : A → M unit) w :
  for_each (l1 ++ l2) body w = (_ ← for_each l1 body; for_each l2 body) w.
Proof.
  revert w. induction l1 as [|x l1 IH]; intros w; simpl; [done |].
  unfold mbind, M_bind in *. destruct (body x w) as [[[] w1]| |]; [apply IH | done | done].
Qed.

Lemma range_split a k b : a ≤ k < b → range a b = range a k ++ k :: range (k + 1) b.
Proof.
  intros Hk. unfold range. replace (b - a) with ((k - a) + (b - k)) by lia.
  rewrite seqZ_app by lia. f_equal. replace (a + (k - a)) with k by lia.
  rewrite (seqZ_cons k) by lia. f_equal. f_equal; lia.
Qed.

Lemma _get_usage_block_info_run w n s :
  config_data w !! CKeys.RADIATORS_OWNED = Some (VInt n) →
  config_data w !! CKeys.START_ROW = Some (VInt s) →
  _get_usage_block_info w = Done ((n, s), w).
Proof.
  intros Hn Hs. unfold _get_usage_block_info, get_radiators_owned, config_getitem,
    mbind, M_bind, get_config. simpl. rewrite Hn. simpl. by rewrite Hs.
Qed.

(** The product of one row, when its coefficient and reading are there. *)
Lemma _compute_actual_value_run row w :
  1 ≤ row →
  ∃ w1,
    (∀ r c, slot_at (worksheet w1) r c = slot_at (worksheet w) r c) ∧
    merged_cells (worksheet w1) = merged_cells (worksheet w) ∧
    config_data w1 = config_data w ∧ config_update w1 = config_update w ∧
    io_same w w1 ∧
    _compute_actual_value row w
      = lift (py_mul (value_at (worksheet w) row SNums.FOUR)
                     (value_at (worksheet w) row SNums.FIVE)) w1.
Proof.
  intros Hrow.
  destruct (cell_value_total row SNums.FOUR w) as [wa Ha]; [done | done |].
  destruct (cell_value_total row SNums.FIVE wa) as [wb Hb]; [done | done |].
  pose proof (cell_value_spec _ _ _ _ _ Ha) as (_ & _ & Hsla & Hea & [Hia Hta]).
  pose proof (cell_value_spec _ _ _ _ _ Hb) as (_ & _ & Hslb & Heb & [Hib Htb]).
  assert (∀ r c v wx wy, cell_value r c wx = Done (v, wy) →
            merged_cells (worksheet wy) = merged_cells (worksheet wx)) as Hcv.
  { intros r c v wx wy Hcv. unfold cell_value in Hcv.
    apply bind_done in Hcv as (ws & w5 & Hws & Hcv). injection Hws as <- <-.
    apply bind_done in Hcv as ([v5 ws5] & w6 & Hread & Hcv).
    apply lift_done in Hread as [Hread <-].
    apply bind_done in Hcv as ([] & w7 & Hput & Hret).
    apply ret_done in Hret as [_ <-]. injection Hput as <-. simpl.
    unfold ws_read in Hread. destruct ((r <? 1) || (c <? 1)); [discriminate |].
    destruct (_get_cell (worksheet wx) r c) as [s6 ws6] eqn:Hcell.
    injection Hread as _ <-. by eapply _get_cell_merged. }
  exists wb. split_and!.
  - intros r c. by rewrite Hslb, Hsla.
  - rewrite (Hcv _ _ _ _ _ Hb). by eapply Hcv.
  - rewrite (eff_config _ _ _ _ (Heb (λ _, True) (λ _, True) (or_introl I))).
    apply (eff_config _ _ _ _ (Hea (λ _, True) (λ _, True) (or_introl I))).
  - rewrite (eff_update _ _ _ _ (Heb (λ _, True) (λ _, True) (or_introl I))).
    apply (eff_update _ _ _ _ (Hea (λ _, True) (λ _, True) (or_introl I))).
  - split; congruence.
  - unfold _compute_actual_value.
    rewrite (bind_run _ _ _ _ _ Ha), (bind_run _ _ _ _ _ Hb).
    unfold value_at. by rewrite Hsla.
Qed.

(** The products of rows that hold integers. *)
Lemma actual_values_run rows w (coefficients readings : list Z) :
  NoDup rows → (∀ row, row ∈ rows → 1 ≤ row) →
  Forall2 (λ row k, value_at (worksheet w) row SNums.FOUR = VInt k) rows coefficients →
  Forall2 (λ row z, value_at (worksheet w) row SNums.FIVE = VInt z) rows readings →
  (∀ row, row ∈ rows → slot_at (worksheet w) row SNums.SIX ≠ MergedCell) →
  ∃ w',
    _fill_col rows _compute_actual_value SNums.SIX w = Done (tt, w') ∧
    Forall2 (λ row p, value_at (worksheet w') row SNums.SIX = VInt p)
            rows (zip_with Z.mul coefficients readings) ∧
    (∀ r c, ¬ (r ∈ rows ∧ c = SNums.SIX) →
            slot_at (worksheet w') r c = slot_at (worksheet w) r c) ∧
    merged_cells (worksheet w') = merged_cells (worksheet w) ∧
    config_data w' = config_data w ∧ config_update w' = config_update w ∧
    io_same w w'.
Proof.
  unfold _fill_col. revert w coefficients readings.
  induction rows as [|row rows IH]; intros w coefficients readings Hnd Hpos Hk Hz Hplain.
  - apply Forall2_nil_inv_l in Hk as ->. apply Forall2_nil_inv_l in Hz as ->.
    exists w. by split_and!.
  - apply Forall2_cons_inv_l in Hk as (k & ks & Hk & Hks & ->).
    apply Forall2_cons_inv_l in Hz as (z & zs & Hz & Hzs & ->).
    apply NoDup_cons in Hnd as [Hnotin Hnd].
    destruct (_compute_actual_value_run row w) as (w1 & Hsl1 & Hm1 & Hc1 & Hu1 & Hio1 & Hrun1);
      [apply Hpos; by left |].
    rewrite Hk, Hz in Hrun1. simpl in Hrun1.
    destruct (cell_write_total row SNums.SIX (VInt (k * z)) w1) as [w2 Hwr];
      [apply Hpos; by left | done | |].
    { right. rewrite Hsl1. apply Hplain. by left. }
    pose proof (cell_write_merged _ _ _ _ _ Hwr) as Hm2.
    pose proof (cell_write_spec _ _ _ _ _ Hwr) as (_ & Hval & _ & _ & Hsl2 & He2 & Hio2).
    simpl in Hval.
    assert (∀ r c, (r, c) ≠ (row, SNums.SIX) →
                   slot_at (worksheet w2) r c = slot_at (worksheet w) r c) as Hsl.
    { intros r c Hrc. by rewrite Hsl2, Hsl1. }
    destruct (IH w2 ks zs) as (w' & Hrun & HF & Hfr & Hm & Hc & Hu & Hio).
    + done.
    + intros; apply Hpos; by right.
    + eapply Forall2_impl; [exact Hks |]. intros r k' Hr. simpl in *.
      unfold value_at. rewrite Hsl; [done |]. by intros [= _ ?].
    + eapply Forall2_impl; [exact Hzs |]. intros r z' Hr. simpl in *.
      unfold value_at. rewrite Hsl; [done |]. by intros [= _ ?].
    + intros r Hr. rewrite Hsl; [apply Hplain; by right |]. intros [= ->]. done.
    + exists w'. split_and!.
      * cbn [for_each]. erewrite bind_run; [exact Hrun |].
        erewrite bind_run; [exact Hwr | exact Hrun1].
      * simpl. constructor; [|done]. unfold value_at. rewrite Hfr; [exact Hval |].
        intros [? _]. done.
      * intros r c Hrc. rewrite Hfr, Hsl; [done | |].
        -- intros [= -> ->]. apply Hrc. split; [by left | done].
        -- intros [? ?]. apply Hrc. split; [by right | done].
      * congruence.
      * rewrite Hc, (eff_config _ _ _ _ (He2 (λ _, True) (λ _, True) I)). done.
      * rewrite Hu, (eff_update _ _ _ _ (He2 (λ _, True) (λ _, True) I)). done.
      * destruct Hio1, Hio2, Hio. split; congruence.
Qed.

(** Reading a column over rows that exist as row numbers. *)
Lemma read_column_run rows col w :
  (∀ row, row ∈ rows → 1 ≤ row) → 1 ≤ col →
  ∃ w', for_list rows (λ row, cell_value row col) w
        = Done ((λ row, value_at (worksheet w) row col) <$> rows, w').
Proof.
  intros Hpos Hcol. revert w Hpos.
  induction rows as [|row rows IH]; intros w Hpos; [by eexists |].
  destruct (cell_value_total row col w) as [w1 H1]; [apply Hpos; by left | done |].
  pose proof (cell_value_spec _ _ _ _ _ H1) as (_ & _ & Hsl & _).
  destruct (IH w1) as [w' H']; [intros; apply Hpos; by right |].
  exists w'. cbn [for_list]. rewrite (bind_run _ _ _ _ _ H1), (bind_run _ _ _ _ _ H').
  rewrite fmap_cons.
  rewrite (list_fmap_ext (λ row, value_at (worksheet w1) row col)
             (λ row, value_at (worksheet w) row col) rows); [done |].
  intros _ r _. unfold value_at. by rewrite Hsl.
Qed.

Lemma Forall2_values_fmap {A} (f : Z → pyval) (g : A → pyval) rows (xs : list A) :
  Forall2 (λ row x, f row = g x) rows xs → f <$> rows = g <$> xs.
Proof. induction 1 as [|row x rows xs E _ IH]; [done |]. by rewrite !fmap_cons, E, IH. Qed.

(** X5.  On a block whose device rows hold integer coefficients and integer
    raw readings, and whose target cells are not merged placeholders, the
    actual values and the total go through, one after the other: column 6 of
    each device row holds the product of its coefficient and its reading,
    and column 7 of the row below the block holds the sum of these
    products. *)
Theorem integer_block_is_computed_and_totalled
    (w : world) (n s : Z) (coefficients readings : list Z) :
  config_data w !! CKeys.RADIATORS_OWNED = Some (VInt n) →
  config_data w !! CKeys.START_ROW = Some (VInt s) →
  1 ≤ s → 0 ≤ n →
  Forall2 (λ row k, value_at (worksheet w) row 4 = VInt k) (range s (s + n)) coefficients →
  Forall2 (λ row z, value_at (worksheet w) row 5 = VInt z) (range s (s + n)) readings →
  (∀ row, s ≤ row < s + n → slot_at (worksheet w) row 6 ≠ MergedCell) →
  slot_at (worksheet w) (s + n) 7 ≠ MergedCell →
  ∃ w1 w2,
    _get_actual_values w = Done (tt, w1) ∧
    _get_total w1 = Done (tt, w2) ∧
    Forall2 (λ row p, value_at (worksheet w2) row 6 = VInt p)
            (range s (s + n)) (zip_with Z.mul coefficients readings) ∧
    value_at (worksheet w2) (s + n) 7
      = VInt (sum_list_Z (zip_with Z.mul coefficients readings)).
Proof.
  intros Hn Hs Hs1 Hn0 Hk Hz Hplain Htotal.
  destruct (actual_values_run (range s (s + n)) w coefficients readings)
    as (w1 & Hrun1 & HF1 & Hfr1 & _ & Hc1 & _ & _); try done.
  { apply NoDup_range. }
  { intros row Hrow%elem_of_range. lia. }
  { intros row Hrow%elem_of_range. by apply Hplain. }
  destruct (read_column_run (range s (s + n)) SNums.SIX w1) as [w2 Hread]; [|done |].
  { intros row Hrow%elem_of_range. lia. }
  rewrite (Forall2_values_fmap _ VInt _ _ HF1) in Hread.
  pose proof (read_column_spec _ _ _ _ _ Hread) as (_ & Hsl2 & He2 & _).
  destruct (cell_write_total (s + n) SNums.SEVEN
              (VInt (sum_list_Z (zip_with Z.mul coefficients readings))) w2)
    as [w3 Hwr]; [lia | done | |].
  { right. rewrite Hsl2, Hfr1; [done |]. intros [_ ?]. done. }
  pose proof (cell_write_spec _ _ _ _ _ Hwr) as (_ & Hval & _ & _ & Hsl3 & _).
  exists w1, w3. split_and!.
  - unfold _get_actual_values.
    by rewrite (bind_run _ _ _ _ _ (_get_usage_block_info_run w n s Hn Hs)).
  - unfold _get_total.
    rewrite (bind_run _ _ _ _ _ (_get_usage_block_info_run w1 n s
                                  ltac:(by rewrite Hc1) ltac:(by rewrite Hc1))).
    cbn beta iota. rewrite (bind_run _ _ _ _ _ Hread). rewrite py_sum_ints. simpl.
    exact Hwr.
  - eapply Forall2_impl; [exact HF1 |]. intros row p Hp. simpl in *.
    unfold value_at. rewrite Hsl3, Hsl2; [exact Hp |]. by intros [= _ ?].
  - exact Hval.
Qed.

(** X6.  [_get_actual_values] stops at the first device row whose product
    Python refuses.  If the rows before it hold integer coefficients and
    readings, the run raises the exception of that row's product: a
    TypeError when the coefficient or the reading is missing. *)
Theorem actual_values_stop_at_the_first_refused_product
    (w : world) (n s k : Z) (coefficients readings : list Z) (e : exn) :
  config_data w !! CKeys.RADIATORS_OWNED = Some (VInt n) →
  config_data w !! CKeys.START_ROW = Some (VInt s) →
  1 ≤ s → 0 ≤ k < n →
  Forall2 (λ row c, value_at (worksheet w) row 4 = VInt c) (range s (s + k)) coefficients →
  Forall2 (λ row z, value_at (worksheet w) row 5 = VInt z) (range s (s + k)) readings →
  (∀ row, s ≤ row < s + k → slot_at (worksheet w) row 6 ≠ MergedCell) →
  py_mul (value_at (worksheet w) (s + k) 4) (value_at (worksheet w) (s + k) 5) = Err e →
  _get_actual_values w = Raise e ∧
  (value_at (worksheet w) (s + k) 4 = VNone ∨ value_at (worksheet w) (s + k) 5 = VNone →
   e = TypeError).
Proof.
  intros Hn Hs Hs1 Hk Hc Hz Hplain Herr. split.
  - unfold _get_actual_values.
    rewrite (bind_run _ _ _ _ _ (_get_usage_block_info_run w n s Hn Hs)). cbn beta iota.
    rewrite (range_split s (s + k) (s + n)) by lia.
    destruct (actual_values_run (range s (s + k)) w coefficients readings)
      as (w1 & Hrun1 & _ & Hfr1 & _); try done.
    { apply NoDup_range. }
    { intros row Hrow%elem_of_range. lia. }
    { intros row Hrow%elem_of_range. by apply Hplain. }
    unfold _fill_col in *. rewrite for_each_app.
    rewrite (bind_run _ _ _ _ _ Hrun1). cbn [for_each].
    destruct (_compute_actual_value_run (s + k) w1) as (w2 & _ & _ & _ & _ & _ & Hrun2);
      [lia |].
    apply bind_raise. apply bind_raise. rewrite Hrun2.
    unfold value_at. rewrite !Hfr1 by (intros [_ ?]; done).
    fold (value_at (worksheet w) (s + k) SNums.FOUR).
    fold (value_at (worksheet w) (s + k) SNums.FIVE).
    change SNums.FOUR with 4. change SNums.FIVE with 5. by rewrite Herr.
  - intros [Hnone|Hnone]; rewrite Hnone in Herr; simpl in Herr.
    + by injection Herr as <-.
    + destruct (value_at (worksheet w) (s + k) 4); by injection Herr as <-.
Qed.

Lemma numbers_of_not_number l v :
  v ∈ l → (v = VNone ∨ ∃ str, v = VStr str) → numbers_of l = None.
Proof.
  intros Hin Hv. induction l as [|x l IH]; [by apply elem_of_nil in Hin |].
  apply elem_of_cons in Hin as [<-|Hin].
  - by destruct Hv as [->|[str ->]].
  - destruct x; simpl; try done; by rewrite (IH Hin).
Qed.

(** X7.  [_get_total] cannot total a block in which an actual value is
    missing or is a string (the product of a coefficient stored as text):
    with whole numbers, if any, in the rows before it, the builtin [sum]
    raises TypeError, and no total is written. *)
Theorem total_refuses_a_missing_or_text_actual_value
    (w : world) (n s k : Z) (actual_values : list Z) :
  config_data w !! CKeys.RADIATORS_OWNED = Some (VInt n) →
  config_data w !! CKeys.START_ROW = Some (VInt s) →
  1 ≤ s → 0 ≤ k < n →
  Forall2 (λ row p, value_at (worksheet w) row 6 = VInt p) (range s (s + k)) actual_values →
  (value_at (worksheet w) (s + k) 6 = VNone ∨
   ∃ str, value_at (worksheet w) (s + k) 6 = VStr str) →
  _get_total w = Raise TypeError.
Proof.
  intros Hn Hs Hs1 Hk _ Hbad.
  unfold _get_total.
  rewrite (bind_run _ _ _ _ _ (_get_usage_block_info_run w n s Hn Hs)). cbn beta iota.
  destruct (read_column_run (range s (s + n)) SNums.SIX w) as [w1 Hread]; [|done |].
  { intros row Hrow%elem_of_range. lia. }
  rewrite (bind_run _ _ _ _ _ Hread). apply bind_raise.
  unfold py_sum. erewrite numbers_of_not_number; [done | | exact Hbad].
  apply list_elem_of_fmap. exists (s + k). split; [done |]. apply elem_of_range. lia.
Qed.

End Computation.

(** * The block that a completed run leaves *)

Section Block.

Context {rt : PyRuntime} (host : Host).

Lemma _fill_dates_values w w' :
  _fill_dates host w = Done (tt, w') →
  ∃ n s formatted,
    config_data w !! CKeys.RADIATORS_OWNED = Some (VInt n) ∧
    config_data w !! CKeys.START_ROW = Some (VInt s) ∧
    (∀ row, s ≤ row ≤ s + n → value_at (worksheet w') row 1 = VStr formatted) ∧
    (∀ r c, c ≠ 1 → slot_at (worksheet w') r c = slot_at (worksheet w) r c) ∧
    config_data w' = config_data w.
Proof.
  unfold _fill_dates. intros H.
  apply bind_done in H as (mode & w1 & H1 & H).
  apply config_getitem_spec in H1 as [-> Hmode].
  apply bind_done in H as (d & w1 & Hd & H).
  assert (talk w w1) as (Hws & Hcfg & _).
  { destruct (py_eq_str mode SCons.DATE_AUTO).
    - apply _format_date_spec in Hd as [-> _]. apply talk_refl.
    - by apply _get_date_manually_loop_spec in Hd as [? _]. }
  apply bind_done in H as ([n s] & w2 & Hinfo & H).
  apply _get_usage_block_info_spec in Hinfo as (-> & Hn & Hs).
  rewrite Hcfg in Hn, Hs. exists n, s, d.
  apply (_fill_col_spec (λ _ v, v = VStr d) (λ _, True) (λ _, True))
    in H as (He & Hrows & Hfr).
  - split_and!; try done.
    + intros row Hrow. destruct (Hrows row) as (v & -> & Hv); [|done].
      apply elem_of_range. unfold SNums.ONE. lia.
    + intros r c Hc. rewrite Hfr, Hws; [done |]. intros [_ ?]. done.
    + by rewrite (eff_config _ _ _ _ He).
  - apply NoDup_range.
  - done.
  - intros row w3 v w4 _ _ Hv. apply ret_done in Hv as [<- <-].
    split_and!; try done. apply eff_refl.
Qed.

(** The valve settings step writes to column 8 only. *)
Lemma _manage_valve_settings_cols w w' n s :
  config_data w !! CKeys.RADIATORS_OWNED = Some (VInt n) →
  config_data w !! CKeys.START_ROW = Some (VInt s) →
  _manage_valve_settings host w = Done (tt, w') →
  (∀ r c, c ≠ 8 → slot_at (worksheet w') r c = slot_at (worksheet w) r c) ∧
  config_data w' = config_data w.
Proof.
  intros Hn Hs H. unfold _manage_valve_settings in H.
  destruct (usage_file_exists host); simpl in H.
  - unfold _update_valve_setting in H.
    apply bind_done in H as ([] & w1 & Hinfo & H).
    apply display_user_info_talk in Hinfo as (Hws1 & Hc1 & _).
    apply bind_done in H as ([n' s'] & w2 & Hblock & H).
    apply _get_usage_block_info_spec in Hblock as (-> & _ & _).
    apply bind_done in H as (last & w2 & Hlast & H).
    apply config_int_spec in Hlast as (-> & _).
    apply (for_each_inv
             (λ w2, (∀ r c, c ≠ 8 → slot_at (worksheet w2) r c = slot_at (worksheet w) r c) ∧
                    config_data w2 = config_data w) (λ _ _, True)) in H as [_ HI]; try done.
    + intros i w3 w4 _ [Hsl Hc] Hp. split; [done |].
      apply _process_valve_setting_update_spec in Hp as (_ & _ & _ & _ & _ & Hfr & He).
      split.
      * intros r c Hrc. rewrite Hfr; [by apply Hsl |]. intros [= _ ?]. done.
      * rewrite <- Hc. apply (eff_config (λ _, True) (λ _, True)). apply He; [done | by left].
    + split; [|done]. intros r c _. by rewrite Hws1.
  - apply bind_done in H as ([] & w1 & Henter & Hnote).
    apply with_fuel_done in Henter as [fuel Henter].
    apply (_enter_initial_valve_settings_rec_spec _ _ _ n s) in Henter
      as (_ & Hfr & He); try done.
    apply _add_valve_setting_note_spec in Hnote as (_ & Hfr2 & He2 & _).
    split.
    + intros r c Hc. rewrite Hfr2, Hfr; [done | |].
      * intros [_ ?]. done.
      * intros [= _ ?]. done.
    + rewrite (eff_config _ _ _ _ (He2 (λ _, True) (λ _, True) I)).
      apply (eff_config _ _ _ _ (He (λ _, True) (λ _, True) (λ _ _, I))).
Qed.

Lemma _get_actual_values_values w w' n s :
  config_data w !! CKeys.RADIATORS_OWNED = Some (VInt n) →
  config_data w !! CKeys.START_ROW = Some (VInt s) →
  _get_actual_values w = Done (tt, w') →
  (∀ row, s ≤ row < s + n →
     py_mul (value_at (worksheet w) row 4) (value_at (worksheet w) row 5)
       = Ok (value_at (worksheet w') row 6)) ∧
  (∀ r c, ¬ (s ≤ r < s + n ∧ c = 6) →
          slot_at (worksheet w') r c = slot_at (worksheet w) r c) ∧
  config_data w' = config_data w.
Proof.
  intros Hn Hs H. unfold _get_actual_values in H.
  apply bind_done in H as ([n' s'] & w1 & Hinfo & H).
  apply _get_usage_block_info_spec in Hinfo as (-> & Hn' & Hs'). simplify_eq.
  apply (_fill_col_spec
           (λ row v, py_mul (value_at (worksheet w) row SNums.FOUR)
                            (value_at (worksheet w) row SNums.FIVE) = Ok v)
           (λ _, True) (λ _, True)) in H as (He & Hrows & Hfr).
  - split_and!.
    + intros row Hrow.
      destruct (Hrows row) as (v & Hv & Hval); [by apply elem_of_range |].
      change 6 with SNums.SIX. by rewrite Hval.
    + intros r c Hrc. apply Hfr. intros [Hr ->]. apply Hrc.
      by apply elem_of_range in Hr.
    + by rewrite (eff_config _ _ _ _ He).
  - apply NoDup_range.
  - done.
  - intros row w2 v w3 Hrow [_ Hfill] Hv.
    apply _compute_actual_value_spec in Hv as (Hmul & Hsl & He & _).
    unfold value_at in Hmul. rewrite !Hfill in Hmul by (intros [_ ?]; done).
    split_and!; [done | apply He; by left | done | by eapply py_mul_not_none].
Qed.

(** The notes step writes to column 9 only, and leaves a note at the top of
    the block. *)
Lemma _get_notes_cols w w' n s :
  config_data w !! CKeys.RADIATORS_OWNED = Some (VInt n) →
  config_data w !! CKeys.START_ROW = Some (VInt s) →
  _get_notes w = Done (tt, w') →
  1 ≤ n ∧
  (∃ note, value_at (worksheet w') s 9 = VStr note) ∧
  (∀ r c, c ≠ 9 → slot_at (worksheet w') r c = slot_at (worksheet w) r c) ∧
  config_data w' = config_data w.
Proof.
  intros Hn Hs H. unfold _get_notes in H.
  apply bind_done in H as (ans & w1 & Hans & H).
  apply inputYesNo_spec in Hans as (b & -> & _ & _ & Hws1 & Hc1 & _).
  apply bind_done in H as (note & w2 & Hnote & H).
  assert (worksheet w2 = worksheet w ∧ config_data w2 = config_data w) as [Hws2 Hc2].
  { destruct (String.eqb _ _).
    - apply inputStr_spec in Hnote as (_ & _ & _ & Hws2 & Hc2 & _). split; congruence.
    - apply ret_done in Hnote as [_ <-]. done. }
  apply bind_done in H as ([] & w3 & Hmerge & H).
  apply (_merge_valve_cells_spec _ _ n s) in Hmerge
    as (Hn1 & _ & _ & _ & _ & Hfr3 & He3 & _); [| by rewrite Hc2 | by rewrite Hc2].
  pose proof (eff_config _ _ _ _ (He3 (λ _, True) (λ _, True) (λ _ _, I))) as Hc3.
  apply (_insert_note_spec _ _ _ s) in H as (Hval & Hfr4 & _ & He4 & _);
    [| by rewrite Hc3, Hc2].
  split_and!.
  - done.
  - by exists note.
  - intros r c Hc. rewrite Hfr4, Hfr3, Hws2; [done | |].
    + intros [_ ?]. done.
    + intros [= _ ?]. done.
  - rewrite (eff_config _ _ _ _ (He4 (λ _, True) (λ _, True) I)). congruence.
Qed.

(** Closes the side condition of a frame: the coordinate is another one. *)
Ltac other_cell :=
  first [ done | by intros [_ ?] | by intros [= _ ?] | by intros [= ? ?] ].

Lemma value_at_cell ws r c v : value_at ws r c = v → v ≠ VNone → is_Some (_cells ws !! (r, c)).
Proof.
  unfold value_at, slot_at. destruct (_cells ws !! (r, c)); [done |]. simpl.
  by intros <-.
Qed.

(** X8.  What a completed [_populate_usage host] leaves.  The block starts
    one row below the last row the ledger had and has at least one device
    row.  In the ledger that the run returns, one date string stands in
    column 1 of every device row and of the row below them; every device
    row holds an integer raw reading in column 5 and, in column 6, the
    product of its coefficient (column 4) and that reading; column 7 of the
    row below the device rows holds the sum of the actual values of the
    block; a note stands in column 9 of the first row; and the three rows of
    padding follow, so that the ledger ends at least three rows below the
    total.  No later step of the run disturbs what an earlier one wrote. *)
Theorem completed_run_leaves_a_consistent_block (w w' : world) :
  _populate_usage host w = Done (tt, w') →
  ∃ n s formatted note,
    s = max_row (worksheet w) + 1 ∧ 1 ≤ n ∧
    config_data w' !! CKeys.RADIATORS_OWNED = Some (VInt n) ∧
    config_data w' !! CKeys.START_ROW = Some (VInt s) ∧
    (∀ row, s ≤ row ≤ s + n → value_at (worksheet w') row 1 = VStr formatted) ∧
    (∀ row, s ≤ row < s + n →
       (∃ z, value_at (worksheet w') row 5 = VInt z) ∧
       py_mul (value_at (worksheet w') row 4) (value_at (worksheet w') row 5)
         = Ok (value_at (worksheet w') row 6)) ∧
    py_sum ((λ row, value_at (worksheet w') row 6) <$> range s (s + n))
      = Ok (value_at (worksheet w') (s + n) 7) ∧
    value_at (worksheet w') s 9 = VStr note ∧
    s + n + 3 ≤ max_row (worksheet w').
Proof.
  unfold _populate_usage. intros H.
  apply bind_done in H as ([] & w1 & H1 & H).
  rewrite _update_start_rows_spec in H1. injection H1 as <-.
  set (s := max_row (worksheet w) + 1) in *.
  set (w1 := mkWorld _ _ _ _ _) in H.
  apply bind_done in H as ([] & w2 & H2 & H).
  apply bind_done in H as ([] & w3 & H3 & H).
  apply bind_done in H as ([] & w4 & H4 & H).
  apply bind_done in H as ([] & w5 & H5 & H).
  apply bind_done in H as ([] & w6 & H6 & H).
  apply bind_done in H as ([] & w7 & H7 & H).
  apply bind_done in H as ([] & w8 & H8 & H).
  apply bind_done in H as ([] & w9 & H9 & H10).
  apply _fill_registry_data_eff in H2 as [_ E2].
  pose proof (eff_config _ _ _ _ (E2 (λ _, True) (λ _, True) (λ _ _, I))) as C2.
  apply display_user_info_talk in H3 as (_ & C3 & _).
  apply _fill_dates_values in H4 as (n & s' & formatted & Hn & Hs & D4 & F4 & C4).
  assert (s' = s) as ->.
  { rewrite C3, C2 in Hs. subst w1. simpl in Hs.
    rewrite lookup_insert_ne, lookup_insert_eq in Hs by done. by injection Hs. }
  rewrite <- C4 in Hn, Hs.
  apply (_manage_valve_settings_cols _ _ n s Hn Hs) in H5 as [F5 C5].
  rewrite <- C5 in Hn, Hs.
  apply with_fuel_done in H6 as [fuel H6].
  apply (_get_raw_readings_rec_spec _ _ _ n s Hn Hs) in H6
    as (_ & zs & _ & R6 & F6 & _ & C6 & _).
  rewrite <- C6 in Hn, Hs.
  apply (_get_actual_values_values _ _ n s Hn Hs) in H7 as (P7 & F7 & C7).
  rewrite <- C7 in Hn, Hs.
  apply _get_total_spec in H8 as (n' & s' & total & Hn' & Hs' & S8 & V8 & F8 & E8 & _).
  simplify_eq.
  pose proof (eff_config _ _ _ _ (E8 (λ _, True) (λ _, True) I (λ _ _, or_introl I))) as C8.
  rewrite <- C8 in Hn, Hs.
  apply (_get_notes_cols _ _ n s Hn Hs) in H9 as (Hn1 & (note & N9) & F9 & C9).
  rewrite <- C9 in Hn, Hs.
  destruct (_add_blank_lines_run w9) as (w10 & H10' & M10 & _ & F10 & _ & C10 & _).
  rewrite H10' in H10. injection H10 as ->.
  rewrite <- C10 in Hn, Hs.
  assert (∀ r, slot_at (worksheet w9) r 1 = slot_at (worksheet w4) r 1) as K1.
  { intros r. by rewrite F9, F8, F7, F6, F5 by other_cell. }
  assert (s + n ≤ max_row (worksheet w9)) as Hmax.
  { apply (max_row_ge _ _ 1). apply (value_at_cell _ _ _ (VStr formatted)); [|done].
    unfold value_at. rewrite K1. apply D4. lia. }
  assert (∀ r c, r ≤ s + n → slot_at (worksheet w') r c = slot_at (worksheet w9) r c) as K10.
  { intros r c Hr. apply F10. intros [? _]. lia. }
  assert (∀ r c, c ≠ 9 → c ≠ 7 → c ≠ 6 →
                 slot_at (worksheet w9) r c = slot_at (worksheet w6) r c) as K6.
  { intros r c ? ? ?. by rewrite F9, F8, F7 by other_cell. }
  assert (∀ r, slot_at (worksheet w9) r 6 = slot_at (worksheet w7) r 6) as K7.
  { intros r. by rewrite F9, F8 by other_cell. }
  exists n, s, formatted, note. split_and!; try done.
  - intros row Hrow. unfold value_at. rewrite K10, K1 by lia. by apply D4.
  - intros row Hrow.
    assert (value_at (worksheet w') row 4 = value_at (worksheet w6) row 4) as ->.
    { unfold value_at. by rewrite K10, K6 by (done || lia). }
    assert (value_at (worksheet w') row 5 = value_at (worksheet w6) row 5) as ->.
    { unfold value_at. by rewrite K10, K6 by (done || lia). }
    assert (value_at (worksheet w') row 6 = value_at (worksheet w7) row 6) as ->.
    { unfold value_at. by rewrite K10, K7 by lia. }
    split; [|by apply P7].
    assert (row ∈ range s (s + n)) as Hin by (by apply elem_of_range).
    apply list_elem_of_lookup in Hin as [i Hi].
    destruct (Forall2_lookup_l _ _ _ _ _ R6 Hi) as (z & _ & Hz). by exists z.
  - assert ((λ row, value_at (worksheet w') row 6) <$> range s (s + n)
            = (λ row, value_at (worksheet w7) row 6) <$> range s (s + n)) as ->.
    { apply list_fmap_ext. intros _ row Hrow%list_elem_of_lookup_2%elem_of_range.
      unfold value_at. by rewrite K10, K7 by lia. }
    rewrite S8. f_equal. unfold value_at. rewrite K10, F9 by (done || lia). done.
  - unfold value_at. rewrite K10 by lia. exact N9.
  - lia.
Qed.

End Block.

(** * A new ledger *)

Section NewLedger.

Context {rt : PyRuntime} (host : Host).

Lemma _current_row_ge ws r c : is_Some (_cells ws !! (r, c)) → r ≤ _current_row ws.
Proof. intros H. apply foldr_max_elem, elem_of_rows_of. eauto. Qed.

Lemma _current_row_empty ws : _cells ws = ∅ → _current_row ws = 0.
Proof. intros H. unfold _current_row, rows_of. by rewrite H, map_to_list_empty. Qed.

Lemma lookup_append_row (m : gmap (Z * Z) slot) (row start : Z) (values : list pyval) r c :
  foldr (λ '(col_idx, content) m,
           <[(row, col_idx) := Plain (mkCell content None None)]> m)
        m (zip (seqZ start (Z.of_nat (length values))) values) !! (r, c)
  = match (if decide (r = row ∧ start ≤ c) then values !! Z.to_nat (c - start) else None) with
    | Some v => Some (Plain (mkCell v None None))
    | None => m !! (r, c)
    end.
Proof.
  revert start. induction values as [|v values IH]; intros start.
  - simpl. by case_decide.
  - rewrite length_cons, Nat2Z.inj_succ, seqZ_cons by lia. simpl.
    replace (Z.pred (Z.succ (Z.of_nat (length values)))) with (Z.of_nat (length values)) by lia.
    destruct (decide ((row, start) = (r, c))) as [[= <- <-]|Hne].
    + rewrite lookup_insert_eq, decide_True by lia.
      by replace (Z.to_nat (start - start)) with 0%nat by lia.
    + rewrite lookup_insert_ne by done. rewrite IH.
      destruct (decide (r = row ∧ start ≤ c)) as [[-> Hc]|Hd].
      * assert (start < c) by (destruct (decide (start = c)) as [->|]; [done | lia]).
        rewrite decide_True by lia.
        replace (Z.to_nat (c - start)) with (S (Z.to_nat (c - Z.succ start))) by lia. done.
      * rewrite decide_False; [done |]. intros [? ?]. apply Hd. lia.
Qed.

Lemma _initialize_usage_sheet_run (w : world) :
  (usage_file_exists host = true → _initialize_usage_sheet host w = Done (tt, w)) ∧
  (usage_file_exists host = false →
   ∃ w',
     _initialize_usage_sheet host w = Done (tt, w') ∧
     let top := _current_row (worksheet w) + 1 in
     title (worksheet w') = "Radiators Usage"%string ∧
     freeze_panes (worksheet w') = Some "A2"%string ∧
     (∀ (i : nat) header,
        UsMeta.HEADERS !! i = Some header →
        value_at (worksheet w') top (Z.of_nat i + 1) = VStr header) ∧
     (∀ (i : nat) col header,
        UsMeta.COLS !! i = Some col → UsMeta.HEADERS !! i = Some header →
        column_width (worksheet w') !! col
          = Some (if decide (i = 8%nat) then 50
                  else Z.of_nat (String.length header) + 10)) ∧
     (∀ r c, r ≠ top → slot_at (worksheet w') r c = slot_at (worksheet w) r c) ∧
     (∀ r c, is_Some (_cells (worksheet w') !! (r, c)) ↔
             is_Some (_cells (worksheet w) !! (r, c)) ∨ (r = top ∧ 1 ≤ c ≤ 9)) ∧
     merged_cells (worksheet w') = merged_cells (worksheet w) ∧
     config_data w' = config_data w ∧ config_update w' = config_update w ∧
     stdin w' = stdin w ∧ transcript w' = transcript w).
Proof.
  unfold _initialize_usage_sheet. split; intros ->; cbn [negb]; [done |].
  eexists. split; [reflexivity |]. cbn [worksheet config_data config_update stdin transcript].
  set (ws1 := mkWorksheet (_cells (worksheet w)) _ _ _ _).
  assert (_current_row ws1 = _current_row (worksheet w)) as Htop by done.
  assert (∀ r c, _cells (ws_append ws1 (VStr <$> UsMeta.HEADERS)) !! (r, c)
                 = match (if decide (r = _current_row (worksheet w) + 1 ∧ 1 ≤ c)
                          then (VStr <$> UsMeta.HEADERS) !! Z.to_nat (c - 1) else None) with
                   | Some v => Some (Plain (mkCell v None None))
                   | None => _cells (worksheet w) !! (r, c)
                   end) as Hlook.
  { intros r c. unfold ws_append. rewrite Htop. apply lookup_append_row. }
  split_and!; try done.
  - intros i header Hi. unfold value_at, slot_at. rewrite Hlook.
    rewrite decide_True by lia.
    replace (Z.to_nat (Z.of_nat i + 1 - 1)) with i by lia.
    by rewrite list_lookup_fmap, Hi.
  - intros i col header Hc Hh.
    do 9 (destruct i as [|i];
          [injection Hc as <-; injection Hh as <-; simpl;
           repeat (rewrite lookup_insert_ne by done);
           by rewrite lookup_insert_eq |]).
    done.
  - intros r c Hr. unfold slot_at. rewrite Hlook. rewrite decide_False; [done |].
    intros [? _]. done.
  - intros r c. rewrite Hlook. case_decide as Hd.
    + destruct ((VStr <$> UsMeta.HEADERS) !! Z.to_nat (c - 1)) as [v|] eqn:Hv.
      * split; [|by eexists]. intros _. right. split; [apply Hd |].
        apply lookup_lt_Some in Hv. rewrite length_fmap in Hv. simpl in Hv. lia.
      * split; [by left |]. intros [?|[_ Hc]]; [done |].
        apply lookup_ge_None in Hv. rewrite length_fmap in Hv. simpl in Hv. lia.
    + split; [by left |]. intros [?|[-> Hc]]; [done |]. exfalso. apply Hd. lia.
Qed.

(** X9.  [_initialize_usage_sheet host] leaves an existing ledger alone.  On a
    new one it names the sheet, freezes the panes below the first row, sets
    the width of each column to the length of its header plus ten, the notes
    column (I) to fifty in place of that, and appends the nine headers as
    one row below whatever the sheet holds, row 1 on an empty sheet; nothing
    else changes. *)
Theorem new_ledger_is_laid_out_once (w : world) :
  (usage_file_exists host = true → _initialize_usage_sheet host w = Done (tt, w)) ∧
  (usage_file_exists host = false →
   ∃ w',
     _initialize_usage_sheet host w = Done (tt, w') ∧
     let top := _current_row (worksheet w) + 1 in
     title (worksheet w') = "Radiators Usage"%string ∧
     freeze_panes (worksheet w') = Some "A2"%string ∧
     (∀ (i : nat) header,
        UsMeta.HEADERS !! i = Some header →
        value_at (worksheet w') top (Z.of_nat i + 1) = VStr header) ∧
     (∀ (i : nat) col header,
        UsMeta.COLS !! i = Some col → UsMeta.HEADERS !! i = Some header →
        column_width (worksheet w') !! col
          = Some (if decide (i = 8%nat) then 50
                  else Z.of_nat (String.length header) + 10)) ∧
     (∀ r c, r ≠ top → slot_at (worksheet w') r c = slot_at (worksheet w) r c) ∧
     (_cells (worksheet w) = ∅ → top = 1 ∧ max_row (worksheet w') = 1) ∧
     merged_cells (worksheet w') = merged_cells (worksheet w) ∧
     config_data w' = config_data w ∧ config_update w' = config_update w ∧
     stdin w' = stdin w ∧ transcript w' = transcript w).
Proof.
  destruct (_initialize_usage_sheet_run w) as [Hold Hnew]. split; [done |].
  intros Hex. destruct (Hnew Hex)
    as (w' & Hrun & Ht & Hf & Hh & Hw & Hfr & Hdom & Hm & Hc & Hu & Hi & Htr).
  exists w'. split; [done |]. simpl. split_and!; try done.
  intros Hempty. rewrite (_current_row_empty _ Hempty). split; [done |].
  apply Z.le_antisymm; [|apply max_row_ge_1].
  apply max_row_le; [done |]. intros r c [Hin|[-> _]]%Hdom.
  - rewrite Hempty, lookup_empty in Hin. by destruct Hin.
  - rewrite (_current_row_empty _ Hempty). done.
Qed.

End NewLedger.

(** * The first run, and a device without a previous valve setting *)

Section FirstRun.

Context {rt : PyRuntime} (host : Host).

(** What [_populate_usage host] leaves of the rows above the block, and the
    comment on the header of a new ledger. *)
Lemma populate_usage_prior_rows w w' :
  _populate_usage host w = Done (tt, w') →
  let s := max_row (worksheet w) + 1 in
  prior_rows_kept s (negb (usage_file_exists host)) (worksheet w) (worksheet w') ∧
  config_data w' !! CKeys.START_ROW = Some (VInt s) ∧
  (usage_file_exists host = false →
   comment_at (worksheet w') 1 8 = Some valve_setting_note).
Proof.
  intros H. apply populate_usage_run in H
    as (n & s & w1 & w2 & w4 & w45 & w5 & w9 & Hs & Hws1 & _ & Hn & Hs1 & Hcfg & Hn1 &
        _ & E12 & _ & E24 & E445 & Hnote & E59 & _ & _ & E9).
  simpl. rewrite <- Hs.
  set (W := λ r : Z, s ≤ r). set (T := λ _ : Z, True).
  assert (eff W T w1 w45) as E145.
  { eapply eff_trans; [apply E12; intros r Hr; unfold W; rewrite Hws1 in Hr; lia |].
    eapply eff_trans; [apply E24; intros r Hr; unfold W; lia |].
    apply E445; [intros r Hr; unfold W; lia | done]. }
  assert (prior_rows_kept s (negb (usage_file_exists host)) (worksheet w45) (worksheet w5) ∧
          max_row (worksheet w45) ≤ max_row (worksheet w5) ∧
          (usage_file_exists host = false →
           comment_at (worksheet w5) 1 8 = Some valve_setting_note)) as (K455 & M455 & N5).
  { destruct Hnote as [[Hex ->]|[Hex Hnote]].
    - split_and!; [apply (prior_rows_kept_eff _ _ w45 w45), eff_refl | lia |].
      intros Hex'. by rewrite Hex in Hex'.
    - pose proof Hnote as Hnote'.
      apply _add_valve_setting_note_spec in Hnote as (Hv & Hsl & He & Hm & _).
      split_and!; [| by eapply (eff_max_row_mono (λ _, True) T), He |].
      + split.
        * intros r c _. apply Hv.
        * intros r c _ [Hne|Hb]; [by apply Hsl |]. by rewrite Hex in Hb.
        * intros k. by apply (eff_dom _ _ _ _ (eff_ws _ _ _ _ (He (λ _, True) T I))).
        * exists []. by rewrite app_nil_r, Hm.
      + intros _. unfold _add_valve_setting_note in Hnote'.
        apply bind_done in Hnote' as (ws & wa & Hget & Hnote'). injection Hget as <- <-.
        apply bind_done in Hnote' as (ws' & wb & Hset & Hput).
        apply lift_done in Hset as [Hset <-]. injection Hput as <-. simpl.
        by apply ws_set_comment_spec in Hset as (_ & _ & Hcomment & _). }
  assert (eff W T w5 w') as E5'.
  { eapply eff_trans; [apply E59; intros r Hr; unfold W; lia |].
    apply E9. intros r Hr. unfold W.
    pose proof (eff_max_row_mono _ _ _ _ E145).
    pose proof (eff_max_row_mono _ _ _ _ (E59 W T (λ r Hr, proj1 Hr))).
    rewrite Hws1 in *. lia. }
  split_and!.
  - rewrite <- Hws1. eapply prior_rows_kept_trans; [by apply prior_rows_kept_eff |].
    eapply prior_rows_kept_trans; [done | by apply prior_rows_kept_eff].
  - by rewrite Hcfg.
  - intros Hex. rewrite <- (N5 Hex). unfold comment_at.
    rewrite (eff_slot _ _ _ _ (eff_ws _ _ _ _ E5')); [done |].
    unfold W. pose proof (max_row_ge_1 (worksheet w)). lia.
Qed.

(** X10.  After the first run on a new workbook, the header row is still the
    nine headers, in row 1, the header of the valve setting column carries
    the note about numbers saved as text, and the block that was written
    starts at row 2. *)
Theorem first_run_keeps_and_annotates_the_header_row (w w' : world) :
  usage_file_exists host = false →
  _cells (worksheet w) = ∅ →
  manage_usage host w = Done (tt, w') →
  (∀ (i : nat) header,
     UsMeta.HEADERS !! i = Some header →
     value_at (worksheet w') 1 (Z.of_nat i + 1) = VStr header) ∧
  comment_at (worksheet w') 1 8 = Some valve_setting_note ∧
  config_data w' !! CKeys.START_ROW = Some (VInt 2).
Proof.
  intros Hex Hempty H. unfold manage_usage in H.
  apply bind_done in H as ([] & w0 & Hinit & H).
  destruct (_initialize_usage_sheet_run host w) as [_ Hnew].
  destruct (Hnew Hex) as (w0' & Hrun & _ & _ & Hh & _ & _ & Hdom & _).
  rewrite Hrun in Hinit. injection Hinit as ->.
  rewrite (_current_row_empty _ Hempty) in Hh, Hdom. simpl in Hh, Hdom.
  assert (max_row (worksheet w0) = 1) as Hmax.
  { apply Z.le_antisymm; [|apply max_row_ge_1].
    apply max_row_le; [done |]. intros r c [Hin|[-> _]]%Hdom; [|done].
    rewrite Hempty, lookup_empty in Hin. by destruct Hin. }
  apply populate_usage_prior_rows in H as ([KV _ _ _] & Hs & Hnote).
  rewrite Hmax in *. simpl in *. split_and!; [| by apply Hnote | done].
  intros i header Hi. rewrite KV by lia. by apply Hh.
Qed.

(** X11.  A device whose previous row holds no valve setting, kept as it is.
    If column 8 of the previous row is empty and the dialogue ends without
    a change having been applied, [_process_valve_setting_update] writes
    nothing: column 8 of the new row, and every other coordinate, holds
    what it held, so that a fresh row is left without a valve setting. *)
Theorem keeping_a_missing_valve_setting_writes_nothing
    (old_row new_row : Z) (w w' : world) :
  value_at (worksheet w) old_row 8 = VNone →
  _process_valve_setting_update old_row new_row w = Done (tt, w') →
  (∀ t, transcript w' = transcript w ++ t → (AskApplyChange, RYesNo true) ∉ t) →
  ∀ r c, value_at (worksheet w') r c = value_at (worksheet w) r c.
Proof.
  intros Hnone H Hkept r c. unfold value_at.
  apply _process_valve_setting_update_spec in H as (o & _ & Htr & _ & Hval & Hfr & _).
  assert (o.2 = KEEP) as Hkeep.
  { destruct o as [rejected [|entered]]; [done |]. exfalso.
    eapply Hkept; [done |]. unfold device_dialogue. apply elem_of_app. right. simpl.
    right. right. by left. }
  rewrite Hkeep in Hval. simpl in Hval. change SNums.EIGHT with 8 in Hval.
  rewrite Hnone in Hval. simpl in Hval.
  destruct (decide ((r, c) = (new_row, 8))) as [[= -> ->]|Hne]; [exact Hval |].
  by rewrite Hfr.
Qed.

End FirstRun.

(** * A configuration without devices *)

Section NoDevices.

Context {rt : PyRuntime} (host : Host).

(** X12.  A block without devices has no rows to merge for its note.  With
    [radiators_owned] zero or negative, [_get_notes] asks its question,
    takes the note when one is offered, and then fails: [merge_cells] gets a
    range that ends above its first row and raises ValueError, before the
    note is written. *)
Theorem block_without_devices_fails_at_the_note
    (w : world) (n s : Z) (add_note : bool) (note : string) (rest : list response) :
  config_data w !! CKeys.RADIATORS_OWNED = Some (VInt n) →
  config_data w !! CKeys.START_ROW = Some (VInt s) →
  n ≤ 0 →
  (add_note = true → note ≠ EmptyString) →
  stdin w = (if add_note then [RYesNo true; RStr note] else [RYesNo false]) ++ rest →
  _get_notes w = Raise ValueError.
Proof.
  intros Hn Hs Hle Hnote Hin. unfold _get_notes.
  assert (∀ w0, config_data w0 = config_data w →
                _merge_valve_cells w0 = Raise ValueError) as Hmerge.
  { intros w0 Hc. unfold _merge_valve_cells.
    rewrite (bind_run _ _ _ _ _ (_get_usage_block_info_run w0 n s
                                  ltac:(by rewrite Hc) ltac:(by rewrite Hc))).
    cbn beta iota. unfold mbind at 1, M_bind at 1, get_worksheet at 1.
    apply bind_raise. unfold lift, ws_merge_cells.
    assert ((s + n - SNums.ONE <? s) = true) as ->
      by (apply Z.ltb_lt; unfold SNums.ONE; lia).
    by rewrite orb_true_r, !orb_true_l || rewrite !orb_true_r. }
  set (asked := λ (answers : list response) (said : list (prompt * response)),
         mkWorld (worksheet w) (config_data w) (config_update w) answers
                 (transcript w ++ said)).
  assert (inputYesNo AskAddNote w
          = Done (yes_no add_note,
                  asked ((if add_note then [RStr note] else []) ++ rest)
                        [(AskAddNote, RYesNo add_note)])) as Hask.
  { unfold inputYesNo, ask. rewrite Hin. by destruct add_note. }
  rewrite (bind_run _ _ _ _ _ Hask). destruct add_note; cbn [yes_no String.eqb].
  - change (String.eqb "yes" SCons.AGREE) with true. cbn iota.
    assert (inputStr AskNote (asked ([RStr note] ++ rest) [(AskAddNote, RYesNo true)])
            = Done (note, asked rest ([(AskAddNote, RYesNo true)] ++ [(AskNote, RStr note)])))
      as Hstr.
    { unfold inputStr, ask. simpl. destruct (String.eqb_spec note ""); [by destruct Hnote |].
      unfold asked. by rewrite <- app_assoc. }
    rewrite (bind_run _ _ _ _ _ Hstr). apply bind_raise. by apply Hmerge.
  - change (String.eqb "no" SCons.AGREE) with false. cbn iota.
    unfold mbind at 1, M_bind at 1, mret at 1, M_ret at 1.
    apply bind_raise. by apply Hmerge.
Qed.

End NoDevices.

(** * The configuration dialogue *)

Section SetupProofs.

Context {rt : PyRuntime} {os : PyOs} (now_year : Z).

Import Setup.

Lemma setup_bind_done {A B} (m : Setup.M A) (f : A → Setup.M B) st r :
  (m ≫= f) st = Done r ↔ ∃ a st1, m st = Done (a, st1) ∧ f a st1 = Done r.
Proof.
  unfold mbind, Setup.M_bind. split.
  - destruct (m st) as [[a st1]| |]; [eauto | discriminate | discriminate].
  - intros (a & st1 & -> & ?). done.
Qed.

Lemma setup_bind_run {A B} (m : Setup.M A) (f : A → Setup.M B) st a st1 :
  m st = Done (a, st1) → (m ≫= f) st = f a st1.
Proof. unfold mbind, Setup.M_bind. by intros ->. Qed.

Lemma setup_ret_done {A} (a b : A) (st st' : Setup.state) :
  mret (M := Setup.M) a st = Done (b, st') ↔ a = b ∧ st = st'.
Proof. unfold mret, Setup.M_ret. split; [by inversion 1 | by intros [-> ->]]. Qed.

Lemma setup_ask_spec {A} p (accept : response → option A) st a st' :
  Setup.ask p accept st = Done (a, st') →
  ∃ r, accept r = Some a ∧
       Setup.stdin st = r :: Setup.stdin st' ∧
       Setup.transcript st' = Setup.transcript st ++ [(p, r)] ∧
       Setup.config_data st' = Setup.config_data st ∧
       Setup.config_update st' = Setup.config_update st.
Proof.
  unfold Setup.ask. destruct (Setup.stdin st) as [|r rest] eqn:E; [discriminate |].
  destruct (accept r) as [a0|] eqn:Ea; [|discriminate].
  intros [= <- <-]. exists r. by simpl.
Qed.

Lemma setup_inputYesNo_spec p st ans st' :
  Setup.inputYesNo p st = Done (ans, st') →
  ∃ b, ans = yes_no b ∧
       Setup.transcript st' = Setup.transcript st ++ [(p, RYesNo b)] ∧
       Setup.config_data st' = Setup.config_data st ∧
       Setup.config_update st' = Setup.config_update st.
Proof.
  unfold Setup.inputYesNo. intros (r & Hacc & _ & ? & ? & ?)%setup_ask_spec.
  destruct r as [|b| |]; try discriminate. injection Hacc as <-. by exists b.
Qed.

Lemma setup_inputStr_spec p regex st answer st' :
  Setup.inputStr p regex st = Done (answer, st') →
  answer ≠ EmptyString ∧ re_search regex answer = true ∧
  Setup.transcript st' = Setup.transcript st ++ [(p, RStr answer)] ∧
  Setup.config_data st' = Setup.config_data st ∧
  Setup.config_update st' = Setup.config_update st.
Proof.
  unfold Setup.inputStr. intros (r & Hacc & _ & ? & ? & ?)%setup_ask_spec.
  destruct r as [| |s|]; try discriminate.
  destruct (String.eqb s "") eqn:Hblank; [discriminate |].
  apply String.eqb_neq in Hblank.
  destruct (re_search regex s) eqn:Hallowed.
  - by injection Hacc as <-.
  - unfold RegexP.BLOCK in Hacc. by rewrite re_search_any in Hacc.
Qed.

Lemma setup_config_getitem_spec key st v st' :
  Setup.config_getitem key st = Done (v, st') →
  st' = st ∧ Setup.config_data st !! key = Some v.
Proof.
  unfold Setup.config_getitem. intros H.
  apply setup_bind_done in H as (c & st1 & Hget & H). injection Hget as <- <-.
  destruct (Setup.config_data st !! key); [|discriminate].
  by apply setup_ret_done in H as [<- <-].
Qed.

Lemma setup_config_getitem_run key st v :
  Setup.config_data st !! key = Some v → Setup.config_getitem key st = Done (v, st).
Proof.
  intros H. unfold Setup.config_getitem, mbind, Setup.M_bind, Setup.get_config.
  by rewrite H.
Qed.

(** The placeholder of the default file name gives way to the years. *)
Lemma usage_name_embeds_the_years (years : string) :
  str_replace Files.DEFAULT_USAGE_NAME Files.YEARS_PLACEHOLDER years
  = Setup.usage_name_of years.
Proof. reflexivity. Qed.

Lemma _prompt_config_option_loop_spec fuel p regex config_key embed_years st st' :
  Setup._prompt_config_option_loop fuel p regex config_key embed_years st = Done (tt, st') →
  ∃ rejected answer,
    Setup.transcript st'
      = Setup.transcript st
        ++ concat (Setup.option_turn p embed_years false <$> rejected)
        ++ Setup.option_turn p embed_years true answer ∧
    Forall (λ a, a ≠ EmptyString ∧ re_search regex a = true) (answer :: rejected) ∧
    Setup.config_data st'
      = <[config_key := VStr (Setup.stored_entry embed_years answer)]> (Setup.config_data st) ∧
    Setup.config_update st' = Setup.config_update st.
Proof.
  revert st. induction fuel as [|fuel IH]; intros st H; [discriminate |].
  cbn [Setup._prompt_config_option_loop] in H.
  apply setup_bind_done in H as (entry & st1 & Hentry & H).
  apply setup_inputStr_spec in Hentry as (Hne & Hre & Htr1 & Hc1 & Hu1).
  cbn zeta in H.
  apply setup_bind_done in H as (ans & st2 & Hans & H).
  apply setup_inputYesNo_spec in Hans as (b & -> & Htr2 & Hc2 & Hu2).
  rewrite yes_no_agree in H.
  assert ((if embed_years
           then str_replace Files.DEFAULT_USAGE_NAME Files.YEARS_PLACEHOLDER entry
           else entry) = Setup.stored_entry embed_years entry) as Hstored.
  { unfold Setup.stored_entry. destruct embed_years; [apply usage_name_embeds_the_years | done]. }
  rewrite Hstored in *.
  destruct b.
  - unfold Setup.config_setitem in H.
    apply setup_bind_done in H as (c & st3 & Hget & H). injection Hget as <- <-.
    injection H as <-. exists [], entry. simpl. split_and!.
    + by rewrite Htr2, Htr1, <- app_assoc.
    + by constructor.
    + congruence.
    + congruence.
  - apply IH in H as (rejected & answer & Htr & HF & Hc & Hu).
    exists (entry :: rejected), answer. split_and!.
    + rewrite Htr, Htr2, Htr1, fmap_cons. simpl. by rewrite <- !app_assoc.
    + apply Forall_cons in HF as [Ha HF]. constructor; [done |]. by constructor.
    + congruence.
    + congruence.
Qed.

(** X13.  [_prompt_config_option] stores a value only once it is confirmed.
    When it returns, the dialogue was any number of entries that the user
    did not confirm, then one that was; every entry was a non blank string
    that the allowed pattern finds; the key holds the confirmed entry (the
    default file name with the years in place of its placeholder, for the
    file name), no other key changed, and the update flag is as it was. *)
Theorem config_option_is_stored_once_confirmed
    (p : Setup.prompt) (regex config_key : string) (embed_years : bool)
    (st st' : Setup.state) :
  Setup._prompt_config_option p regex config_key embed_years st = Done (tt, st') →
  ∃ rejected answer,
    Setup.transcript st'
      = Setup.transcript st
        ++ concat (Setup.option_turn p embed_years false <$> rejected)
        ++ Setup.option_turn p embed_years true answer ∧
    Forall (λ a, a ≠ EmptyString ∧ re_search regex a = true) (answer :: rejected) ∧
    Setup.config_data st' !! config_key = Some (VStr (Setup.stored_entry embed_years answer)) ∧
    (∀ key, key ≠ config_key →
            Setup.config_data st' !! key = Setup.config_data st !! key) ∧
    Setup.config_update st' = Setup.config_update st.
Proof.
  intros H. unfold Setup._prompt_config_option, Setup.with_fuel in H.
  apply _prompt_config_option_loop_spec in H as (rejected & answer & Htr & HF & Hc & Hu).
  exists rejected, answer. split_and!; try done.
  - rewrite Hc. apply lookup_insert_eq.
  - intros key Hkey. rewrite Hc. by apply lookup_insert_ne.
Qed.


Lemma _prompt_config_option_spec p regex config_key embed_years st st' :
  Setup._prompt_config_option p regex config_key embed_years st = Done (tt, st') →
  ∃ dialogue answer,
    Setup.transcript st' = Setup.transcript st ++ dialogue ∧
    answer ≠ EmptyString ∧ re_search regex answer = true ∧
    Setup.config_data st'
      = <[config_key := VStr (Setup.stored_entry embed_years answer)]> (Setup.config_data st) ∧
    Setup.config_update st' = Setup.config_update st.
Proof.
  intros H. unfold Setup._prompt_config_option, Setup.with_fuel in H.
  apply _prompt_config_option_loop_spec in H as (rejected & answer & Htr & HF & Hc & Hu).
  apply Forall_cons in HF as [[Hne Hre] _].
  eexists _, answer. by split_and!.
Qed.

Lemma usage_config_setup_spec (st st' : Setup.state) :
  Setup.usage_config_setup now_year st = Done (tt, st') →
  ∃ years date_format date_input_mode,
    re_search RegexP.YEARS years = true ∧
    re_search RegexP.DATE_REGEX date_format = true ∧
    re_search RegexP.DATE_INPUT_REGEX date_input_mode = true ∧
    Setup.config_data st' !! ConfigKeys.USAGE_NAME
      = Some (VStr (Setup.usage_name_of years)) ∧
    Setup.config_data st' !! CKeys.DATE_FORMAT = Some (VStr date_format) ∧
    Setup.config_data st' !! CKeys.DATE_INPUT_MODE = Some (VStr date_input_mode) ∧
    (∀ key, key ≠ ConfigKeys.USAGE_NAME → key ≠ CKeys.DATE_FORMAT →
            key ≠ CKeys.DATE_INPUT_MODE →
            Setup.config_data st' !! key = Setup.config_data st !! key) ∧
    Setup.config_update st' = true.
Proof.
  unfold Setup.usage_config_setup. intros H.
  apply setup_bind_done in H as ([] & st0 & Hinfo & H).
  unfold Setup.display_user_info, Setup.input in Hinfo.
  apply setup_bind_done in Hinfo as (line & st0' & Hask & Hret).
  apply setup_ret_done in Hret as [_ ->].
  apply setup_ask_spec in Hask as (_ & _ & _ & _ & C0 & _).
  apply setup_bind_done in H as ([] & st1 & H1 & H).
  apply setup_bind_done in H as ([] & st2 & H2 & H).
  apply setup_bind_done in H as ([] & st3 & H3 & H).
  injection H as <-. simpl.
  apply _prompt_config_option_spec in H1 as (_ & years & _ & _ & R1 & C1 & _).
  apply _prompt_config_option_spec in H2 as (_ & fmt & _ & _ & R2 & C2 & _).
  apply _prompt_config_option_spec in H3 as (_ & mode & _ & _ & R3 & C3 & _).
  exists years, fmt, mode. rewrite C3, C2, C1, C0. split_and!; try done.
  - by rewrite !lookup_insert_ne, lookup_insert_eq by done.
  - by rewrite lookup_insert_ne, lookup_insert_eq by done.
  - by rewrite lookup_insert_eq.
  - intros key ? ? ?. by rewrite !lookup_insert_ne.
Qed.

(** X14.  The first-time setup.  When [usage_config_setup] returns, the file
    name is the default one with the years that were entered, the date
    format and the date input mode are the entries that were confirmed,
    each found by its pattern; no other key changed, and the update flag is
    raised, so that the configuration is saved. *)
Theorem first_setup_stores_three_settings_and_raises_the_flag (st st' : Setup.state) :
  Setup.usage_config_setup now_year st = Done (tt, st') →
  ∃ years date_format date_input_mode,
    re_search RegexP.YEARS years = true ∧
    re_search RegexP.DATE_REGEX date_format = true ∧
    re_search RegexP.DATE_INPUT_REGEX date_input_mode = true ∧
    Setup.config_data st' !! ConfigKeys.USAGE_NAME
      = Some (VStr (Setup.usage_name_of years)) ∧
    Setup.config_data st' !! CKeys.DATE_FORMAT = Some (VStr date_format) ∧
    Setup.config_data st' !! CKeys.DATE_INPUT_MODE = Some (VStr date_input_mode) ∧
    (∀ key, key ≠ ConfigKeys.USAGE_NAME → key ≠ CKeys.DATE_FORMAT →
            key ≠ CKeys.DATE_INPUT_MODE →
            Setup.config_data st' !! key = Setup.config_data st !! key) ∧
    Setup.config_update st' = true.
Proof. apply usage_config_setup_spec. Qed.

(** One item of [prompt_usage_config_updates]. *)
Lemma config_item_spec label key regex p embed_years st st' :
  (current ← Setup.config_getitem key;
   ans ← Setup.inputYesNo (Setup.AskChangeItem label current);
   if String.eqb ans SCons.AGREE
   then Setup._make_config_change (Setup._prompt_config_option p regex key embed_years)
   else mret tt) st = Done (tt, st') →
  ∃ current (change : bool) dialogue,
    Setup.config_data st !! key = Some current ∧
    Setup.transcript st'
      = Setup.transcript st ++ (Setup.AskChangeItem label current, RYesNo change) :: dialogue ∧
    (if change
     then ∃ answer, answer ≠ EmptyString ∧ re_search regex answer = true ∧
                    Setup.config_data st'
                      = <[key := VStr (Setup.stored_entry embed_years answer)]>
                          (Setup.config_data st) ∧
                    Setup.config_update st' = true
     else dialogue = [] ∧ Setup.config_data st' = Setup.config_data st ∧
          Setup.config_update st' = Setup.config_update st).
Proof.
  intros H.
  apply setup_bind_done in H as (current & st0 & Hget & H).
  apply setup_config_getitem_spec in Hget as [-> Hcur].
  apply setup_bind_done in H as (ans & st1 & Hans & H).
  apply setup_inputYesNo_spec in Hans as (b & -> & Htr1 & Hc1 & Hu1).
  rewrite yes_no_agree in H. destruct b.
  - unfold Setup._make_config_change in H.
    apply setup_bind_done in H as ([] & st2 & Hopt & H). injection H as <-.
    apply _prompt_config_option_spec in Hopt as (dialogue & answer & Htr & Hne & Hre & Hc & _).
    exists current, true, dialogue. simpl. split_and!; [done | | ].
    + by rewrite Htr, Htr1, <- app_assoc.
    + exists answer. split_and!; try done. congruence.
  - apply setup_ret_done in H as [_ <-]. exists current, false, []. by split_and!.
Qed.


Lemma config_updates_transcript (st st' : Setup.state) :
  Setup.prompt_usage_config_updates now_year st = Done (tt, st') →
  ∃ rest, Setup.transcript st' = Setup.transcript st ++ rest.
Proof.
  unfold Setup.prompt_usage_config_updates, Setup.config_items. cbn [Setup.for_each].
  intros H.
  apply setup_bind_done in H as ([] & st1 & H1 & H).
  apply setup_bind_done in H as ([] & st2 & H2 & H).
  apply setup_bind_done in H as ([] & st3 & H3 & H).
  apply setup_ret_done in H as [_ ->].
  apply config_item_spec in H1 as (? & ? & ? & _ & T1 & _).
  apply config_item_spec in H2 as (? & ? & ? & _ & T2 & _).
  apply config_item_spec in H3 as (? & ? & ? & _ & T3 & _).
  eexists. rewrite T3, T2, T1, <- !app_assoc. done.
Qed.

(** X15.  [prompt_usage_config_updates] asks about the file name, the date
    format and the date input mode, in this order, showing for each the
    value the configuration holds at that moment.  An item answered with no
    is left as it is; an item answered with yes ends with a confirmed entry
    that its pattern finds.  No other key changes.  The update flag is
    raised as soon as one item is answered with yes, and is as it was when
    all three are answered with no. *)
Theorem config_updates_change_what_was_asked_for (st st' : Setup.state) :
  Setup.prompt_usage_config_updates now_year st = Done (tt, st') →
  ∃ (name format mode : pyval) (b1 b2 b3 : bool) d1 d2 d3,
    Setup.config_data st !! ConfigKeys.USAGE_NAME = Some name ∧
    Setup.config_data st !! CKeys.DATE_FORMAT = Some format ∧
    Setup.config_data st !! CKeys.DATE_INPUT_MODE = Some mode ∧
    Setup.transcript st'
      = Setup.transcript st
        ++ (Setup.AskChangeItem "usage filename" name, RYesNo b1) :: d1
        ++ (Setup.AskChangeItem "date format" format, RYesNo b2) :: d2
        ++ (Setup.AskChangeItem "date input mode" mode, RYesNo b3) :: d3 ∧
    (if b1
     then ∃ years, re_search RegexP.YEARS years = true ∧
                   Setup.config_data st' !! ConfigKeys.USAGE_NAME
                     = Some (VStr (Setup.usage_name_of years))
     else d1 = [] ∧ Setup.config_data st' !! ConfigKeys.USAGE_NAME = Some name) ∧
    (if b2
     then ∃ entry, re_search RegexP.DATE_REGEX entry = true ∧
                   Setup.config_data st' !! CKeys.DATE_FORMAT = Some (VStr entry)
     else d2 = [] ∧ Setup.config_data st' !! CKeys.DATE_FORMAT = Some format) ∧
    (if b3
     then ∃ entry, re_search RegexP.DATE_INPUT_REGEX entry = true ∧
                   Setup.config_data st' !! CKeys.DATE_INPUT_MODE = Some (VStr entry)
     else d3 = [] ∧ Setup.config_data st' !! CKeys.DATE_INPUT_MODE = Some mode) ∧
    (∀ key, key ≠ ConfigKeys.USAGE_NAME → key ≠ CKeys.DATE_FORMAT →
            key ≠ CKeys.DATE_INPUT_MODE →
            Setup.config_data st' !! key = Setup.config_data st !! key) ∧
    Setup.config_update st' = Setup.config_update st || b1 || b2 || b3.
Proof.
  unfold Setup.prompt_usage_config_updates, Setup.config_items. cbn [Setup.for_each].
  intros H.
  apply setup_bind_done in H as ([] & st1 & H1 & H).
  apply setup_bind_done in H as ([] & st2 & H2 & H).
  apply setup_bind_done in H as ([] & st3 & H3 & H).
  apply setup_ret_done in H as [_ ->].
  apply config_item_spec in H1 as (name & b1 & d1 & N1 & T1 & O1).
  apply config_item_spec in H2 as (format & b2 & d2 & N2 & T2 & O2).
  apply config_item_spec in H3 as (mode & b3 & d3 & N3 & T3 & O3).
  assert (Setup.config_data st1 !! CKeys.DATE_FORMAT
          = Setup.config_data st !! CKeys.DATE_FORMAT ∧
          Setup.config_data st1 !! CKeys.DATE_INPUT_MODE
          = Setup.config_data st !! CKeys.DATE_INPUT_MODE ∧
          (∀ key, key ≠ ConfigKeys.USAGE_NAME →
                  Setup.config_data st1 !! key = Setup.config_data st !! key) ∧
          Setup.config_update st1 = Setup.config_update st || b1) as (K1f & K1m & K1 & U1).
  { destruct b1.
    - destruct O1 as (a & _ & _ & -> & ->). rewrite orb_true_r.
      split_and!; [by rewrite lookup_insert_ne | by rewrite lookup_insert_ne | | done].
      intros key ?. by rewrite lookup_insert_ne.
    - destruct O1 as (_ & -> & ->). by rewrite orb_false_r. }
  assert (Setup.config_data st2 !! ConfigKeys.USAGE_NAME
          = Setup.config_data st1 !! ConfigKeys.USAGE_NAME ∧
          Setup.config_data st2 !! CKeys.DATE_INPUT_MODE
          = Setup.config_data st1 !! CKeys.DATE_INPUT_MODE ∧
          (∀ key, key ≠ CKeys.DATE_FORMAT →
                  Setup.config_data st2 !! key = Setup.config_data st1 !! key) ∧
          Setup.config_update st2 = Setup.config_update st1 || b2) as (K2n & K2m & K2 & U2).
  { destruct b2.
    - destruct O2 as (a & _ & _ & -> & ->). rewrite orb_true_r.
      split_and!; [by rewrite lookup_insert_ne | by rewrite lookup_insert_ne | | done].
      intros key ?. by rewrite lookup_insert_ne.
    - destruct O2 as (_ & -> & ->). by rewrite orb_false_r. }
  assert (Setup.config_data st' !! ConfigKeys.USAGE_NAME
          = Setup.config_data st2 !! ConfigKeys.USAGE_NAME ∧
          Setup.config_data st' !! CKeys.DATE_FORMAT
          = Setup.config_data st2 !! CKeys.DATE_FORMAT ∧
          (∀ key, key ≠ CKeys.DATE_INPUT_MODE →
                  Setup.config_data st' !! key = Setup.config_data st2 !! key) ∧
          Setup.config_update st' = Setup.config_update st2 || b3) as (K3n & K3f & K3 & U3).
  { destruct b3.
    - destruct O3 as (a & _ & _ & -> & ->). rewrite orb_true_r.
      split_and!; [by rewrite lookup_insert_ne | by rewrite lookup_insert_ne | | done].
      intros key ?. by rewrite lookup_insert_ne.
    - destruct O3 as (_ & -> & ->). by rewrite orb_false_r. }
  rewrite K1f in N2. rewrite K2m, K1m in N3.
  exists name, format, mode, b1, b2, b3, d1, d2, d3. split_and!; try done.
  - rewrite T3, T2, T1. rewrite <- !app_assoc. simpl. by rewrite <- ?app_assoc.
  - rewrite K3n, K2n. destruct b1.
    + destruct O1 as (years & _ & Hre & -> & _). exists years. split; [done |].
      apply lookup_insert_eq.
    + destruct O1 as (-> & -> & _). done.
  - rewrite K3f. destruct b2.
    + destruct O2 as (entry & _ & Hre & -> & _). exists entry. split; [done |].
      apply lookup_insert_eq.
    + destruct O2 as (-> & -> & _). by rewrite K1f.
  - destruct b3.
    + destruct O3 as (entry & _ & Hre & -> & _). exists entry. split; [done |].
      apply lookup_insert_eq.
    + destruct O3 as (-> & -> & _). by rewrite K2m, K1m.
  - intros key ? ? ?. by rewrite K3, K2, K1.
  - by rewrite U3, U2, U1.
Qed.

(** X16.  [update_config_path] derives a path from the data folder.  With a
    data folder configured, the key holds the folder joined with the suffix,
    no other key changes, the update flag is raised exactly when the key
    did not hold that path already (the flag is never lowered), and a
    second call changes nothing at all. *)
Theorem derived_path_is_settled_by_one_call
    (path_key path_suffix base : string) (st : Setup.state) :
  Setup.config_data st !! ConfigKeys.EXCEL_FOLDER = Some (VStr base) →
  path_key ≠ ConfigKeys.EXCEL_FOLDER →
  let new_path := path_join base path_suffix in
  ∃ st',
    Setup.update_config_path path_key path_suffix st = Done (tt, st') ∧
    Setup.config_data st' = <[path_key := VStr new_path]> (Setup.config_data st) ∧
    Setup.config_update st'
      = Setup.config_update st
        || Setup.differs (Setup.config_data st !! path_key) new_path ∧
    (Setup.config_data st !! path_key = Some (VStr new_path) → st' = st) ∧
    Setup.stdin st' = Setup.stdin st ∧ Setup.transcript st' = Setup.transcript st ∧
    Setup.update_config_path path_key path_suffix st' = Done (tt, st').
Proof.
  intros Hbase Hkey new_path.
  assert (∀ st0, Setup.config_data st0 !! ConfigKeys.EXCEL_FOLDER = Some (VStr base) →
            Setup.update_config_path path_key path_suffix st0
            = Done (tt, Setup.mkState
                          (<[path_key := VStr new_path]> (Setup.config_data st0))
                          (Setup.config_update st0
                           || Setup.differs (Setup.config_data st0 !! path_key) new_path)
                          (Setup.stdin st0) (Setup.transcript st0))) as Hrun.
  { intros st0 Hb. unfold Setup.update_config_path.
    unfold mbind at 1, Setup.M_bind at 1, Setup.get_config at 1.
    rewrite (setup_bind_run _ _ _ _ _ (setup_config_getitem_run _ _ _ Hb)).
    fold new_path.
    unfold Setup.config_setitem, mbind, Setup.M_bind, Setup.get_config, Setup.put_config.
    cbn [Setup.config_data Setup.config_update Setup.stdin Setup.transcript].
    destruct (Setup.differs _ _); simpl; [by rewrite orb_true_r |].
    by rewrite orb_false_r. }
  eexists. split; [by apply Hrun |]. simpl. split_and!; try done.
  - intros Hold. rewrite Hold. simpl. rewrite String.eqb_refl. simpl.
    rewrite orb_false_r. rewrite insert_id by done. by destruct st.
  - rewrite Hrun by (simpl; by rewrite lookup_insert_ne). simpl.
    rewrite lookup_insert_eq, insert_insert_eq. simpl. rewrite String.eqb_refl. simpl.
    by rewrite orb_false_r.
Qed.


(** X17.  [_configure_usage] on a first run and on a later one.  When
    [os.path.exists] does not find the usage folder of the configuration,
    the setup runs: the three settings are stored and the update flag is
    raised.  When it finds it, the user is shown the three settings and
    asked whether to modify any; after a no, nothing more is asked, and the
    configuration and the update flag are as they were. *)
Theorem configuration_is_set_up_once_and_reviewed_afterwards (st st' : Setup.state) :
  Setup._configure_usage now_year st = Done (tt, st') →
  ∃ folder (found : bool),
    Setup.config_data st !! ConfigKeys.USAGE_FOLDER_PATH = Some folder ∧
    Setup.os_path_exists folder st = Done (found, st) ∧
    (found = false →
     Setup.config_update st' = true ∧
     ∃ years date_format date_input_mode,
       re_search RegexP.YEARS years = true ∧
       re_search RegexP.DATE_REGEX date_format = true ∧
       re_search RegexP.DATE_INPUT_REGEX date_input_mode = true ∧
       Setup.config_data st' !! ConfigKeys.USAGE_NAME
         = Some (VStr (Setup.usage_name_of years)) ∧
       Setup.config_data st' !! CKeys.DATE_FORMAT = Some (VStr date_format) ∧
       Setup.config_data st' !! CKeys.DATE_INPUT_MODE = Some (VStr date_input_mode)) ∧
    (found = true →
     ∃ name format mode (modify : bool) rest,
       Setup.config_data st !! ConfigKeys.USAGE_NAME = Some name ∧
       Setup.config_data st !! CKeys.DATE_FORMAT = Some format ∧
       Setup.config_data st !! CKeys.DATE_INPUT_MODE = Some mode ∧
       Setup.transcript st'
         = Setup.transcript st
           ++ (Setup.AskChangeUsageConfig name format mode, RYesNo modify) :: rest ∧
       (modify = false →
        rest = [] ∧ Setup.config_data st' = Setup.config_data st ∧
        Setup.config_update st' = Setup.config_update st)).
Proof.
  unfold Setup._configure_usage. intros H.
  apply setup_bind_done in H as (v & st0 & Hget & H).
  apply setup_config_getitem_spec in Hget as [-> Hfolder].
  apply setup_bind_done in H as (found & st0 & Hfound & H).
  assert (st0 = st) as ->.
  { destruct v; simpl in Hfound; try discriminate; by injection Hfound as _ <-. }
  exists v, found. split; [done |]. split; [done |]. destruct found; simpl in H.
  - split; [discriminate |]. intros _.
    apply setup_bind_done in H as (change & st1 & Hask & H).
    unfold Setup.prompt_change_usage_config in Hask.
    apply setup_bind_done in Hask as (name & sta & Ha & Hask).
    apply setup_config_getitem_spec in Ha as [-> Hname].
    apply setup_bind_done in Hask as (format & stb & Hb & Hask).
    apply setup_config_getitem_spec in Hb as [-> Hformat].
    apply setup_bind_done in Hask as (mode & stc & Hc & Hask).
    apply setup_config_getitem_spec in Hc as [-> Hmode].
    apply setup_bind_done in Hask as (ans & std & Hans & Hret).
    apply setup_inputYesNo_spec in Hans as (b & -> & Htr & Hcfg & Hupd).
    apply setup_ret_done in Hret as [<- ->]. rewrite yes_no_agree in H.
    destruct b.
    + assert (∃ rest, Setup.transcript st' = Setup.transcript st1 ++ rest) as [rest Hrest].
      { apply config_updates_transcript in H. done. }
      exists name, format, mode, true, rest. split_and!; try done.
      by rewrite Hrest, Htr, <- app_assoc.
    + apply setup_ret_done in H as [_ <-].
      exists name, format, mode, false, []. by split_and!.
  - split; [|discriminate]. intros _.
    apply usage_config_setup_spec in H
      as (years & fmt & mode & R1 & R2 & R3 & K1 & K2 & K3 & _ & Hu).
    split; [done |]. by exists years, fmt, mode.
Qed.

End SetupProofs.

(** * The valve settings of a later run *)

Section LaterValves.

Context {rt : PyRuntime} (host : Host).

(** X18.  In a later run every device ends with what its own dialogue
    settled.  Let the previous block's device rows lie before the new block.
    When [_update_valve_setting] returns, the dialogue was the press-Enter
    screen and then one dialogue per device, in the order of the devices and
    each about the name and the valve setting of the previous row; a device
    whose change was applied holds the entered text, a string that is not
    blank, in column 8 of its new row; a device that was kept holds the
    valve setting of its previous row, if there is one; and nothing but
    column 8 of the new device rows changed. *)
Theorem each_device_ends_with_what_its_dialogue_settled
    (w w' : world) (n s last : Z) :
  config_data w !! CKeys.RADIATORS_OWNED = Some (VInt n) →
  config_data w !! CKeys.START_ROW = Some (VInt s) →
  config_data w !! CKeys.LAST_START_ROW = Some (VInt last) →
  last + n ≤ s →
  _update_valve_setting w = Done (tt, w') →
  ∃ line outs,
    transcript w' = transcript w
                    ++ (ShowInfo VALVE_SETTING_UPDATE, RLine line)
                       :: concat (zip_with (dialogue_at (worksheet w) last) (range 0 n) outs) ∧
    Forall2 (λ i o,
               match o.2 with
               | APPLIED entered =>
                   entered ≠ EmptyString ∧
                   value_at (worksheet w') (s + i) 8 = VStr entered
               | KEEP =>
                   value_at (worksheet w) (last + i) 8 ≠ VNone →
                   value_at (worksheet w') (s + i) 8 = value_at (worksheet w) (last + i) 8
               end)
            (range 0 n) outs ∧
    (∀ r c, ¬ (s ≤ r < s + n ∧ c = 8) →
            slot_at (worksheet w') r c = slot_at (worksheet w) r c).
Proof.
  intros Hn Hs Hl Hlast H.
  destruct (_update_valve_setting_spec _ _ n s last Hn Hs Hl Hlast H)
    as (line & outs & HF & Htr & Hfr & _).
  exists line, outs. split_and!; [done | | done].
  eapply Forall2_impl; [exact HF |]. intros i [rejected t] [[_ Hwell] Hval].
  simpl in *. unfold settled_at, settled_value in Hval. simpl in Hval.
  change SNums.EIGHT with 8 in Hval. destruct t as [|entered].
  - intros Hsome. rewrite Hval.
    by destruct (value_at (worksheet w) (last + i) 8).
  - by split.
Qed.

End LaterValves.

(** * More runs of the sample household, checked *)

Section MoreRuns.

#[local] Existing Instance binary64.

Import Sample Cases.

(** The registry of the sample household, copied in its first run: the
    living room is the second device, in row 3. *)
Lemma registry_of_the_sample_is_copied :
  ∃ w', _fill_registry_data first_host at_registry = Done (tt, w') ∧
        value_at (worksheet w') 3 2 = VStr "Living Room" ∧
        max_row (worksheet w') = 4.
Proof.
  assert (is_Some (config_data at_registry !! CKeys.REGISTRY_FILE)) as Hfile.
  { exists (VStr "radiators_registry.xlsx"). run_vm. }
  assert (Forall (λ row : list pyval, row ≠ []) (registry_rows first_host)) as Hrows.
  { change (registry_rows first_host) with registry. unfold registry.
    repeat (constructor; [discriminate |]). constructor. }
  destruct (registry_rows_are_copied_below_the_ledger first_host at_registry Hfile Hrows)
    as (w' & Hrun & Hmax & Hvals & _).
  evaluated (max_row (worksheet at_registry)) Hmax.
  evaluated (max_row (worksheet at_registry)) Hvals.
  exists w'. split; [exact Hrun |]. split; [| exact Hmax].
  exact (Hvals 1%nat _ 0%nat _ eq_refl eq_refl).
Defined.

(** Raw readings entered twice: the second round stands. *)
Lemma readings_of_the_second_round_stand :
  _get_raw_readings two_rounds = Done (tt, after_two_rounds) ∧
  ∃ zs, Forall2 (λ row z, value_at (worksheet after_two_rounds) row 5 = VInt z)
                [2; 3; 4] zs.
Proof.
  assert (_get_raw_readings two_rounds = Done (tt, after_two_rounds)) as H by run_vm.
  assert (config_data two_rounds !! CKeys.RADIATORS_OWNED = Some (VInt 3)) as Hn
    by run_vm.
  assert (config_data two_rounds !! CKeys.START_ROW = Some (VInt 2)) as Hs by run_vm.
  split; [exact H |].
  destruct (raw_readings_are_those_of_the_last_round _ _ 3 2 Hn Hs H)
    as (attempts & zs & _ & HF & _).
  evaluated (range 2 (2 + 3)) HF.
  exists zs. exact HF.
Defined.

(** A date entered by hand, after an impossible one and one that was not
    confirmed. *)
Lemma sixth_of_january_entered_by_hand :
  _get_date_manually by_hand = Done ("06/01/2025"%string, after_by_hand) ∧
  ∃ d earlier,
    1 ≤ day d ≤ days_in_month (year d) (month d) ∧
    transcript after_by_hand
    = transcript by_hand ++ earlier ++ confirmed_date_entry d "06/01/2025".
Proof.
  assert (_get_date_manually by_hand = Done ("06/01/2025"%string, after_by_hand)) as H
    by run_vm.
  split; [exact H |].
  destruct (manual_date_is_valid_and_confirmed _ _ _ H)
    as (d & earlier & _ & _ & Hday & _ & Htr & _).
  exists d, earlier. split; [exact Hday | exact Htr].
Defined.

(** The sample block, computed and totalled: 10 + 14 + 45. *)
Lemma sample_block_is_computed_and_totalled :
  ∃ w1 w2, _get_actual_values with_readings = Done (tt, w1) ∧
           _get_total w1 = Done (tt, w2) ∧
           value_at (worksheet w2) 5 7 = VInt 69.
Proof.
  assert (config_data with_readings !! CKeys.RADIATORS_OWNED = Some (VInt 3)) as Hn
    by run_vm.
  assert (config_data with_readings !! CKeys.START_ROW = Some (VInt 2)) as Hs by run_vm.
  assert (range 2 (2 + 3) = [2; 3; 4]) as Hrange by run_vm.
  assert (Forall2 (λ row k, value_at (worksheet with_readings) row 4 = VInt k)
                  (range 2 (2 + 3)) [1; 2; 3]) as Hk.
  { rewrite Hrange. repeat (constructor; [run_vm |]). constructor. }
  assert (Forall2 (λ row z, value_at (worksheet with_readings) row 5 = VInt z)
                  (range 2 (2 + 3)) [10; 7; 15]) as Hz.
  { rewrite Hrange. repeat (constructor; [run_vm |]). constructor. }
  assert (∀ row, 2 ≤ row < 2 + 3 →
                 slot_at (worksheet with_readings) row 6 ≠ MergedCell) as Hplain.
  { intros row Hrow.
    assert (row = 2 ∨ row = 3 ∨ row = 4) as [-> | [-> | ->]] by lia; has_value. }
  assert (slot_at (worksheet with_readings) (2 + 3) 7 ≠ MergedCell) as Htotal
    by has_value.
  destruct (integer_block_is_computed_and_totalled with_readings 3 2 [1; 2; 3] [10; 7; 15]
              Hn Hs ltac:(lia) ltac:(lia) Hk Hz Hplain Htotal)
    as (w1 & w2 & H1 & H2 & _ & Htot).
  exists w1, w2. split; [exact H1 |]. split; [exact H2 | exact Htot].
Defined.

(** The second device has no coefficient: the actual values stop there. *)
Lemma missing_coefficient_stops_the_actual_values :
  _get_actual_values missing_coefficient = Raise TypeError.
Proof.
  assert (config_data missing_coefficient !! CKeys.RADIATORS_OWNED = Some (VInt 3))
    as Hn by run_vm.
  assert (config_data missing_coefficient !! CKeys.START_ROW = Some (VInt 2)) as Hs
    by run_vm.
  assert (range 2 (2 + 1) = [2]) as Hrange by run_vm.
  assert (Forall2 (λ row c, value_at (worksheet missing_coefficient) row 4 = VInt c)
                  (range 2 (2 + 1)) [1]) as Hc.
  { rewrite Hrange. constructor; [run_vm | constructor]. }
  assert (Forall2 (λ row z, value_at (worksheet missing_coefficient) row 5 = VInt z)
                  (range 2 (2 + 1)) [10]) as Hz.
  { rewrite Hrange. constructor; [run_vm | constructor]. }
  assert (∀ row, 2 ≤ row < 2 + 1 →
                 slot_at (worksheet missing_coefficient) row 6 ≠ MergedCell) as Hplain.
  { intros row Hrow. assert (row = 2) as -> by lia. has_value. }
  assert (py_mul (value_at (worksheet missing_coefficient) (2 + 1) 4)
                 (value_at (worksheet missing_coefficient) (2 + 1) 5) = Err TypeError)
    as Herr by run_vm.
  exact (proj1 (actual_values_stop_at_the_first_refused_product
                  missing_coefficient 3 2 1 [1] [10] TypeError
                  Hn Hs ltac:(lia) ltac:(lia) Hc Hz Hplain Herr)).
Defined.

(** The total asked for before the actual values are there. *)
Lemma total_before_the_actual_values_is_refused :
  _get_total with_readings = Raise TypeError.
Proof.
  assert (config_data with_readings !! CKeys.RADIATORS_OWNED = Some (VInt 3)) as Hn
    by run_vm.
  assert (config_data with_readings !! CKeys.START_ROW = Some (VInt 2)) as Hs by run_vm.
  assert (range 2 (2 + 0) = []) as Hrange by run_vm.
  assert (Forall2 (λ row p, value_at (worksheet with_readings) row 6 = VInt p)
                  (range 2 (2 + 0)) []) as Hp.
  { rewrite Hrange. constructor. }
  assert (value_at (worksheet with_readings) (2 + 0) 6 = VNone) as Hnone by run_vm.
  exact (total_refuses_a_missing_or_text_actual_value with_readings 3 2 0 []
           Hn Hs ltac:(lia) ltac:(lia) Hp (or_introl Hnone)).
Defined.

(** The second run of the sample household: its block starts at row 9. *)
Lemma second_run_leaves_a_consistent_block :
  _populate_usage later_host second_world = Done (tt, after_second_run) ∧
  ∃ n s note,
    s = 9 ∧ 1 ≤ n ∧
    value_at (worksheet after_second_run) s 9 = VStr note ∧
    py_sum ((λ row, value_at (worksheet after_second_run) row 6) <$> range s (s + n))
      = Ok (value_at (worksheet after_second_run) (s + n) 7) ∧
    s + n + 3 ≤ max_row (worksheet after_second_run).
Proof.
  assert (_populate_usage later_host second_world = Done (tt, after_second_run)) as H
    by run_vm.
  split; [exact H |].
  destruct (completed_run_leaves_a_consistent_block later_host _ _ H)
    as (n & s & formatted & note & Hs & Hn & _ & _ & _ & _ & Hsum & Hnote & Hmax).
  evaluated (max_row (worksheet second_world) + 1) Hs.
  exists n, s, note. split; [exact Hs |]. split; [exact Hn |]. split; [exact Hnote |].
  split; [exact Hsum | exact Hmax].
Defined.

(** The first run of the sample household: the header of the valve
    setting column, with its note. *)
Lemma header_row_after_the_first_run :
  manage_usage first_host first_world = Done (tt, after_first_run) ∧
  value_at (worksheet after_first_run) 1 8 = VStr "Valve Setting" ∧
  comment_at (worksheet after_first_run) 1 8 = Some valve_setting_note.
Proof.
  assert (manage_usage first_host first_world = Done (tt, after_first_run)) as H
    by run_vm.
  assert (usage_file_exists first_host = false) as Hnew by run_vm.
  assert (_cells (worksheet first_world) = ∅) as Hempty by run_vm.
  destruct (first_run_keeps_and_annotates_the_header_row first_host _ _ Hnew Hempty H)
    as (Hheaders & Hnote & _).
  split; [exact H |]. split; [| exact Hnote].
  exact (Hheaders 7%nat "Valve Setting"%string eq_refl).
Defined.

(** The total row of the first block has no valve setting; kept as it is,
    it gives none to row 9. *)
Lemma nothing_to_carry_forward_from_the_total_row :
  _process_valve_setting_update 5 9 (before_update [RYesNo false])
    = Done (tt, kept_missing) ∧
  value_at (worksheet kept_missing) 9 8 = VNone.
Proof.
  assert (_process_valve_setting_update 5 9 (before_update [RYesNo false])
          = Done (tt, kept_missing)) as H by run_vm.
  assert (value_at (worksheet (before_update [RYesNo false])) 5 8 = VNone) as Hnone
    by run_vm.
  assert (value_at (worksheet (before_update [RYesNo false])) 9 8 = VNone) as Hnew
    by run_vm.
  assert (∀ t, transcript kept_missing = transcript (before_update [RYesNo false]) ++ t →
               (AskApplyChange, RYesNo true) ∉ t) as Hkept.
  { intros t Ht.
    evaluated (transcript kept_missing) Ht.
    evaluated (transcript (before_update [RYesNo false])) Ht.
    rewrite app_nil_l in Ht. rewrite <- Ht. not_among. }
  split; [exact H |].
  rewrite (keeping_a_missing_valve_setting_writes_nothing 5 9 _ _ Hnone H Hkept 9 8).
  exact Hnew.
Defined.

(** A household without radiators gets as far as the note. *)
Lemma household_without_radiators_fails_at_the_note :
  _get_notes no_devices = Raise ValueError.
Proof.
  assert (config_data no_devices !! CKeys.RADIATORS_OWNED = Some (VInt 0)) as Hn
    by run_vm.
  assert (config_data no_devices !! CKeys.START_ROW = Some (VInt 2)) as Hs by run_vm.
  assert (true = true → "Away."%string ≠ EmptyString) as Hnote by discriminate.
  assert (stdin no_devices
          = (if true then [RYesNo true; RStr "Away."] else [RYesNo false]) ++ []) as Hin
    by run_vm.
  exact (block_without_devices_fails_at_the_note no_devices 0 2 true "Away." []
           Hn Hs ltac:(lia) Hnote Hin).
Defined.

(** The years of the file name, confirmed at the second entry. *)
Lemma years_confirmed_at_the_second_entry :
  Setup._prompt_usage_name (os := new_machine) 2026 naming = Done (tt, named) ∧
  ∃ (rejected : list string) years,
    length rejected = 1%nat ∧
    Setup.config_data named !! ConfigKeys.USAGE_NAME
    = Some (VStr (Setup.usage_name_of years)).
Proof.
  assert (Setup._prompt_config_option (os := new_machine) (Setup.AskYears 2026 2027)
            RegexP.YEARS ConfigKeys.USAGE_NAME true naming = Done (tt, named)) as H
    by run_vm.
  split; [exact H |].
  destruct (config_option_is_stored_once_confirmed _ _ _ _ _ _ H)
    as (rejected & years & Htr & _ & Hname & _).
  exists rejected, years. split; [| exact Hname].
  apply (f_equal length) in Htr.
  evaluated (length (Setup.transcript named)) Htr.
  evaluated (Setup.transcript naming) Htr.
  rewrite app_nil_l, length_app in Htr. cbn [Setup.option_turn length] in Htr.
  assert (length (concat (Setup.option_turn (Setup.AskYears 2026 2027) true false
                            <$> rejected)) = (2 * length rejected)%nat) as Hlen.
  { clear. induction rejected as [|a l IH]; [reflexivity |].
    cbn [fmap list_fmap concat]. rewrite length_app, IH. cbn [Setup.option_turn length]. lia. }
  rewrite Hlen in Htr. lia.
Defined.

(** The first setup of the sample household. *)
Lemma first_setup_of_the_sample :
  Setup.usage_config_setup (os := new_machine) 2026 with_path = Done (tt, set_up) ∧
  Setup.config_update set_up = true ∧
  ∃ years, Setup.config_data set_up !! ConfigKeys.USAGE_NAME
           = Some (VStr (Setup.usage_name_of years)).
Proof.
  assert (Setup.usage_config_setup (os := new_machine) 2026 with_path
          = Done (tt, set_up)) as H by run_vm.
  split; [exact H |].
  destruct (first_setup_stores_three_settings_and_raises_the_flag 2026 _ _ H)
    as (years & _ & _ & _ & _ & _ & Hname & _ & _ & _ & Hflag).
  split; [exact Hflag |]. exists years. exact Hname.
Defined.

(** A review in which only the date format is changed. *)
Lemma only_the_date_format_is_changed :
  Setup.prompt_usage_config_updates (os := new_machine) 2026 updating
    = Done (tt, updated_settings) ∧
  Setup.config_data updated_settings !! CKeys.RADIATORS_OWNED
  = Setup.config_data updating !! CKeys.RADIATORS_OWNED.
Proof.
  assert (Setup.prompt_usage_config_updates (os := new_machine) 2026 updating
          = Done (tt, updated_settings)) as H by run_vm.
  split; [exact H |].
  destruct (config_updates_change_what_was_asked_for 2026 _ _ H)
    as (name & format & mode & b1 & b2 & b3 & d1 & d2 & d3 & _ & _ & _ & _ & _ & _ & _
        & Hother & _).
  apply Hother; discriminate.
Defined.

(** The usage folder of the sample household, derived from its data
    folder. *)
Lemma usage_folder_of_the_sample :
  ∃ st',
    Setup.update_config_path (os := new_machine) ConfigKeys.USAGE_FOLDER_PATH
      Folds.USAGE_FOLDER unset = Done (tt, st') ∧
    Setup.config_data st'
    = <[ConfigKeys.USAGE_FOLDER_PATH := VStr "/home/ada/thermo/radiators_usage"]>
        (Setup.config_data unset) ∧
    Setup.update_config_path (os := new_machine) ConfigKeys.USAGE_FOLDER_PATH
      Folds.USAGE_FOLDER st' = Done (tt, st').
Proof.
  assert (Setup.config_data unset !! ConfigKeys.EXCEL_FOLDER = Some (VStr data_folder))
    as Hbase by run_vm.
  assert (ConfigKeys.USAGE_FOLDER_PATH ≠ ConfigKeys.EXCEL_FOLDER) as Hkey by discriminate.
  destruct (derived_path_is_settled_by_one_call (os := new_machine)
              ConfigKeys.USAGE_FOLDER_PATH Folds.USAGE_FOLDER data_folder unset Hbase Hkey)
    as (st' & Hrun & Hcfg & _ & _ & _ & _ & Hagain).
  exists st'. split; [exact Hrun |]. split; [exact Hcfg | exact Hagain].
Defined.

(** A later run of the sample household: the folder is there, and the
    settings are reviewed. *)
Lemma settings_are_reviewed_in_a_later_run :
  Setup._configure_usage (os := used_machine) 2026 reviewing = Done (tt, reviewed) ∧
  ∃ folder found,
    Setup.config_data reviewing !! ConfigKeys.USAGE_FOLDER_PATH = Some folder ∧
    Setup.os_path_exists (os := used_machine) folder reviewing = Done (found, reviewing).
Proof.
  assert (Setup._configure_usage (os := used_machine) 2026 reviewing
          = Done (tt, reviewed)) as H by run_vm.
  split; [exact H |].
  destruct (configuration_is_set_up_once_and_reviewed_afterwards 2026 _ _ H)
    as (folder & found & Hfolder & Hfound & _ & _).
  exists folder, found. split; [exact Hfolder | exact Hfound].
Defined.

(** The second run of the sample household: one dialogue per device. *)
Lemma one_dialogue_per_device_of_the_sample :
  _update_valve_setting (before_update one_change) = Done (tt, after_one_change) ∧
  ∃ line outs,
    transcript after_one_change
    = transcript (before_update one_change)
      ++ (ShowInfo VALVE_SETTING_UPDATE, RLine line)
         :: concat (zip_with (dialogue_at (worksheet (before_update one_change)) 2)
                             (range 0 3) outs).
Proof.
  assert (_update_valve_setting (before_update one_change) = Done (tt, after_one_change))
    as H by run_vm.
  assert (config_data (before_update one_change) !! CKeys.RADIATORS_OWNED
          = Some (VInt 3)) as Hn by run_vm.
  assert (config_data (before_update one_change) !! CKeys.START_ROW = Some (VInt 9))
    as Hs by run_vm.
  assert (config_data (before_update one_change) !! CKeys.LAST_START_ROW
          = Some (VInt 2)) as Hl by run_vm.
  split; [exact H |].
  destruct (each_device_ends_with_what_its_dialogue_settled _ _ 3 9 2 Hn Hs Hl
              ltac:(lia) H) as (line & outs & Htr & _).
  exists line, outs. exact Htr.
Defined.



End MoreRuns.
